(** * aind-smartspim-external-dispatcher: a shallow embedding

    The dispatcher capsule of the SmartSPIM pipeline
    ([code/run_capsule.py], [code/utils/utils.py]) embedded as Rocq
    functions, and the properties of its specification proved about them.

    Conventions of the embedding.
    - A Python [int] is a [Z]; a [str] is a [string] (a sequence of bytes,
      so a non-ASCII character is its UTF-8 encoding and string order is
      code-point order).
    - A value read by [json.load] is a [json]; a [dict] keeps its insertion
      order, so it is an association list.
    - A function that can raise returns a [result]; a function with effects
      on the file system or that starts a process is a state transformer
      over [World] that also returns a [result].  The effects performed
      before an exception is raised stay in the returned world.
    - Logging and printing are not modelled; a log call is kept only where
      evaluating its arguments can raise ([os.listdir]). *)

From stdpp Require Import base option list strings gmap sorting pretty.
From Stdlib Require Import ZArith Lia Ascii.
From Stdlib Require HexadecimalString.

Local Open Scope Z_scope.

(** ** Exceptions and results *)

Inductive exn : Type :=
  | BaseException (msg : string)
  | SystemExit (code : Z)
  | ValueError (msg : string)
  | NotImplementedError (msg : string)
  | KeyError (key : string)
  | IndexError
  | TypeError
  | AttributeError
  | UnboundLocalError (name : string)
  | FileNotFoundError (path : string)
  | IsADirectoryError (path : string)
  | JSONDecodeError (path : string)
  | ValidationError
  | OSError (msg : string)
  | CalledProcessError (return_code : Z) (command : string).

(** [except Exception] catches every exception of the model except the
    two that derive from [BaseException] only. *)
Definition is_Exception (e : exn) : bool :=
  match e with
  | BaseException _ | SystemExit _ => false
  | _ => true
  end.

Inductive result (A : Type) : Type :=
  | Ok (a : A)
  | Raise (e : exn).
Arguments Ok {A} a.
Arguments Raise {A} e.

Definition result_bind {A B} (r : result A) (k : A → result B) : result B :=
  match r with
  | Ok a => k a
  | Raise e => Raise e
  end.

Global Instance result_ret : MRet result := @Ok.
Global Instance result_mbind : MBind result := λ A B k r, result_bind r k.

(** ** Channel Color Mapper *)

(** The body shared by the two mappers:
    [for ub, hex_val in color_map.items(): if <test>: return hex_val]
    followed by [return hex_val].  [hex_val] is the loop variable, unbound
    until the first iteration. *)
Fixpoint color_loop (test : Z → bool) (items : list (Z * Z))
    (hex_val : option Z) : result Z :=
  match items with
  | [] =>
      match hex_val with
      | Some h => Ok h
      | None => Raise (UnboundLocalError "hex_val")
      end
  | (ub, h) :: rest =>
      if test ub then Ok h else color_loop test rest (Some h)
  end.

Definition color_map : list (Z * Z) :=
  [ (460, 0x690AFE); (470, 0x3F2EFE); (480, 0x4B90FE); (490, 0x59D5F8);
    (500, 0x5DF8D6); (520, 0x5AFEB8); (540, 0x58FEA1); (560, 0x51FF1E);
    (565, 0xBBFB01); (575, 0xE9EC02); (580, 0xF5C503); (590, 0xF39107);
    (600, 0xF15211); (620, 0xF0121E); (750, 0xF00050) ].

Definition wavelength_to_hex (wavelength : Z) : result Z :=
  color_loop (λ ub, wavelength <? ub) color_map None.

Definition color_map_alternate : list (Z * Z) :=
  [ (500, 0x61ABFD); (530, 0x92FF42); (540, 0xE4FE41); (560, 0xF3D038);
    (580, 0xEAB032); (600, 0xF15F22); (630, 0xED1C24); (680, 0xC51E1F);
    (700, 0xA81F1F) ].

Definition wavelength_to_hex_alternate (wavelength : Z) : result Z :=
  color_loop (λ ub, wavelength <=? ub) color_map_alternate None.

(** ** Python strings *)

(** [sub in s]. *)
Fixpoint contains (sub s : string) : bool :=
  String.prefix sub s ||
  match s with
  | EmptyString => false
  | String _ s' => contains sub s'
  end.

(** [s.split(c)] for a separator of one character. *)
Fixpoint split (c : ascii) (s : string) : list string :=
  match s with
  | EmptyString => [EmptyString]
  | String a s' =>
      if Ascii.eqb a c then EmptyString :: split c s'
      else
        match split c s' with
        | h :: t => String a h :: t
        | [] => [String a EmptyString]
        end
  end.

(** [sep.join(l)]. *)
Definition join (sep : string) (l : list string) : string :=
  String.concat sep l.

(** [s.replace(old, new)] for a non-empty [old]: occurrences are replaced
    from the left and do not overlap.  [skip] counts the characters of an
    occurrence still to be dropped. *)
Fixpoint replace_from (old new : string) (skip : nat) (s : string) : string :=
  match s with
  | EmptyString => EmptyString
  | String a s' =>
      match skip with
      | S k => replace_from old new k s'
      | O =>
          if String.prefix old s
          then new +:+ replace_from old new (Nat.pred (String.length old)) s'
          else String a (replace_from old new O s')
      end
  end.

Definition replace (old new s : string) : string := replace_from old new O s.

(** [s.casefold()], on ASCII letters; other bytes are kept. *)
Definition casefold_char (a : ascii) : ascii :=
  let n := Ascii.nat_of_ascii a in
  if (65 <=? n)%nat && (n <=? 90)%nat then Ascii.ascii_of_nat (n + 32) else a.

Fixpoint casefold (s : string) : string :=
  match s with
  | EmptyString => EmptyString
  | String a s' => String (casefold_char a) (casefold s')
  end.

(** [bool(s)]: a string is true unless it is empty. *)
Definition bool_of_str (s : string) : bool :=
  match s with
  | EmptyString => false
  | String _ _ => true
  end.

(** [s[n:]]. *)
Fixpoint drop_chars (n : nat) (s : string) : string :=
  match n, s with
  | O, _ => s
  | S _, EmptyString => EmptyString
  | S k, String _ s' => drop_chars k s'
  end.

(** [s.rfind(c)] as an option. *)
Fixpoint rfind (c : ascii) (s : string) : option nat :=
  match s with
  | EmptyString => None
  | String a s' =>
      match rfind c s' with
      | Some i => Some (S i)
      | None => if Ascii.eqb a c then Some O else None
      end
  end.

(** [s[:n]]. *)
Fixpoint take_chars (n : nat) (s : string) : string :=
  match n, s with
  | O, _ => EmptyString
  | S _, EmptyString => EmptyString
  | S k, String a s' => String a (take_chars k s')
  end.

(** [str(n)] and [hex(n)] of an [int]. *)
Definition str_of_int (n : Z) : string := pretty n.

Definition hex_digits (n : N) : string :=
  HexadecimalString.NilZero.string_of_uint (N.to_hex_uint n).

Definition hex (n : Z) : string :=
  if n <? 0 then "-0x" +:+ hex_digits (Z.to_N (- n))
  else "0x" +:+ hex_digits (Z.to_N n).

(** [repr(s)] of a string.  Single quotes are used unless the string has a
    single quote and no double quote; the quote in use, the backslash and
    the control characters are escaped.  Bytes above 127 are kept. *)
Definition dquote : ascii := "034"%char.
Definition squote : ascii := "039"%char.
Definition backslash : ascii := "092"%char.

Fixpoint has_char (c : ascii) (s : string) : bool :=
  match s with
  | EmptyString => false
  | String a s' => Ascii.eqb a c || has_char c s'
  end.

Definition hex2 (n : nat) : string :=
  let d := hex_digits (N.of_nat n) in
  if (n <? 16)%nat then "0" +:+ d else d.

Definition repr_char (quote a : ascii) : string :=
  let n := Ascii.nat_of_ascii a in
  if Ascii.eqb a quote || Ascii.eqb a backslash
  then String backslash (String a EmptyString)
  else if (n =? 9)%nat then String backslash "t"
  else if (n =? 10)%nat then String backslash "n"
  else if (n =? 13)%nat then String backslash "r"
  else if (n <? 32)%nat || (n =? 127)%nat then String backslash ("x" +:+ hex2 n)
  else String a EmptyString.

Fixpoint repr_chars (quote : ascii) (s : string) : string :=
  match s with
  | EmptyString => EmptyString
  | String a s' => repr_char quote a +:+ repr_chars quote s'
  end.

Definition repr_str (s : string) : string :=
  let quote := if has_char squote s && negb (has_char dquote s)
               then dquote else squote in
  String quote (repr_chars quote s +:+ String quote EmptyString).

(** [repr(l)] of a list of strings. *)
Definition repr_str_list (l : list string) : string :=
  "[" +:+ join ", " (repr_str <$> l) +:+ "]".

(** [int(s)] in base 10 of an ASCII text: the white space of C around the
    number is ignored, a sign is allowed, and so is one underscore between
    two digits. *)
Definition is_int_space (a : ascii) : bool :=
  let n := Ascii.nat_of_ascii a in
  ((9 <=? n)%nat && (n <=? 13)%nat) || (n =? 32)%nat.

Fixpoint lstrip (s : string) : string :=
  match s with
  | EmptyString => EmptyString
  | String a s' => if is_int_space a then lstrip s' else s
  end.

Definition strip (s : string) : string :=
  String.rev (lstrip (String.rev (lstrip s))).

Definition digit_of (a : ascii) : option Z :=
  Z.of_nat <$> Ascii.is_nat a.

(** [after_digit] tells whether the previous character was a digit. *)
Fixpoint int_digits (s : string) (acc : Z) (after_digit : bool) : option Z :=
  match s with
  | EmptyString => if after_digit then Some acc else None
  | String a s' =>
      match digit_of a with
      | Some d => int_digits s' (10 * acc + d) true
      | None =>
          if Ascii.eqb a "_"%char && after_digit then
            match s' with
            | String b _ =>
                if is_Some_dec (digit_of b) then int_digits s' acc false
                else None
            | EmptyString => None
            end
          else None
      end
  end.

Definition int_of_ascii (s : string) : result Z :=
  let body := strip s in
  let parsed :=
    match body with
    | String "-" rest => Z.opp <$> int_digits rest 0 false
    | String "+" rest => int_digits rest 0 false
    | _ => int_digits body 0 false
    end in
  match parsed with
  | Some n => Ok n
  | None =>
      Raise (ValueError ("invalid literal for int() with base 10: "
                         +:+ repr_str s))
  end.

(** The text has only ASCII characters. *)
Fixpoint is_ascii (s : string) : bool :=
  match s with
  | EmptyString => true
  | String a s' => (Ascii.nat_of_ascii a <? 128)%nat && is_ascii s'
  end.

(** ** Paths ([pathlib.PurePosixPath]) *)

Record PurePath : Type := { root : string; parts : list string }.

Definition is_component (c : string) : bool :=
  match c with
  | EmptyString => false
  | String "." EmptyString => false
  | _ => true
  end.

Fixpoint leading_slashes (s : string) : nat :=
  match s with
  | String "/" s' => S (leading_slashes s')
  | _ => O
  end.

(** [Path(s)]: empty components and ["."] are dropped; exactly two leading
    slashes are kept as the root ["//"], any other number is ["/"]. *)
Definition Path (s : string) : PurePath :=
  {| root := match leading_slashes s with
             | O => EmptyString
             | 2%nat => "//"
             | _ => "/"
             end;
     parts := List.filter is_component (split "/" s) |}.

(** [str(p)]. *)
Definition path_str (p : PurePath) : string :=
  match root p, parts p with
  | EmptyString, [] => "."
  | r, ps => r +:+ join "/" ps
  end.

(** [p.name]. *)
Definition path_name (p : PurePath) : string :=
  List.last (parts p) EmptyString.

(** [p.stem]: the name up to its last dot, when that dot is neither the
    first nor the last character of the name. *)
Definition path_stem (p : PurePath) : string :=
  let name := path_name p in
  match rfind "." name with
  | Some i =>
      if (0 <? i)%nat && (i <? Nat.pred (String.length name))%nat
      then take_chars i name else name
  | None => name
  end.

(** [p.joinpath(child)]. *)
Definition joinpath (p : PurePath) (child : string) : PurePath :=
  let c := Path child in
  match root c with
  | EmptyString => {| root := root p; parts := parts p ++ parts c |}
  | _ => c
  end.

(** [os.path.normpath] and [os.path.abspath] (POSIX). *)
Definition normpath_step (slashes : nat) (new_comps : list string)
    (comp : string) : list string :=
  if negb (is_component comp) then new_comps
  else if negb (String.eqb comp "..")
          || (Nat.eqb slashes 0 && Nat.eqb (length new_comps) 0)
          || (match List.last new_comps EmptyString with
              | ".." => negb (Nat.eqb (length new_comps) 0)
              | _ => false
              end)
  then new_comps ++ [comp]
  else List.removelast new_comps.

Definition normpath (path : string) : string :=
  match path with
  | EmptyString => "."
  | _ =>
      let slashes := match leading_slashes path with
                     | O => O
                     | 2%nat => 2%nat
                     | _ => 1%nat
                     end in
      let comps := fold_left (normpath_step slashes) (split "/" path) [] in
      let body := join "/" comps in
      let full := match slashes with
                  | O => body
                  | 1%nat => "/" +:+ body
                  | _ => "//" +:+ body
                  end in
      match full with
      | EmptyString => "."
      | _ => full
      end
  end.

Definition ends_with_slash (s : string) : bool :=
  match String.rev s with
  | String "/" _ => true
  | _ => false
  end.

Definition abspath (cwd path : string) : string :=
  match path with
  | String "/" _ => normpath path
  | _ =>
      normpath (if ends_with_slash cwd then cwd +:+ path
                else cwd +:+ "/" +:+ path)
  end.

(** ** JSON values as Python objects *)

(** A [float] carries its [repr]; its arithmetic is never used. *)
#[local] Unset Elimination Schemes.
Inductive json : Type :=
  | JNull
  | JBool (b : bool)
  | JInt (n : Z)
  | JFloat (repr : string)
  | JStr (s : string)
  | JList (items : list json)
  | JDict (items : list (string * json)).
#[local] Set Elimination Schemes.

Definition dict : Type := list (string * json).

(** [d.get(key)] on the items of a dict. *)
Fixpoint dict_get (key : string) (d : dict) : option json :=
  match d with
  | [] => None
  | (k, v) :: d' => if String.eqb k key then Some v else dict_get key d'
  end.

(** [d[key] = v]: an existing key keeps its place, a new one goes last. *)
Fixpoint dict_set (key : string) (v : json) (d : dict) : dict :=
  match d with
  | [] => [(key, v)]
  | (k, v0) :: d' =>
      if String.eqb k key then (k, v) :: d' else (k, v0) :: dict_set key v d'
  end.

(** [repr(x)] and [str(x)]. *)
Fixpoint repr (x : json) : string :=
  match x with
  | JNull => "None"
  | JBool true => "True"
  | JBool false => "False"
  | JInt n => str_of_int n
  | JFloat r => r
  | JStr s => repr_str s
  | JList l => "[" +:+ join ", " (List.map repr l) +:+ "]"
  | JDict d =>
      "{" +:+ join ", " (List.map (λ kv, repr_str kv.1 +:+ ": " +:+ repr kv.2) d)
          +:+ "}"
  end.

Definition str (x : json) : string :=
  match x with
  | JStr s => s
  | _ => repr x
  end.

(** Truth value of an object. *)
Definition truthy (x : json) : bool :=
  match x with
  | JNull => false
  | JBool b => b
  | JInt n => negb (n =? 0)
  | JFloat r => negb (String.eqb r "0.0" || String.eqb r "-0.0")
  | JStr s => bool_of_str s
  | JList l => negb (Nat.eqb (length l) 0)
  | JDict d => negb (Nat.eqb (length d) 0)
  end.

(** [x[key]] for a string key. *)
Definition getitem (x : json) (key : string) : result json :=
  match x with
  | JDict d =>
      match dict_get key d with
      | Some v => Ok v
      | None => Raise (KeyError key)
      end
  | _ => Raise TypeError
  end.

Fixpoint chars (s : string) : list json :=
  match s with
  | EmptyString => []
  | String a s' => JStr (String a EmptyString) :: chars s'
  end.

(** [x[i]] for an integer index; a negative index counts from the end.
    The keys of a dict read from JSON are strings, so an integer is never
    one of them. *)
Definition index_list {A} (l : list A) (i : Z) : result A :=
  let j := if i <? 0 then i + Z.of_nat (length l) else i in
  if j <? 0 then Raise IndexError
  else match l !! Z.to_nat j with
       | Some v => Ok v
       | None => Raise IndexError
       end.

Definition getindex (x : json) (i : Z) : result json :=
  match x with
  | JList l => index_list l i
  | JStr s => index_list (chars s) i
  | JDict _ => Raise (KeyError (str_of_int i))
  | _ => Raise TypeError
  end.

(** [x[key] = v] for a string key. *)
Definition setitem (x : json) (key : string) (v : json) : result json :=
  match x with
  | JDict d => Ok (JDict (dict_set key v d))
  | _ => Raise TypeError
  end.

(** [len(x)] and the elements [for e in x] visits. *)
Definition len (x : json) : result Z :=
  match x with
  | JList l => Ok (Z.of_nat (length l))
  | JDict d => Ok (Z.of_nat (length d))
  | JStr s => Ok (Z.of_nat (String.length s))
  | _ => Raise TypeError
  end.

Definition iter (x : json) : result (list json) :=
  match x with
  | JList l => Ok l
  | JDict d => Ok (List.map (λ kv, JStr kv.1) d)
  | JStr s => Ok (chars s)
  | _ => Raise TypeError
  end.

(** ** The world: file system, processes, external services *)

(** A regular file holds a JSON document (written by [json.dump] or by a
    schema object, with the indentation that was asked for) or text that is
    not a JSON document. *)
Inductive content : Type :=
  | Json (indent : option nat) (doc : json)
  | Text (s : string).

(** Paths are compared as they are spelled.  Faults of the host that the
    code does not look at (permissions, a missing parent directory, a full
    disk) are outside the model: writing a file always succeeds. *)
Record World : Type := {
  files : gmap string content;
  dirs : gset string;
}.

Definition M (A : Type) : Type := World → result A * World.

Definition ret {A} (a : A) : M A := λ w, (Ok a, w).
Definition raise {A} (e : exn) : M A := λ w, (Raise e, w).
Definition bind {A B} (m : M A) (k : A → M B) : M B :=
  λ w, match m w with
       | (Ok a, w') => k a w'
       | (Raise e, w') => (Raise e, w')
       end.

Global Instance M_ret : MRet M := @ret.
Global Instance M_bind : MBind M := λ A B k m, bind m k.

(** A pure computation that can raise, run inside [M]. *)
Definition lift {A} (r : result A) : M A := λ w, (r, w).

(** [try: body / except Exception: handler]. *)
Definition try_except {A} (body : M A) (handler : exn → M A) : M A :=
  λ w, match body w with
       | (Raise e, w') =>
           if is_Exception e then handler e w' else (Raise e, w')
       | ok => ok
       end.

(** [for x in l: body x]. *)
Fixpoint for_each {A} (l : list A) (body : A → M unit) : M unit :=
  match l with
  | [] => ret ()
  | x :: l' => _ ← body x; for_each l' body
  end.

(** The operating system, the programs the capsule starts, and the part of
    the interpreter that is not spelled out here. *)
Class Host : Type := {
  (** [os.getcwd()] *)
  cwd : string;
  (** [sys.argv] *)
  argv : list string;
  (** [glob.glob(pattern)], in the order the file system lists the entries *)
  glob : World → string → list string;
  (** [os.listdir(path)] *)
  listdir : World → string → result (list string);
  (** [datetime.now()] *)
  now : World → string;
  (** a shell command run to completion: the lines it prints, its exit
      status, and the world it leaves *)
  shell : string → World → list string * Z * World;
  (** [int(s)] as the interpreter answers for a text that is beyond ASCII,
      where its Unicode tables say which characters are digits and
      spaces, or that is longer than its default limit on the digits of a
      number *)
  int_unicode : string → result Z;
  (** [re.search(r"Ex_(\d{3})_Em_(\d{3})$", s).group()] as the interpreter
      answers for a text that is beyond ASCII *)
  search_unicode : string → result string;
}.

(** [Path(p).exists()] and [os.path.exists(p)]. *)
Definition exists_ (w : World) (p : string) : bool :=
  bool_decide (is_Some (files w !! p)) || bool_decide (p ∈ dirs w).

Definition path_exists (p : string) : M bool := λ w, (Ok (exists_ w p), w).

(** [open(p, "w")] followed by a write of the whole content. *)
Definition write_file (p : string) (c : content) : M unit :=
  λ w, (Ok (), {| files := <[p := c]> (files w); dirs := dirs w |}).

(** [open(p)] for reading. *)
Definition open_read (p : string) : M content :=
  λ w, match files w !! p with
       | Some c => (Ok c, w)
       | None =>
           if bool_decide (p ∈ dirs w) then (Raise (IsADirectoryError p), w)
           else (Raise (FileNotFoundError p), w)
       end.

(** [json.load] of an open file. *)
Definition json_load (p : string) (c : content) : result json :=
  match c with
  | Json _ doc => Ok doc
  | Text _ => Raise (JSONDecodeError p)
  end.

(** The schema library ([aind_data_schema], [pydantic]) and the viewer
    library ([ng_link]): objects the code builds and passes on without
    looking inside, and the calls that validate or serialise them. *)
Module aind_schema.
Record PipelineProcess (DP : Type) : Type := {
    data_processes : list DP;
    processor_full_name : string;
    pipeline_version : string;
    pipeline_url : string;
}.
Arguments data_processes {DP} _.
Arguments processor_full_name {DP} _.
Arguments pipeline_version {DP} _.
Arguments pipeline_url {DP} _.

Record Processing (DP : Type) : Type := {
    processing_pipeline : PipelineProcess DP;
    notes : option string;
}.
Arguments processing_pipeline {DP} _.
Arguments notes {DP} _.
End aind_schema.
Abbreviation PipelineProcess := aind_schema.PipelineProcess.
Abbreviation Processing := aind_schema.Processing.

Class Schema : Type := {
  DataProcess : Type;
  (** [TypeAdapter(Processing).validate_python] *)
  validate_python : json → option (Processing DataProcess);
  (** [Processing.model_dump_json] *)
  model_dump_json : Processing DataProcess → json;
  PIDName : Type;
  PIDName_parse_obj : json → result PIDName;
  PIDName_Unknown : PIDName;
  Funding : Type;
  Funding_validate_python : json → result Funding;
  Organization : Type;
  Organization_from_abbreviation : json → result Organization;
  DerivedDataDescription : Type;
  (** the constructor, with the keyword arguments in the order of the call *)
  DerivedDataDescription_new :
    string → json → string → Organization → list Funding → json →
    list PIDName → json → json → json → result DerivedDataDescription;
  DerivedDataDescription_name : DerivedDataDescription → string;
  DerivedDataDescription_model_dump_json : DerivedDataDescription → json;
  (** [NgState(input_config, mount_service, bucket_path, output_dir,
      base_url, json_name).state] *)
  NgState_state :
    json → string → string → string → string → string → result dict;
}.

Section Capsule.
Context {the_host : Host} {the_schema : Schema}.

(** ** [utils/utils.py] *)

(** [shutil.SameFileError] is an [OSError]. *)
Definition SameFileError (msg : string) : exn := OSError msg.

(** [os.path.basename]. *)
Definition basename (p : string) : string := List.last (split "/" p) EmptyString.

(** [copy_file]: [shutil.copy] of a regular file, onto a file name or into
    a directory. *)
Definition copy_file (input_filename output_filename : string) : M unit :=
  λ w,
    let dst := if bool_decide (output_filename ∈ dirs w)
               then (if ends_with_slash output_filename then output_filename
                     else output_filename +:+ "/") +:+ basename input_filename
               else output_filename in
    if String.eqb input_filename dst then
      (Raise (SameFileError ("The filename " +:+ input_filename
                             +:+ " already exists in the output path.")), w)
    else (c ← open_read input_filename; write_file dst c) w.

(** [create_folder]. *)
Definition create_folder (dest_dir : string) : M unit :=
  λ w, if exists_ w dest_dir then (Ok (), w)
       else (Ok (), {| files := files w; dirs := {[dest_dir]} ∪ dirs w |}).

(** [execute_command_helper], drained by its caller's [for] loop: the
    lines the command printed, then [CalledProcessError] when its exit
    status is not zero. *)
Definition execute_command_helper (command : string) : M (list string) :=
  λ w, let '(lines, return_code, w') := shell command w in
       if return_code =? 0 then (Ok lines, w')
       else (Raise (CalledProcessError return_code command), w').

(** [save_dict_as_json].  The loop that turns [Path] values into strings
    finds none in a dictionary of JSON values, but needs a dictionary. *)
Definition save_dict_as_json (filename : string) (dictionary : json) : M unit :=
  match dictionary with
  | JNull => write_file filename (Json (Some 4%nat) (JDict []))
  | JDict _ => write_file filename (Json (Some 4%nat) dictionary)
  | _ => raise AttributeError
  end.

(** [read_json_as_dict]. *)
Definition read_json_as_dict (filepath : string) : M json :=
  found ← path_exists filepath;
  if found : bool then
    c ← open_read filepath;
    lift (json_load filepath c)
  else ret (JDict []).

Definition newline : string := String "010"%char EmptyString.

(** [save_string_to_txt], in mode ["w"]. *)
Definition save_string_to_txt (txt filepath : string) : M unit :=
  write_file filepath (Text (txt +:+ newline)).

(** [validate_capsule_inputs]. *)
Definition validate_capsule_inputs (input_elements : list string)
    : M (list string) :=
  λ w, (Ok (fold_left
              (λ missing_inputs required_input_element,
                 let required_input_element := Path required_input_element in
                 if exists_ w (path_str required_input_element)
                 then missing_inputs
                 else missing_inputs ++ [path_str required_input_element])
              input_elements []), w).

(** [[f x for x in l]] where [f] can raise. *)
Fixpoint map_result {A B} (f : A → result B) (l : list A) : result (list B) :=
  match l with
  | [] => Ok []
  | x :: l' => y ← f x; ys ← map_result f l'; Ok (y :: ys)
  end.

(** [generate_data_description].  [institution] is bound only when the
    raw description gives the institution as an object with an
    abbreviation. *)
Definition generate_data_description
    (raw_data_description_path dest_data_description process_name : string)
    : M string :=
  f ← open_read raw_data_description_path;
  data ← lift (json_load raw_data_description_path f);
  inst ← lift (getitem data "institution");
  institution ← lift (match inst with
                      | JDict d =>
                          match dict_get "abbreviation" d with
                          | Some a => Ok (Some a)
                          | None => Ok None
                          end
                      | _ => Ok None
                      end);
  investigators ← lift (getitem data "investigators");
  investigators ← lift (
    n ← len investigators;
    first_len ← (if n =? 0 then Ok 0
                 else first ← getindex investigators 0; len first);
    if first_len =? 0 then Ok [PIDName_Unknown]
    else invs ← iter investigators; map_result PIDName_parse_obj invs);
  funding ← lift (getitem data "funding_source");
  funding_sources ← lift (fs ← iter funding;
                          map_result Funding_validate_python fs);
  creation_time ← (λ w, (Ok (now w), w));
  derived ← lift (
    input_data_name ← getitem data "name";
    abbreviation ← match institution with
                   | Some a => Ok a
                   | None => Raise (UnboundLocalError "institution")
                   end;
    organization ← Organization_from_abbreviation abbreviation;
    group ← getitem data "group";
    project_name ← getitem data "project_name";
    restrictions ← getitem data "restrictions";
    subject_id ← getitem data "subject_id";
    DerivedDataDescription_new creation_time input_data_name process_name
      organization funding_sources group investigators project_name
      restrictions subject_id);
  _ ← write_file (dest_data_description +:+ "/data_description.json")
        (Json None (DerivedDataDescription_model_dump_json derived));
  ret (DerivedDataDescription_name derived).

(** [copy_available_metadata]. *)
Fixpoint copy_available_metadata_loop (input_path output_path : PurePath)
    (files_to_copy : list string) (found_metadata : list string)
    : M (list string) :=
  match files_to_copy with
  | [] => ret found_metadata
  | metadata_filename :: rest =>
      let metadata_filename := joinpath input_path metadata_filename in
      found ← path_exists (path_str metadata_filename);
      if found : bool then
        let output_filename :=
          joinpath output_path (path_name metadata_filename) in
        _ ← copy_file (path_str metadata_filename) (path_str output_filename);
        copy_available_metadata_loop input_path output_path rest
          (found_metadata ++ [path_str metadata_filename])
      else
        copy_available_metadata_loop input_path output_path rest found_metadata
  end.

Definition copy_available_metadata (input_path output_path : string)
    (files_to_copy : list string) : M (list string) :=
  copy_available_metadata_loop (Path input_path) (Path output_path)
    files_to_copy [].

(** [generate_processing].  [write_standard_file] puts the document, with
    an indentation of 3, in the file [processing.json] of the directory. *)
Definition generate_processing (data_processes : list DataProcess)
    (dest_processing processor_full_name pipeline_version : string)
    : M string :=
  let processing_pipeline :=
    {| aind_schema.data_processes := data_processes;
       aind_schema.processor_full_name := processor_full_name;
       aind_schema.pipeline_version := pipeline_version;
       aind_schema.pipeline_url :=
         "https://github.com/AllenNeuralDynamics/aind-smartspim-pipeline" |} in
  let processing :=
    {| aind_schema.processing_pipeline := processing_pipeline;
       aind_schema.notes := Some "This processing was generated by compiling independent processing jsons for every step" |} in
  _ ← write_file (dest_processing +:+ "/processing.json")
        (Json (Some 3%nat) (model_dump_json processing));
  ret dest_processing.

(** The first lines of the loop of [compile_processing_jsons]: a fragment
    is read, parsed and validated. *)
Definition load_processing (processing_path : string)
    : M (Processing DataProcess) :=
  curr_processing ← read_json_as_dict processing_path;
  lift (match validate_python curr_processing with
        | Some curr_processing_obj => Ok curr_processing_obj
        | None => Raise ValidationError
        end).

(** The loop of [compile_processing_jsons]: the processes of every
    fragment are appended one by one. *)
Fixpoint compile_processing_loop (processing_paths : list string)
    (data_processes : list DataProcess) : M (list DataProcess) :=
  match processing_paths with
  | [] => ret data_processes
  | processing_path :: rest =>
      curr_processing_obj ← load_processing processing_path;
      compile_processing_loop rest
        (fold_left (λ acc data_process, acc ++ [data_process])
           (aind_schema.data_processes
              (aind_schema.processing_pipeline curr_processing_obj))
           data_processes)
  end.

(** [compile_processing_jsons]. *)
Definition compile_processing_jsons (processing_paths : list string)
    (output_general_processing processor_full_name pipeline_version : string)
    : M string :=
  data_processes ← compile_processing_loop processing_paths [];
  generate_processing data_processes output_general_processing
    processor_full_name pipeline_version.

(** ** [run_capsule.py] *)

Definition PIPELINE_VERSION : string := "2.0.2".

Definition glob_ (pattern : string) : M (list string) :=
  λ w, (Ok (glob w pattern), w).

Definition listdir_ (path : string) : M (list string) :=
  λ w, (listdir w path, w).

(** One turn of the loop of [dispatch].  [copy_pipeline_config] is a
    shallow copy: it is a new dictionary, but its ["segmentation"] entry is
    the very object [pipeline_config] holds, so the three assignments to
    that entry show in [pipeline_config] as well, while the
    ["quantification"] entry is set in the copy alone.  The turn returns
    [pipeline_config] as the assignments leave it, and the copy. *)
Definition dispatch_channel (pipeline_config channel_to_segment
    background_channel : json) : result (json * json) :=
  segmentation ← getitem pipeline_config "segmentation";
  segmentation ← setitem segmentation "input_data" (JStr "../data/fused");
  segmentation ← setitem segmentation "channel" channel_to_segment;
  segmentation ← setitem segmentation "background_channel" background_channel;
  pipeline_config ← setitem pipeline_config "segmentation" segmentation;
  let quantification :=
    JDict [ ("fused_folder", JStr "../data/fused");
            ("channel", channel_to_segment);
            ("save_path", JStr "../results/") ] in
  copy_pipeline_config ← setitem pipeline_config "quantification" quantification;
  Ok (pipeline_config, copy_pipeline_config).

Fixpoint dispatch_loop (results_folder : string) (background_channel : json)
    (segment_channels : list json) (pipeline_config : json) : M json :=
  match segment_channels with
  | [] => ret pipeline_config
  | channel_to_segment :: rest =>
      '(pipeline_config, copy_pipeline_config) ←
        lift (dispatch_channel pipeline_config channel_to_segment
                background_channel);
      _ ← save_dict_as_json
            (results_folder +:+ "/segmentation_processing_manifest_"
               +:+ str channel_to_segment +:+ ".json")
            copy_pipeline_config;
      dispatch_loop results_folder background_channel rest pipeline_config
  end.

(** [dispatch].  It returns nothing in the source; here it returns the
    processing manifest as its caller sees it afterwards, since the loop
    changes the ["segmentation"] entry the manifest holds. *)
Definition dispatch (processing_manifest : json) (results_folder : string)
    : M json :=
  pipeline_config ← lift (match processing_manifest with
                          | JDict d =>
                              Ok (default JNull (dict_get "pipeline_processing" d))
                          | _ => Raise AttributeError
                          end);
  if truthy pipeline_config then
    '(segment_channels, background_channel) ← lift (
      segmentation ← getitem pipeline_config "segmentation";
      segment_channels ← getitem segmentation "channels";
      pipeline_processing ← getitem processing_manifest "pipeline_processing";
      registration ← getitem pipeline_processing "registration";
      channels ← getitem registration "channels";
      background_channel ← getindex channels 0;
      Ok (segment_channels, background_channel));
    n ← lift (len segment_channels);
    if n =? 0 then
      raise (BaseException "Stopping pipeline, no segmentation channels.")
    else
      channels ← lift (iter segment_channels);
      pipeline_config ← dispatch_loop results_folder background_channel
                          channels pipeline_config;
      lift (setitem processing_manifest "pipeline_processing" pipeline_config)
  else
    raise (BaseException "Stopping pipeline, pipeline configuration.").

(** [re.search(r"Ex_(\d{3})_Em_(\d{3})$", s)] and [.group()] of the match,
    for an ASCII text: the pattern at the end of the text, or before its
    last newline.  No match gives [None], whose [.group()] is an
    [AttributeError]. *)
Definition is_digit (a : ascii) : bool :=
  if Ascii.is_nat a is Some _ then true else false.

Definition is_channel_name (t : string) : bool :=
  match t with
  | String "E" (String "x" (String "_" (String a (String b (String c
      (String "_" (String "E" (String "m" (String "_" (String d (String e
        (String f EmptyString)))))))))))) =>
      is_digit a && is_digit b && is_digit c
      && is_digit d && is_digit e && is_digit f
  | _ => false
  end.

Definition search_channels_ascii (s : string) : result string :=
  let n := String.length s in
  let at_end := drop_chars (n - 13) s in
  let before_newline := take_chars 13 (drop_chars (n - 14) s) in
  if is_channel_name at_end then Ok at_end
  else if (match String.rev s with
           | String "010" _ => true
           | _ => false
           end) && is_channel_name before_newline
  then Ok before_newline
  else Raise AttributeError.

(** The same search on any text: beyond ASCII the interpreter decides. *)
Definition search_channels (s : string) : result string :=
  if is_ascii s then search_channels_ascii s else search_unicode s.

(** [[p for p in glob(f"{folder}/metadata/*processing*.json")
      if "manifest" not in str(p)]] *)
Definition processing_jsons (folder : string) : M (list string) :=
  found ← glob_ (folder +:+ "/metadata/*processing*.json");
  ret (List.filter (λ p, negb (contains "manifest" p)) found).

(** [for x in l: acc.append(body x)] *)
Fixpoint for_append {A B} (l : list A) (body : A → M B) (acc : list B)
    : M (list B) :=
  match l with
  | [] => ret acc
  | x :: l' => y ← body x; for_append l' body (acc ++ [y])
  end.

(** [for sub_list in combined: processing_paths += sub_list] *)
Definition flatten (combined : list (list string)) : list string :=
  fold_left (λ processing_paths sub_list, processing_paths ++ sub_list)
    combined [].

(** The first part of [clean_up]: the fragment paths it hands to
    [compile_processing_jsons], and the folders it found. *)
Definition clean_up_processing_paths (data_folder : string)
    : M (list string * list string * list string) :=
  _ ← listdir_ data_folder;
  cell_folders ← glob_ (data_folder +:+ "/cell_*");
  quantification_folders ← glob_ (data_folder +:+ "/quant_*");
  segmentation_processing ← for_append cell_folders processing_jsons [];
  quantification_processing ←
    for_append quantification_folders processing_jsons [];
  let combined_processing_list :=
    [[data_folder +:+ "/output_aind_metadata/processing.json"]]
      ++ segmentation_processing ++ quantification_processing in
  ret (flatten combined_processing_list, cell_folders, quantification_folders).

(** [for out in execute_command_helper(command): ...] where the body only
    logs or prints: the command runs and its lines are dropped. *)
Definition execute_ (command : string) : M unit :=
  _ ← execute_command_helper command; ret ().

(** The second part of [clean_up]: what follows the compilation.  Outside
    cloud mode the two output names are never bound, and the summary files
    cannot be written. *)
Definition clean_up_relocate (processing_manifest : json)
    (results_folder : string) (cell_folders quantification_folders : list string)
    (cloud_mode : bool) : M unit :=
  outputs ←
    (if cloud_mode then
       s3_path ← lift (
         pipeline_processing ← getitem processing_manifest "pipeline_processing";
         stitching ← getitem pipeline_processing "stitching";
         getitem stitching "s3_path");
       let s3_path := str s3_path in
       let cell_s3_output := s3_path +:+ "/image_cell_segmentation" in
       let quantification_s3_output :=
         s3_path +:+ "/image_cell_quantification" in
       _ ← execute_ ("aws s3 mv " +:+ results_folder +:+ "/processing.json "
                       +:+ s3_path +:+ "/processing.json");
       _ ← for_each cell_folders (λ cell_folder,
             channel_name ← lift (search_channels cell_folder);
             execute_ ("aws s3 mv --recursive " +:+ cell_folder +:+ " "
                         +:+ cell_s3_output +:+ "/" +:+ channel_name));
       _ ← for_each quantification_folders (λ quantification_folder,
             channel_name ← lift (search_channels quantification_folder);
             execute_ ("aws s3 mv --recursive " +:+ quantification_folder
                         +:+ " " +:+ quantification_s3_output +:+ "/"
                         +:+ channel_name));
       ret (Some (cell_s3_output, quantification_s3_output))
     else ret None);
  match outputs with
  | Some (cell_s3_output, quantification_s3_output) =>
      _ ← save_string_to_txt
            ("Results of cell segmentation saved in: " +:+ cell_s3_output)
            (results_folder +:+ "/output_cell.txt");
      save_string_to_txt
        ("Results of quantification saved in: " +:+ quantification_s3_output)
        (results_folder +:+ "/output_quantification.txt")
  | None => raise (UnboundLocalError "cell_s3_output")
  end.

(** [clean_up]. *)
Definition clean_up (processing_manifest : json)
    (data_folder results_folder : string) (cloud_mode : bool) : M unit :=
  '(processing_paths, cell_folders, quantification_folders) ←
    clean_up_processing_paths data_folder;
  output_filename ← compile_processing_jsons processing_paths results_folder
                      "Camilo Laiton" PIPELINE_VERSION;
  clean_up_relocate processing_manifest results_folder cell_folders
    quantification_folders cloud_mode.

(** [get_data_config]. *)
Definition get_data_config (data_folder processing_manifest_path
    data_description_path : string) : M (json * json * json) :=
  let processing_manifest_path :=
    Path (data_folder +:+ "/" +:+ processing_manifest_path) in
  let data_description_path :=
    Path (data_folder +:+ "/" +:+ data_description_path) in
  found ← path_exists (path_str processing_manifest_path);
  if negb found then
    raise (ValueError ("Please, check processing manifest path: "
                       +:+ path_str processing_manifest_path))
  else
    found ← path_exists (path_str data_description_path);
    if negb found then
      raise (ValueError ("Please, check data description path: "
                         +:+ path_str data_description_path))
    else
      derivatives_dict ← read_json_as_dict (path_str processing_manifest_path);
      data_description_dict ←
        read_json_as_dict (path_str data_description_path);
      smartspim_dataset ← lift (getitem data_description_dict "name");
      investigators ← lift (getitem data_description_dict "investigators");
      ret (derivatives_dict, smartspim_dataset, investigators).

(** The first part of [copy_intermediate_data]: the fragment paths it hands
    to [compile_processing_jsons]. *)
Definition copy_intermediate_processing_paths
    (destripe_files stitch_folders fuse_folders ccf_folders : list string)
    : M (list string) :=
  stitch_processings ← for_append stitch_folders processing_jsons [];
  fuse_processings ← for_append fuse_folders processing_jsons [];
  ccf_processings ← for_append ccf_folders processing_jsons [];
  let combined_processing_list :=
    stitch_processings ++ fuse_processings ++ ccf_processings in
  let processing_paths := flatten combined_processing_list in
  ret (destripe_files ++ processing_paths).

(** The second part of [copy_intermediate_data]: what follows the
    [try] statement. *)
Definition copy_intermediate_relocate (output_dispatch_metadata : string)
    (flatfield_channels stitch_folders fuse_folders ccf_folders : list string)
    (new_dataset_name output_path results_folder : string) (cloud_mode : bool)
    : M (string * string) :=
  if cloud_mode then
    let s3_path := "s3://" +:+ output_path +:+ "/" +:+ new_dataset_name in
    let output_dispatch_metadata := path_str (Path output_dispatch_metadata) in
    _ ← execute_ ("aws s3 cp --recursive " +:+ output_dispatch_metadata
                    +:+ " " +:+ s3_path);
    let output_fusion := "image_tile_fusing" in
    let dest_zarr_path := s3_path +:+ "/" +:+ output_fusion +:+ "/OMEZarr" in
    let dest_metadata_path :=
      s3_path +:+ "/" +:+ output_fusion +:+ "/metadata" in
    _ ← for_each flatfield_channels (λ flatfield_channel,
          let flatfield_channel_name := path_name (Path flatfield_channel) in
          execute_ ("aws s3 cp --recursive " +:+ flatfield_channel +:+ " "
                      +:+ dest_metadata_path +:+ "/flatfield_correction/"
                      +:+ flatfield_channel_name));
    _ ← for_each fuse_folders (λ fuse_folder,
          let fuse_folder := Path fuse_folder in
          let source_zarr := path_str (joinpath fuse_folder "OMEZarr") in
          let source_metadata := path_str (joinpath fuse_folder "metadata") in
          found ← path_exists source_zarr;
          if negb found then
            raise (ValueError ("Folder " +:+ source_zarr +:+ " does not exist!"))
          else
            _ ← execute_ ("aws s3 cp --recursive " +:+ source_zarr +:+ " "
                            +:+ dest_zarr_path);
            found ← path_exists source_metadata;
            if negb found then
              raise (ValueError ("Folder " +:+ source_metadata
                                 +:+ " does not exist!"))
            else
              execute_ ("aws s3 cp --recursive " +:+ source_metadata +:+ " "
                          +:+ dest_metadata_path +:+ "/"
                          +:+ path_name fuse_folder));
    _ ← for_each stitch_folders (λ stitch_folder,
          let stitch_folder := Path stitch_folder in
          let source_metadata := path_str (joinpath stitch_folder "metadata") in
          found ← path_exists source_metadata;
          if negb found then
            raise (ValueError ("Folder " +:+ source_metadata
                               +:+ " does not exist!"))
          else
            execute_ ("aws s3 cp --recursive " +:+ source_metadata +:+ " "
                        +:+ dest_metadata_path +:+ "/"
                        +:+ path_name stitch_folder));
    let ccf_s3_output := s3_path +:+ "/image_atlas_alignment" in
    _ ← for_each ccf_folders (λ ccf_folder,
          channel_name ← lift (search_channels ccf_folder);
          execute_ ("aws s3 mv --recursive " +:+ ccf_folder +:+ " "
                      +:+ ccf_s3_output +:+ "/" +:+ channel_name));
    _ ← save_string_to_txt ("Stitched dataset saved in: " +:+ s3_path)
          (results_folder +:+ "/output_stitching.txt");
    ret (s3_path, dest_zarr_path)
  else raise (UnboundLocalError "s3_path").

(** [copy_intermediate_data]. *)
Definition copy_intermediate_data (output_dispatch_metadata : string)
    (destripe_files flatfield_channels stitch_folders fuse_folders
       ccf_folders : list string)
    (new_dataset_name output_path results_folder : string) (cloud_mode : bool)
    : M (string * string) :=
  processing_paths ← copy_intermediate_processing_paths destripe_files
                       stitch_folders fuse_folders ccf_folders;
  output_filename ←
    try_except
      (output_filename ← compile_processing_jsons processing_paths
                           output_dispatch_metadata "Camilo Laiton"
                           PIPELINE_VERSION;
       ret (Some output_filename))
      (λ e, ret None);
  copy_intermediate_relocate output_dispatch_metadata flatfield_channels
    stitch_folders fuse_folders ccf_folders new_dataset_name output_path
    results_folder cloud_mode.

(** [create_derived_stitched_metadata]. *)
Definition create_derived_stitched_metadata (data_folder results_folder : string)
    : M (string * string) :=
  let raw_metadata_path := joinpath (Path data_folder) "input_aind_metadata" in
  let output_dispatch_metadata := results_folder +:+ "/output_aind_metadata" in
  _ ← create_folder output_dispatch_metadata;
  new_dataset_name ←
    generate_data_description
      (path_str (joinpath raw_metadata_path "data_description.json"))
      output_dispatch_metadata "stitched";
  found_metadata ←
    copy_available_metadata (path_str raw_metadata_path)
      output_dispatch_metadata
      ["acquisition.json"; "instrument.json"; "subject.json";
       "procedures.json"; "session.json"];
  _ ← listdir_ (path_str raw_metadata_path);
  _ ← listdir_ output_dispatch_metadata;
  ret (output_dispatch_metadata, new_dataset_name).

(** The [config] dictionary of [create_ng_link], which [run] builds with
    these six keys. *)
Record ng_config : Type := {
  bucket_path : string;
  output_folder : string;
  ng_base_url : string;
  z_res : json;
  y_res : json;
  x_res : json;
}.

(** [int(s)]: an ASCII text of at most 4300 characters is parsed as
    above; any other text is left to the interpreter. *)
Definition int_of_str (s : string) : result Z :=
  if is_ascii s && (String.length s <=? 4300)%nat then int_of_ascii s
  else int_unicode s.

(** The colour of a layer: [Path(channel_str).stem], the integer after its
    last underscore, the alternate colour table, and the hexadecimal digits
    of the colour after a ["#"]. *)
Definition channel_suffix (channel_str : string) : string :=
  let channel_str := path_stem (Path channel_str) in
  List.last (split "_" channel_str) EmptyString.

Definition hex_str (channel : Z) : result string :=
  hex_val ← wavelength_to_hex_alternate channel;
  Ok ("#" +:+ drop_chars 2 (hex hex_val)).

Definition channel_color (channel_str : string) : result string :=
  channel ← int_of_str (channel_suffix channel_str);
  hex_str channel.

Definition ng_layer (source color : string) : json :=
  JDict [ ("source", JStr source);
          ("type", JStr "image");
          ("channel", JInt 0);
          ("name", JStr (path_name (Path source)));
          ("opacity", JInt 1);
          ("blend", JStr "additive");
          ("tab", JStr "rendering");
          ("shader", JDict [ ("color", JStr color);
                             ("emitter", JStr "RGB");
                             ("vec", JStr "vec3") ]);
          ("shaderControls",
            JDict [ ("normalized",
                      JDict [ ("range", JList [JInt 0; JInt 200]) ]) ]) ].

Definition ng_dimensions (config : ng_config) : json :=
  JDict [ ("z", JDict [("voxel_size", z_res config); ("unit", JStr "microns")]);
          ("y", JDict [("voxel_size", y_res config); ("unit", JStr "microns")]);
          ("x", JDict [("voxel_size", x_res config); ("unit", JStr "microns")]);
          ("t", JDict [("voxel_size", JFloat "0.001");
                       ("unit", JStr "seconds")]) ].

(** [sorted(l)] of a list of strings. *)
Definition sorted (l : list string) : list string := merge_sort String.le l.

(** The layers of [create_ng_link]: the colours are computed in one loop
    over the sorted paths, the layers in a second loop over the indices. *)
Definition ng_layers (s3_channel_paths : list string) : result (list json) :=
  colors ← map_result channel_color s3_channel_paths;
  map_result
    (λ idx : nat,
       source ← index_list s3_channel_paths (Z.of_nat idx);
       color ← index_list colors (Z.of_nat idx);
       Ok (ng_layer source color))
    (seq 0 (length s3_channel_paths)).

(** The descriptor handed to [NgState]. *)
Definition ng_input_configs (config : ng_config)
    (s3_channel_paths : list string) (s3_dataset_path : string)
    : result json :=
  let s3_channel_paths := sorted s3_channel_paths in
  let dimensions := ng_dimensions config in
  layers ← ng_layers s3_channel_paths;
  subject_id ← index_list (split "_" (path_name (Path s3_dataset_path))) 1;
  Ok (JDict [ ("title", JStr subject_id);
              ("dimensions", dimensions);
              ("layers", JList layers);
              ("crossSectionOrientation",
                JList [JFloat "0.5"; JFloat "0.5"; JFloat "0.5"; JFloat "-0.5"]);
              ("crossSectionScale", JInt 15) ]).

(** [create_ng_link]: the path of the written file and the link. *)
Definition create_ng_link (config : ng_config) (s3_channel_paths : list string)
    (s3_dataset_path : string) : M (PurePath * string) :=
  input_configs ← lift (ng_input_configs config s3_channel_paths
                          s3_dataset_path);
  json_state ← lift (NgState_state input_configs "s3" (bucket_path config)
                       (output_folder config) (ng_base_url config)
                       "neuroglancer_config.json");
  let ng_link := ng_base_url config +:+ "#!" +:+ s3_dataset_path
                   +:+ "/neuroglancer_config.json" in
  let json_state := dict_set "ng_link" (JStr ng_link) json_state in
  let ng_output_path := output_folder config +:+ "/neuroglancer_config.json" in
  _ ← write_file ng_output_path (Json (Some 2%nat) (JDict json_state));
  ret (Path ng_output_path, ng_link).

(** The text [run] splits into its three parameters: [str(sys.argv[1:])]
    without square brackets, case-folded. *)
Definition params (args : list string) : string :=
  casefold (replace "]" EmptyString
              (replace "[" EmptyString (repr_str_list args))).

(** The three parameters of [run]; anything but three tokens between the
    commas ends the process with status 1.  The cloud mode is the truth
    value of the second token. *)
Definition parse_params (args : list string) : result (string * bool * string) :=
  match split "," (params args) with
  | [mode; cloud_mode; output_path] =>
      Ok (mode, bool_of_str cloud_mode, output_path)
  | _ => Raise (SystemExit 1)
  end.

(** The [dispatch] branch of [run]. *)
Definition run_dispatch (data_folder results_folder output_path : string)
    (cloud_mode : bool) : M unit :=
  '(pipeline_config, dataset_name, investigators) ←
    get_data_config data_folder "processing_manifest.json"
      "input_aind_metadata/data_description.json";
  '(output_dispatch_metadata, new_dataset_name) ←
    create_derived_stitched_metadata data_folder results_folder;
  destripe_files ← glob_ (data_folder +:+ "/image_destriping_*");
  flatfield_channels ← glob_ (data_folder +:+ "/flatfield_correction_*");
  stitch_folders ← glob_ (data_folder +:+ "/stitched/stitch_*");
  fuse_folders ← glob_ (data_folder +:+ "/fused/fusion_*");
  ccf_folders ← glob_ (data_folder +:+ "/ccf_registration_results/ccf_*");
  '(s3_path, s3_dest_zarr) ←
    copy_intermediate_data output_dispatch_metadata destripe_files
      flatfield_channels stitch_folders fuse_folders ccf_folders
      new_dataset_name output_path results_folder cloud_mode;
  let s3_paths_for_channels :=
    fold_left
      (λ acc fuse_folder,
         let channel_name :=
           replace "fusion_" EmptyString (path_name (Path fuse_folder)) in
         acc ++ [s3_dest_zarr +:+ "/" +:+ channel_name +:+ ".zarr"])
      fuse_folders [] in
  config ← lift (
    pipeline_processing ← getitem pipeline_config "pipeline_processing";
    stitching ← getitem pipeline_processing "stitching";
    axes_resolution ← getitem stitching "resolution";
    z ← getindex axes_resolution 2;
    z_res ← getitem z "resolution";
    y ← getindex axes_resolution 1;
    y_res ← getitem y "resolution";
    x ← getindex axes_resolution 0;
    x_res ← getitem x "resolution";
    Ok {| bucket_path := output_path;
          output_folder := results_folder;
          ng_base_url := "https://aind-neuroglancer-sauujisjxq-uw.a.run.app";
          z_res := z_res; y_res := y_res; x_res := x_res |});
  '(output_json, ng_link_path) ←
    create_ng_link config s3_paths_for_channels s3_path;
  _ ← (if cloud_mode then
         execute_ ("aws s3 cp " +:+ path_str output_json +:+ " " +:+ s3_path
                     +:+ "/" +:+ path_name output_json)
       else ret ());
  pipeline_config ← lift (
    pipeline_processing ← getitem pipeline_config "pipeline_processing";
    stitching ← getitem pipeline_processing "stitching";
    stitching ← setitem stitching "s3_path" (JStr s3_path);
    pipeline_processing ← setitem pipeline_processing "stitching" stitching;
    setitem pipeline_config "pipeline_processing" pipeline_processing);
  pipeline_config ← dispatch pipeline_config results_folder;
  save_dict_as_json (results_folder +:+ "/modified_processing_manifest.json")
    pipeline_config.

(** The [clean] branch of [run]. *)
Definition run_clean (data_folder results_folder : string) (cloud_mode : bool)
    : M unit :=
  '(pipeline_config, dataset_name, investigators) ←
    get_data_config data_folder "modified_processing_manifest.json"
      "input_aind_metadata/data_description.json";
  pipeline_config ← lift (setitem pipeline_config "name" dataset_name);
  clean_up pipeline_config data_folder results_folder cloud_mode.

(** The inputs [run] requires: the manifest of the mode and the data
    description. *)
Definition required_input_elements (data_folder mode : string) : list string :=
  if contains "clean" mode then
    [ data_folder +:+ "/modified_processing_manifest.json";
      data_folder +:+ "/input_aind_metadata/data_description.json" ]
  else
    [ data_folder +:+ "/processing_manifest.json";
      data_folder +:+ "/input_aind_metadata/data_description.json" ].

(** [run], from the check of the required inputs on. *)
Definition run_mode (data_folder results_folder mode output_path : string)
    (cloud_mode : bool) : M unit :=
  missing_files ←
    validate_capsule_inputs (required_input_elements data_folder mode);
  if negb (Nat.eqb (length missing_files) 0) then
    raise (ValueError ("We miss the following files in the capsule input: "
                       +:+ repr_str_list missing_files))
  else
    _ ← listdir_ data_folder;
    if contains "dispatch" mode then
      run_dispatch data_folder results_folder output_path cloud_mode
    else if contains "clean" mode then
      run_clean data_folder results_folder cloud_mode
    else
      raise (NotImplementedError ("The mode " +:+ mode
                                  +:+ " has not been implemented")).

(** [run]. *)
Definition run : M unit :=
  let data_folder := path_str (Path (abspath cwd "../data")) in
  let results_folder := path_str (Path (abspath cwd "../results")) in
  '(mode, cloud_mode, output_path) ← lift (parse_params (List.tl argv));
  _ ← lift (index_list argv 0);
  run_mode data_folder results_folder mode output_path cloud_mode.

End Capsule.

(** ** Vocabulary of the properties *)

Section Vocabulary.
Context {the_host : Host} {the_schema : Schema}.

(** The processes a fragment or a document lists. *)
Definition processes_of (doc : Processing DataProcess) : list DataProcess :=
  aind_schema.data_processes (aind_schema.processing_pipeline doc).

(** [w'] is [w] after the document [doc] was written as the file
    [processing.json] of the directory [dest], and nothing else. *)
Definition compiled_into (w w' : World) (dest : string)
    (doc : Processing DataProcess) : Prop :=
  w' = {| files := <[dest +:+ "/processing.json" :=
                       Json (Some 3%nat) (model_dump_json doc)]> (files w);
          dirs := dirs w |}.

(** The file [dispatch] writes for a channel. *)
Definition task_file (results_folder : string) (channel : json) : string :=
  results_folder +:+ "/segmentation_processing_manifest_" +:+ str channel
    +:+ ".json".

(** The world [w] with the file [p] holding [c]. *)
Definition with_file (w : World) (p : string) (c : content) : World :=
  {| files := <[p := c]> (files w); dirs := dirs w |}.

(** [doc] is the task of [channel]: its segmentation block names the
    channel, the background channel and the shared fused data, and its
    quantification block names the same fused data and the channel. *)
Definition channel_task (doc channel background : json) : Prop :=
  (segmentation ← getitem doc "segmentation"; getitem segmentation "channel")
    = Ok channel ∧
  (segmentation ← getitem doc "segmentation";
   getitem segmentation "background_channel") = Ok background ∧
  (segmentation ← getitem doc "segmentation";
   getitem segmentation "input_data") = Ok (JStr "../data/fused") ∧
  (quantification ← getitem doc "quantification";
   getitem quantification "fused_folder") = Ok (JStr "../data/fused") ∧
  (quantification ← getitem doc "quantification";
   getitem quantification "channel") = Ok channel.

(** The spelling [pathlib] gives a path: [str(Path(p))]. *)
Definition normalised (p : string) : string := path_str (Path p).

(** The inputs whose normalised path does not exist, in that spelling. *)
Definition missing_inputs (w : World) (input_elements : list string)
    : list string :=
  normalised <$>
    List.filter (λ p, negb (exists_ w (normalised p))) input_elements.

(** The missing inputs as the specification words them: the sublist of
    the inputs that do not exist. *)
Definition documented_missing_inputs (w : World)
    (input_elements : list string) : list string :=
  List.filter (λ p, negb (exists_ w p)) input_elements.



(** The fragments found under a stage folder. *)
Definition fragments_in (w : World) (folder : string) : list string :=
  List.filter (λ p, negb (contains "manifest" p))
    (glob w (folder +:+ "/metadata/*processing*.json")).

(** Clean mode: the processing file of the metadata folder, then the
    fragments of the segmentation folders, then those of the
    quantification folders. *)
Definition clean_mode_paths (w : World) (data_folder : string) : list string :=
  (data_folder +:+ "/output_aind_metadata/processing.json")
    :: concat (fragments_in w <$> glob w (data_folder +:+ "/cell_*"))
    ++ concat (fragments_in w <$> glob w (data_folder +:+ "/quant_*")).

(** Copy mode: the destripe files, then the fragments of the stitch, fuse
    and ccf folders. *)
Definition copy_mode_paths (w : World)
    (destripe_files stitch_folders fuse_folders ccf_folders : list string)
    : list string :=
  destripe_files
    ++ concat (fragments_in w <$> stitch_folders)
    ++ concat (fragments_in w <$> fuse_folders)
    ++ concat (fragments_in w <$> ccf_folders).

(** Copy mode as the specification words it: destripe, flatfield, stitch,
    fuse, ccf.  [flatfield] stands for whatever the flatfield stage
    contributes. *)
Definition documented_copy_mode_paths (w : World)
    (destripe_files flatfield stitch_folders fuse_folders ccf_folders
       : list string) : list string :=
  destripe_files
    ++ flatfield
    ++ concat (fragments_in w <$> stitch_folders)
    ++ concat (fragments_in w <$> fuse_folders)
    ++ concat (fragments_in w <$> ccf_folders).

(** The fragment at [path] loads as [frag] in the world [w]. *)
Definition loads_as (w : World) (path : string)
    (frag : Processing DataProcess) : Prop :=
  (load_processing path w).1 = Ok frag.

(** The fragment at [path] fails to be read, parsed or validated. *)
Definition fails_to_load (w : World) (path : string) : Prop :=
  ∃ e, (load_processing path w).1 = Raise e.

End Vocabulary.

(** ** A small staging area, used in the worked examples *)

Module example.

(** A schema whose processes are names: a fragment is valid when it has a
    ["processing_pipeline"] object with a list ["data_processes"]. *)
Definition validate (j : json) : option (Processing string) :=
  match j with
  | JDict d =>
      match dict_get "processing_pipeline" d with
      | Some (JDict pp) =>
          match dict_get "data_processes" pp with
          | Some (JList l) =>
              Some {| aind_schema.processing_pipeline :=
                        {| aind_schema.data_processes := str <$> l;
                           aind_schema.processor_full_name := "unknown";
                           aind_schema.pipeline_version := "0";
                           aind_schema.pipeline_url := "none" |};
                      aind_schema.notes := None |}
          | _ => None
          end
      | _ => None
      end
  | _ => None
  end.

Definition dump (doc : Processing string) : json :=
  let pp := aind_schema.processing_pipeline doc in
  JDict [ ("processing_pipeline",
            JDict [ ("data_processes",
                      JList (JStr <$> aind_schema.data_processes pp));
                    ("processor_full_name",
                      JStr (aind_schema.processor_full_name pp));
                    ("pipeline_version",
                      JStr (aind_schema.pipeline_version pp));
                    ("pipeline_url", JStr (aind_schema.pipeline_url pp)) ]);
          ("notes", match aind_schema.notes doc with
                    | Some n => JStr n
                    | None => JNull
                    end) ].

#[export] Instance schema : Schema := {|
  DataProcess := string;
  validate_python := validate;
  model_dump_json := dump;
  PIDName := json;
  PIDName_parse_obj := Ok;
  PIDName_Unknown := JStr "Unknown";
  Funding := json;
  Funding_validate_python := Ok;
  Organization := json;
  Organization_from_abbreviation := Ok;
  DerivedDataDescription := string;
  DerivedDataDescription_new :=
    λ _ input_data_name process_name _ _ _ _ _ _ _,
      Ok (str input_data_name +:+ "_" +:+ process_name);
  DerivedDataDescription_name := id;
  DerivedDataDescription_model_dump_json := λ name, JDict [("name", JStr name)];
  NgState_state := λ input_config _ _ _ _ _,
      match input_config with
      | JDict d => Ok d
      | _ => Raise TypeError
      end;
|}.

(** The entries of the staging area, as [glob] lists them. *)
Definition listing : list (string * list string) :=
  [ ("/data/cell_*", ["/data/cell_Ex_488_Em_525"]);
    ("/data/quant_*", ["/data/quant_Ex_488_Em_525"]);
    ("/data/cell_Ex_488_Em_525/metadata/*processing*.json",
      ["/data/cell_Ex_488_Em_525/metadata/processing_manifest.json";
       "/data/cell_Ex_488_Em_525/metadata/processing.json"]);
    ("/data/quant_Ex_488_Em_525/metadata/*processing*.json",
      ["/data/quant_Ex_488_Em_525/metadata/processing.json"]);
    ("/data/image_destriping_*", ["/data/image_destriping_Ex_488_Em_525"]);
    ("/data/flatfield_correction_*",
      ["/data/flatfield_correction_Ex_488_Em_525"]);
    ("/data/flatfield_correction_Ex_488_Em_525/metadata/*processing*.json",
      ["/data/flatfield_correction_Ex_488_Em_525/metadata/processing.json"]);
    ("/data/stitched/stitch_*", ["/data/stitched/stitch_Ex_488_Em_525"]);
    ("/data/stitched/stitch_Ex_488_Em_525/metadata/*processing*.json",
      ["/data/stitched/stitch_Ex_488_Em_525/metadata/processing.json"]);
    ("/data/fused/fusion_*", ["/data/fused/fusion_Ex_488_Em_525"]);
    ("/data/fused/fusion_Ex_488_Em_525/metadata/*processing*.json",
      ["/data/fused/fusion_Ex_488_Em_525/metadata/processing.json"]);
    ("/data/ccf_registration_results/ccf_*",
      ["/data/ccf_registration_results/ccf_Ex_488_Em_525"]);
    ("/data/ccf_registration_results/ccf_Ex_488_Em_525/metadata/*processing*.json",
      ["/data/ccf_registration_results/ccf_Ex_488_Em_525/metadata/processing.json"])
  ].

Fixpoint lookup_listing (pattern : string)
    (l : list (string * list string)) : list string :=
  match l with
  | [] => []
  | (p, entries) :: l' =>
      if String.eqb p pattern then entries else lookup_listing pattern l'
  end.

(** Every command succeeds and prints nothing. *)
#[export] Instance host : Host := {|
  cwd := "/code";
  argv := ["run_capsule.py"; "clean,false,bucket"];
  glob := λ _ pattern, lookup_listing pattern listing;
  listdir := λ _ _, Ok [];
  now := λ _, "2024-01-01";
  shell := λ _ w, ([], 0, w);
  int_unicode := λ _, Raise (ValueError "not supported");
  search_unicode := λ _, Raise AttributeError;
|}.

Definition fragment (names : list string) : content :=
  Json (Some 3%nat)
    (JDict [ ("processing_pipeline",
               JDict [ ("data_processes", JList (JStr <$> names)) ]) ]).

Definition staged : list (string * content) :=
  [ ("/data/output_aind_metadata/processing.json",
      fragment ["destriping"; "stitching"]);
    ("/data/image_destriping_Ex_488_Em_525", fragment ["destriping"]);
    ("/data/cell_Ex_488_Em_525/metadata/processing.json",
      fragment ["segmentation"]);
    ("/data/quant_Ex_488_Em_525/metadata/processing.json",
      fragment ["quantification"]);
    ("/data/flatfield_correction_Ex_488_Em_525/metadata/processing.json",
      fragment ["flatfield"]);
    ("/data/stitched/stitch_Ex_488_Em_525/metadata/processing.json",
      fragment ["stitching"]);
    ("/data/fused/fusion_Ex_488_Em_525/metadata/processing.json",
      fragment ["fusion"]);
    ("/data/ccf_registration_results/ccf_Ex_488_Em_525/metadata/processing.json",
      fragment ["registration"]) ].

Definition folders : list string :=
  [ "/data"; "/results"; "/results/output_aind_metadata";
    "/data/fused/fusion_Ex_488_Em_525/OMEZarr";
    "/data/fused/fusion_Ex_488_Em_525/metadata";
    "/data/stitched/stitch_Ex_488_Em_525/metadata" ].

Definition world : World :=
  {| files := list_to_map staged; dirs := list_to_set folders |}.

(** The same staging area with a segmentation fragment and a stitching
    fragment that are not JSON documents. *)
(** A processing manifest with three channels to segment. *)
Definition manifest : json :=
  JDict [ ("pipeline_processing",
            JDict [ ("stitching", JDict [("co_registration", JBool false)]);
                    ("registration", JDict [("channels", JList [JInt 0])]);
                    ("segmentation",
                      JDict [("channels", JList [JInt 1; JInt 2; JInt 3]);
                             ("chunk_size", JInt 128)]) ]) ].

(** The same manifest with no channel to segment. *)
Definition manifest_without_channels : json :=
  JDict [ ("pipeline_processing",
            JDict [ ("registration", JDict [("channels", JList [JInt 0])]);
                    ("segmentation", JDict [("channels", JList [])]) ]) ].

Definition config : ng_config :=
  {| bucket_path := "bucket";
     output_folder := "/results";
     ng_base_url := "https://aind-neuroglancer-sauujisjxq-uw.a.run.app";
     z_res := JFloat "2.0"; y_res := JFloat "1.8"; x_res := JFloat "1.8" |}.

Definition channel_paths : list string :=
  [ "s3://bucket/SmartSPIM_123456_2024-01-01_stitched/image_tile_fusing/OMEZarr/Ex_600_Em_620.zarr";
    "s3://bucket/SmartSPIM_123456_2024-01-01_stitched/image_tile_fusing/OMEZarr/Ex_488_Em_525.zarr" ].

(** A dispatch run: the same staging area with the two required inputs,
    and the parameters of a dispatch in cloud mode. *)
Definition dispatch_host : Host := {|
  cwd := "/code";
  argv := ["run_capsule.py"; "dispatch,true,bucket"];
  glob := λ _ pattern, lookup_listing pattern listing;
  listdir := λ _ _, Ok [];
  now := λ _, "2024-01-01";
  shell := λ _ w, ([], 0, w);
  int_unicode := λ _, Raise (ValueError "not supported");
  search_unicode := λ _, Raise AttributeError;
|}.

Definition axis (name resolution : string) : json :=
  JDict [("axis_name", JStr name); ("resolution", JFloat resolution)].

Definition dispatch_manifest : json :=
  JDict [ ("pipeline_processing",
            JDict [ ("stitching",
                      JDict [("resolution",
                               JList [axis "X" "1.8"; axis "Y" "1.8";
                                      axis "Z" "2.0"])]);
                    ("registration",
                      JDict [("channels", JList [JStr "Ex_488_Em_525"])]);
                    ("segmentation",
                      JDict [("channels",
                               JList [JStr "Ex_561_Em_600";
                                      JStr "Ex_639_Em_680"])]) ]) ].

Definition data_description : json :=
  JDict [ ("name", JStr "SmartSPIM_123456_2024-01-01");
          ("institution", JDict [("abbreviation", JStr "AIND")]);
          ("investigators", JList []);
          ("funding_source", JList []);
          ("group", JNull); ("project_name", JNull); ("restrictions", JNull);
          ("subject_id", JStr "123456") ].

Definition dispatch_world : World :=
  {| files :=
       <["/data/processing_manifest.json" := Json None dispatch_manifest]>
         (<["/data/input_aind_metadata/data_description.json" :=
              Json None data_description]> (list_to_map staged));
     dirs := list_to_set folders |}.

Definition damaged : World :=
  {| files :=
       <["/data/cell_Ex_488_Em_525/metadata/processing.json" := Text "{"]>
         (<["/data/stitched/stitch_Ex_488_Em_525/metadata/processing.json" :=
              Text "{"]> (list_to_map staged));
     dirs := list_to_set folders |}.

End example.

(** ** Vocabulary of the further properties *)

(** The three entries [dispatch] sets in the segmentation block. *)
Definition set_by_dispatch (key : string) : Prop :=
  key = "input_data" ∨ key = "channel" ∨ key = "background_channel".

(** [doc] has every entry of [pipeline] but ["segmentation"] and
    ["quantification"], and its segmentation block has every entry of
    [segmentation] but the three [dispatch] sets. *)
Definition keeps_pipeline (pipeline segmentation : dict) (doc : json) : Prop :=
  ∃ entries block,
    doc = JDict entries ∧
    dict_get "segmentation" entries = Some (JDict block) ∧
    (∀ key, key ≠ "segmentation" → key ≠ "quantification" →
            dict_get key entries = dict_get key pipeline) ∧
    (∀ key, ¬ set_by_dispatch key →
            dict_get key block = dict_get key segmentation).

(** The computation [m] never returns normally. *)
Definition never_returns {A} (m : M A) : Prop :=
  ∀ w a, (m w).1 ≠ Ok a.

(** [open(folder + "/" + name, "w")] can fail only through a fault of the
    host: [name] is a plain file name, without a slash or a NUL character,
    [folder] is a directory, and the file itself is not one. *)
Definition can_create (w : World) (folder name : string) : Prop :=
  has_char "/" name = false ∧ has_char "000" name = false
  ∧ folder ∈ dirs w ∧ folder +:+ "/" +:+ name ∉ dirs w.

(** The two quotes [repr] puts around a string. *)
Definition is_quote (q : ascii) : Prop := q = squote ∨ q = dquote.

(** ** [utils/utils.py], further *)

(** [clean_investigator_names].  [invest.rfind(",")] is [-1] when there is
    no comma, and the slices then count from the end. *)
Definition clean_investigator_names (investigators : list string)
    : result string :=
  if 1 <? Z.of_nat (length investigators) then
    let invest := join ", " investigators in
    match rfind "," invest with
    | Some idx =>
        Ok (take_chars idx invest +:+ " and" +:+ drop_chars (S idx) invest)
    | None =>
        Ok (take_chars (String.length invest - 1) invest +:+ " and" +:+ invest)
    end
  else index_list investigators 0.

(** ** Further cases of the worked examples *)

Module cases.

(** The dispatch manifest of the examples, by its parts. *)
Definition segmentation : dict :=
  [("channels", JList [JStr "Ex_561_Em_600"; JStr "Ex_639_Em_680"])].

Definition pipeline : dict :=
  [ ("stitching",
      JDict [("resolution",
               JList [example.axis "X" "1.8"; example.axis "Y" "1.8";
                      example.axis "Z" "2.0"])]);
    ("registration", JDict [("channels", JList [JStr "Ex_488_Em_525"])]);
    ("segmentation", JDict segmentation) ].

Definition manifest : dict := [("pipeline_processing", JDict pipeline)].

(** A manifest whose list of registration channels is empty. *)
Definition unregistered_pipeline : dict :=
  [ ("registration", JDict [("channels", JList [])]);
    ("segmentation", JDict [("channels", JList [])]) ].

Definition unregistered : dict :=
  [("pipeline_processing", JDict unregistered_pipeline)].

(** The parameters of a dispatch outside cloud mode: the second of the
    three is empty. *)
Definition local_host : Host := {|
  cwd := "/code";
  argv := ["run_capsule.py"; "dispatch,,bucket"];
  glob := λ _ pattern, example.lookup_listing pattern example.listing;
  listdir := λ _ _, Ok [];
  now := λ _, "2024-01-01";
  shell := λ _ w, ([], 0, w);
  int_unicode := λ _, Raise (ValueError "not supported");
  search_unicode := λ _, Raise AttributeError;
|}.

(** The manifest a dispatch leaves for the clean-up, and the staging area
    of a clean-up: it has the modified manifest and the data description,
    but no processing manifest. *)
Definition modified_manifest : json :=
  JDict [ ("pipeline_processing",
            JDict [ ("stitching",
                      JDict [("s3_path",
                               JStr "s3://bucket/SmartSPIM_123456_2024-01-01_stitched")]) ]) ].

Definition clean_world : World :=
  {| files :=
       <["/data/modified_processing_manifest.json" :=
           Json (Some 4%nat) modified_manifest]>
         (<["/data/input_aind_metadata/data_description.json" :=
              Json None example.data_description]>
            (list_to_map example.staged));
     dirs := list_to_set example.folders |}.

End cases.

(** * Properties *)

(** ** Running a computation *)

Lemma bind_Ok {A B} (m : M A) (k : A → M B) w a w' :
  m w = (Ok a, w') → (m ≫= k) w = k a w'.
Proof. intros Hm. unfold mbind, M_bind, bind. by rewrite Hm. Qed.

Lemma bind_Raise {A B} (m : M A) (k : A → M B) w e w' :
  m w = (Raise e, w') → (m ≫= k) w = (Raise e, w').
Proof. intros Hm. unfold mbind, M_bind, bind. by rewrite Hm. Qed.

Lemma lift_bind {A B} (r : result A) (k : A → M B) w :
  (lift r ≫= k) w = match r with
                    | Ok a => k a w
                    | Raise e => (Raise e, w)
                    end.
Proof. by destruct r. Qed.

Lemma getitem_Ok x key v :
  getitem x key = Ok v → ∃ d, x = JDict d ∧ dict_get key d = Some v.
Proof.
  destruct x as [| | | | | |d]; try discriminate. cbn.
  destruct (dict_get key d) eqn:Hget; [|discriminate].
  intros [= ->]. eauto.
Qed.

Lemma result_bind_Ok {A B} (r : result A) (k : A → result B) b :
  r ≫= k = Ok b → ∃ a, r = Ok a ∧ k a = Ok b.
Proof. destruct r as [a|e]; [eauto|discriminate]. Qed.

Lemma bind_inv_Ok {A B} (m : M A) (k : A → M B) w b w' :
  (m ≫= k) w = (Ok b, w') → ∃ a w1, m w = (Ok a, w1) ∧ k a w1 = (Ok b, w').
Proof.
  unfold mbind, M_bind, bind. destruct (m w) as [[a|e] w1]; [eauto|done].
Qed.

Lemma fold_left_append {A} (l acc : list A) :
  fold_left (λ acc x, acc ++ [x]) l acc = acc ++ l.
Proof.
  revert acc. induction l as [|x l IH]; intros acc; simpl.
  - by rewrite app_nil_r.
  - by rewrite IH, <- app_assoc.
Qed.

Lemma flatten_concat (ll : list (list string)) : flatten ll = concat ll.
Proof.
  unfold flatten.
  assert (∀ acc, fold_left (λ (acc sub : list string), acc ++ sub) ll acc
                 = acc ++ concat ll) as Hgen; [|apply (Hgen [])].
  induction ll as [|l ll IH]; intros acc; simpl.
  - by rewrite app_nil_r.
  - by rewrite IH, app_assoc.
Qed.

(** ** Channel Color Mapper *)

(** C8. Variant A saturates at both ends: a wavelength of 750 or more gets
    the colour bound to 750 and a wavelength below 460 the colour bound to
    460, never an error.  Variant B is inclusive: a wavelength equal to a
    bound of the table gets that bound's colour, one more than a bound gets
    the colour of the next entry, and a wavelength above the last bound
    gets the colour of the last entry. *)
Theorem color_mapper_boundaries (w : Z) :
  (∀ h, (750, h) ∈ color_map → 750 ≤ w → wavelength_to_hex w = Ok h) ∧
  (∀ h, (460, h) ∈ color_map → w < 460 → wavelength_to_hex w = Ok h) ∧
  (∀ h, (w, h) ∈ color_map_alternate → wavelength_to_hex_alternate w = Ok h) ∧
  (∀ i ub h ub' h',
     color_map_alternate !! i = Some (ub, h) →
     color_map_alternate !! S i = Some (ub', h') →
     w = ub + 1 → wavelength_to_hex_alternate w = Ok h') ∧
  (∀ ub h, List.last color_map_alternate (0, 0) = (ub, h) → ub < w →
     wavelength_to_hex_alternate w = Ok h).
Proof.
  repeat split.
  - intros h Hin Hw.
    assert (h = 0xF00050) as ->.
    { unfold color_map in Hin.
      repeat (apply elem_of_cons in Hin as [Hin|Hin]; [by inversion Hin|]).
      by apply elem_of_nil in Hin. }
    unfold wavelength_to_hex, color_map. cbn [color_loop].
    repeat match goal with
           | |- context [w <? ?b] => destruct (Z.ltb_spec w b); [lia|]
           end.
    done.
  - intros h Hin Hw.
    assert (h = 0x690AFE) as ->.
    { unfold color_map in Hin.
      repeat (apply elem_of_cons in Hin as [Hin|Hin]; [by inversion Hin|]).
      by apply elem_of_nil in Hin. }
    unfold wavelength_to_hex, color_map. simpl.
    by destruct (Z.ltb_spec w 460); [|lia].
  - intros h Hin. unfold color_map_alternate in Hin.
    repeat (apply elem_of_cons in Hin as [Hin|Hin];
            [by inversion Hin; subst|]).
    by apply elem_of_nil in Hin.
  - intros i ub h ub' h' Hi HSi ->.
    unfold color_map_alternate in *.
    do 9 (destruct i as [|i]; [by inversion Hi; inversion HSi; subst|]).
    by destruct i.
  - intros ub h Hlast Hw. inversion Hlast; subst.
    unfold wavelength_to_hex_alternate, color_map_alternate.
    cbn [color_loop].
    repeat match goal with
           | |- context [w <=? ?b] => destruct (Z.leb_spec w b); [lia|]
           end.
    done.
Qed.


Section Properties.
Context {the_host : Host} {the_schema : Schema}.

(** ** Provenance Compiler *)

Lemma read_json_as_dict_world p w : (read_json_as_dict p w).2 = w.
Proof.
  unfold read_json_as_dict, path_exists, open_read, lift, ret.
  unfold mbind, M_bind, bind.
  destruct (exists_ w p); [|done].
  destruct (files w !! p); [done|]. by case_bool_decide.
Qed.

Lemma load_processing_world p w : (load_processing p w).2 = w.
Proof.
  unfold load_processing. unfold mbind, M_bind, bind, lift.
  pose proof (read_json_as_dict_world p w) as Hw.
  destruct (read_json_as_dict p w) as [[j|e] w']; simpl in *; by subst.
Qed.

Lemma loads_as_run w p frag :
  loads_as w p frag → load_processing p w = (Ok frag, w).
Proof.
  unfold loads_as. intros Hl. pose proof (load_processing_world p w) as Hw.
  destruct (load_processing p w) as [r w']. simpl in *. by subst.
Qed.

Lemma fails_to_load_run w p :
  fails_to_load w p → ∃ e, load_processing p w = (Raise e, w).
Proof.
  intros [e He]. exists e. pose proof (load_processing_world p w) as Hw.
  destruct (load_processing p w) as [r w']. simpl in *. by subst.
Qed.

Lemma load_processing_cases w p :
  (∃ frag, loads_as w p frag) ∨ fails_to_load w p.
Proof.
  unfold loads_as, fails_to_load.
  destruct (load_processing p w).1 as [frag|e]; eauto.
Qed.

Lemma compile_processing_loop_Ok paths frags acc w :
  Forall2 (loads_as w) paths frags →
  compile_processing_loop paths acc w
  = (Ok (acc ++ concat (processes_of <$> frags)), w).
Proof.
  intros Hall. revert acc.
  induction Hall as [|p frag paths frags Hp _ IH]; intros acc.
  - simpl. by rewrite app_nil_r.
  - cbn [compile_processing_loop].
    erewrite bind_Ok by (by apply loads_as_run).
    rewrite IH, fold_left_append, fmap_cons. cbn [concat].
    by rewrite app_assoc.
Qed.

Lemma load_processing_Exception p w e w' :
  load_processing p w = (Raise e, w') → is_Exception e = true.
Proof.
  unfold load_processing, read_json_as_dict, path_exists, open_read, lift, ret.
  unfold mbind, M_bind, bind. intros Hrun.
  destruct (exists_ w p).
  - destruct (files w !! p) as [[indent doc|txt]|]; simpl in Hrun.
    + destruct (validate_python doc); by inversion Hrun.
    + by inversion Hrun.
    + case_bool_decide; by inversion Hrun.
  - destruct (validate_python (JDict [])); by inversion Hrun.
Qed.

Lemma compile_processing_loop_Exception paths acc w e w' :
  compile_processing_loop paths acc w = (Raise e, w') →
  is_Exception e = true ∧ w' = w.
Proof.
  revert acc. induction paths as [|p paths IH]; intros acc Hrun.
  - by inversion Hrun.
  - cbn [compile_processing_loop] in Hrun.
    pose proof (load_processing_world p w) as Hw.
    destruct (load_processing p w) as [[frag|e0] w0] eqn:Hload;
      simpl in Hw; subst w0.
    + erewrite bind_Ok in Hrun by exact Hload. by eapply IH.
    + erewrite bind_Raise in Hrun by exact Hload. inversion Hrun; subst.
      split; [|done]. by eapply load_processing_Exception.
Qed.

Lemma compile_processing_jsons_Exception paths dest name version w e w' :
  compile_processing_jsons paths dest name version w = (Raise e, w') →
  is_Exception e = true ∧ w' = w.
Proof.
  unfold compile_processing_jsons. intros Hrun.
  destruct (compile_processing_loop paths [] w) as [[procs|e0] w0] eqn:Hloop.
  - erewrite bind_Ok in Hrun by exact Hloop. by inversion Hrun.
  - erewrite bind_Raise in Hrun by exact Hloop. inversion Hrun; subst.
    by eapply compile_processing_loop_Exception.
Qed.

Lemma compile_processing_loop_Raise paths acc w p :
  p ∈ paths → fails_to_load w p →
  ∃ e, compile_processing_loop paths acc w = (Raise e, w)
       ∧ is_Exception e = true.
Proof.
  intros Hin Hfail. revert acc.
  induction paths as [|q paths IH]; intros acc.
  - by apply elem_of_nil in Hin.
  - cbn [compile_processing_loop].
    destruct (load_processing_cases w q) as [[frag Hq]|Hq].
    + erewrite bind_Ok by (by apply loads_as_run).
      apply IH. apply elem_of_cons in Hin as [->|Hin]; [|done].
      destruct Hfail as [e He]. unfold loads_as in Hq. congruence.
    + destruct (fails_to_load_run _ _ Hq) as [e He].
      exists e. split; [by apply bind_Raise|].
      by eapply load_processing_Exception.
Qed.

Lemma compile_processing_jsons_Raise paths bad dest name version w :
  bad ∈ paths → fails_to_load w bad →
  ∃ e, compile_processing_jsons paths dest name version w = (Raise e, w)
       ∧ is_Exception e = true.
Proof.
  intros Hin Hbad. unfold compile_processing_jsons.
  destruct (compile_processing_loop_Raise _ [] _ _ Hin Hbad) as (e & He & Hexn).
  exists e. split; [by apply bind_Raise|done].
Qed.

(** C1. Given fragment paths that all load, [compile_processing_jsons]
    succeeds and writes one document whose processes are the processes of
    the fragments, concatenated in the order of the paths and, within a
    fragment, in the order of the fragment; for no path at all it writes a
    document with no process. *)
Theorem compile_processing_jsons_order
    (processing_paths : list string) (frags : list (Processing DataProcess))
    (dest name version : string) (w : World) :
  (Forall2 (loads_as w) processing_paths frags →
   ∃ doc w',
     compile_processing_jsons processing_paths dest name version w
       = (Ok dest, w') ∧
     compiled_into w w' dest doc ∧
     processes_of doc = concat (processes_of <$> frags)) ∧
  (∃ doc w',
     compile_processing_jsons [] dest name version w = (Ok dest, w') ∧
     compiled_into w w' dest doc ∧
     processes_of doc = []).
Proof.
  split.
  - intros Hall. unfold compile_processing_jsons.
    erewrite bind_Ok by (by apply compile_processing_loop_Ok).
    unfold generate_processing. eexists _, _.
    split; [reflexivity|]. split; reflexivity.
  - unfold compile_processing_jsons. eexists _, _.
    split; [reflexivity|]. split; reflexivity.
Qed.

(** C2. When one of the fragment paths fails to be read, parsed or
    validated, [compile_processing_jsons] raises and leaves the world as it
    was: no output file is written and no fragment is skipped. *)
Theorem compile_processing_jsons_atomic
    (processing_paths : list string) (bad : string)
    (dest name version : string) (w : World) :
  bad ∈ processing_paths → fails_to_load w bad →
  ∃ e, compile_processing_jsons processing_paths dest name version w
       = (Raise e, w).
Proof.
  intros Hin Hbad.
  destruct (compile_processing_jsons_Raise processing_paths bad dest name
              version w Hin Hbad) as (e & He & _).
  by exists e.
Qed.

(** ** Fragment discovery and the two call sites of the compiler *)

Lemma processing_jsons_run folder w :
  processing_jsons folder w = (Ok (fragments_in w folder), w).
Proof. reflexivity. Qed.

Lemma for_append_processing_jsons folders acc w :
  for_append folders processing_jsons acc w
  = (Ok (acc ++ (fragments_in w <$> folders)), w).
Proof.
  revert acc. induction folders as [|f folders IH]; intros acc.
  - simpl. by rewrite app_nil_r.
  - cbn [for_append]. erewrite bind_Ok by apply processing_jsons_run.
    rewrite IH, fmap_cons. by rewrite <- app_assoc.
Qed.

Lemma clean_up_processing_paths_run data_folder w entries :
  listdir w data_folder = Ok entries →
  clean_up_processing_paths data_folder w
  = (Ok (clean_mode_paths w data_folder,
         glob w (data_folder +:+ "/cell_*"),
         glob w (data_folder +:+ "/quant_*")), w).
Proof.
  intros Hls. unfold clean_up_processing_paths.
  erewrite bind_Ok by (unfold listdir_; by rewrite Hls).
  erewrite bind_Ok by reflexivity.
  erewrite bind_Ok by reflexivity.
  erewrite bind_Ok by apply for_append_processing_jsons.
  erewrite bind_Ok by apply for_append_processing_jsons.
  unfold ret, clean_mode_paths. rewrite flatten_concat.
  cbn [app concat]. by rewrite concat_app.
Qed.

Lemma copy_intermediate_processing_paths_run destripe stitch fuse ccf w :
  copy_intermediate_processing_paths destripe stitch fuse ccf w
  = (Ok (copy_mode_paths w destripe stitch fuse ccf), w).
Proof.
  unfold copy_intermediate_processing_paths.
  do 3 (erewrite bind_Ok by apply for_append_processing_jsons).
  unfold ret, copy_mode_paths. rewrite flatten_concat.
  cbn [app]. by rewrite !concat_app.
Qed.

(** C4 (as amended). In clean mode [clean_up] hands the compiler the
    processing file of the metadata folder, then the fragments of every
    segmentation folder, then those of every quantification folder.  In
    copy mode [copy_intermediate_data] hands it the destripe files, then
    the fragments of the stitch, fuse and ccf folders, in that order; the
    flatfield folders contribute nothing. *)
Theorem fragment_discovery_order
    (processing_manifest : json) (data_folder results_folder : string)
    (output_dispatch_metadata new_dataset_name output_path : string)
    (destripe_files flatfield_channels stitch_folders fuse_folders
       ccf_folders : list string)
    (cloud_mode : bool) (w : World) :
  (∀ entries, listdir w data_folder = Ok entries →
     clean_up processing_manifest data_folder results_folder cloud_mode w
     = (_ ← compile_processing_jsons (clean_mode_paths w data_folder)
              results_folder "Camilo Laiton" PIPELINE_VERSION;
        clean_up_relocate processing_manifest results_folder
          (glob w (data_folder +:+ "/cell_*"))
          (glob w (data_folder +:+ "/quant_*")) cloud_mode) w) ∧
  copy_intermediate_data output_dispatch_metadata destripe_files
    flatfield_channels stitch_folders fuse_folders ccf_folders
    new_dataset_name output_path results_folder cloud_mode w
  = (_ ← try_except
           (output_filename ←
              compile_processing_jsons
                (copy_mode_paths w destripe_files stitch_folders fuse_folders
                   ccf_folders)
                output_dispatch_metadata "Camilo Laiton" PIPELINE_VERSION;
            ret (Some output_filename))
           (λ e, ret None);
     copy_intermediate_relocate output_dispatch_metadata flatfield_channels
       stitch_folders fuse_folders ccf_folders new_dataset_name output_path
       results_folder cloud_mode) w.
Proof.
  split.
  - intros entries Hls. unfold clean_up.
    erewrite bind_Ok by (by eapply clean_up_processing_paths_run).
    reflexivity.
  - unfold copy_intermediate_data.
    erewrite bind_Ok by apply copy_intermediate_processing_paths_run.
    reflexivity.
Qed.

(** C3. A failure of the provenance compilation has opposite outcomes at
    the two call sites.  In [copy_intermediate_data] it is caught: the
    call goes on with the relocation, from the world the compilation left,
    and its result is the result of the relocation.  In [clean_up] the
    same failure is not caught: the call raises it, and nothing is
    relocated or written after it. *)
Theorem provenance_failure_policy
    (processing_manifest : json) (data_folder results_folder : string)
    (output_dispatch_metadata new_dataset_name output_path : string)
    (destripe_files flatfield_channels stitch_folders fuse_folders
       ccf_folders : list string)
    (cloud_mode : bool) (e : exn) (w w' : World) :
  (compile_processing_jsons
     (copy_mode_paths w destripe_files stitch_folders fuse_folders ccf_folders)
     output_dispatch_metadata "Camilo Laiton" PIPELINE_VERSION w
   = (Raise e, w') →
   copy_intermediate_data output_dispatch_metadata destripe_files
     flatfield_channels stitch_folders fuse_folders ccf_folders
     new_dataset_name output_path results_folder cloud_mode w
   = copy_intermediate_relocate output_dispatch_metadata flatfield_channels
       stitch_folders fuse_folders ccf_folders new_dataset_name output_path
       results_folder cloud_mode w') ∧
  (∀ entries, listdir w data_folder = Ok entries →
   compile_processing_jsons (clean_mode_paths w data_folder) results_folder
     "Camilo Laiton" PIPELINE_VERSION w
   = (Raise e, w') →
   clean_up processing_manifest data_folder results_folder cloud_mode w
   = (Raise e, w')).
Proof.
  split.
  - intros Hfail. unfold copy_intermediate_data.
    erewrite bind_Ok by apply copy_intermediate_processing_paths_run.
    destruct (compile_processing_jsons_Exception _ _ _ _ _ _ _ Hfail)
      as [Hexn _].
    rewrite (bind_Ok _ _ w None w'); [reflexivity|].
    unfold try_except.
    erewrite bind_Raise by exact Hfail. by rewrite Hexn.
  - intros entries Hls Hfail. unfold clean_up.
    erewrite bind_Ok by (by eapply clean_up_processing_paths_run).
    by apply bind_Raise.
Qed.

(** ** Manifest Fan-Out Dispatcher *)

Lemma dict_get_set_eq key v d : dict_get key (dict_set key v d) = Some v.
Proof.
  induction d as [|[k v0] d IH]; simpl.
  - by rewrite String.eqb_refl.
  - destruct (String.eqb k key) eqn:Hk; simpl; by rewrite Hk.
Qed.

Lemma dict_get_set_ne key key' v d :
  key ≠ key' → dict_get key' (dict_set key v d) = dict_get key' d.
Proof.
  intros Hne. induction d as [|[k v0] d IH]; simpl.
  - by apply String.eqb_neq in Hne as ->.
  - destruct (String.eqb k key) eqn:Hk; simpl.
    + apply String.eqb_eq in Hk as ->.
      by apply String.eqb_neq in Hne as ->.
    + by rewrite IH.
Qed.

Lemma dict_get_truthy key v d : dict_get key d = Some v → truthy (JDict d) = true.
Proof. by destruct d. Qed.

Lemma dispatch_channel_run pc seg channel background :
  dict_get "segmentation" pc = Some (JDict seg) →
  ∃ pc' seg' doc,
    dispatch_channel (JDict pc) channel background = Ok (JDict pc', doc) ∧
    dict_get "segmentation" pc' = Some (JDict seg') ∧
    channel_task doc channel background.
Proof.
  intros Hseg. unfold dispatch_channel, channel_task.
  cbn [getitem setitem]. rewrite Hseg.
  cbn [mbind result_mbind result_bind setitem].
  eexists _, _, _. split; [reflexivity|].
  split; [apply dict_get_set_eq|].
  cbn [getitem mbind result_mbind result_bind].
  rewrite dict_get_set_eq.
  rewrite dict_get_set_ne, dict_get_set_eq by done.
  cbn [getitem mbind result_mbind result_bind].
  rewrite !dict_get_set_eq.
  rewrite !(dict_get_set_ne "background_channel" "channel") by done.
  rewrite !(dict_get_set_ne "background_channel" "input_data") by done.
  rewrite !(dict_get_set_ne "channel" "input_data") by done.
  rewrite !dict_get_set_eq. done.
Qed.

Lemma dispatch_loop_run results_folder background channels pc seg w :
  dict_get "segmentation" pc = Some (JDict seg) →
  ∃ pc' docs,
    dispatch_loop results_folder background channels (JDict pc) w
    = (Ok pc',
       foldl (λ w cd, with_file w (task_file results_folder cd.1)
                        (Json (Some 4%nat) cd.2))
         w (zip channels docs)) ∧
    Forall2 (λ channel doc, channel_task doc channel background) channels docs.
Proof.
  revert pc seg w. induction channels as [|c channels IH]; intros pc seg w Hseg.
  - exists (JDict pc), []. by split; [|constructor].
  - destruct (dispatch_channel_run pc seg c background Hseg)
      as (pc1 & seg1 & doc & Hstep & Hseg1 & Htask).
    destruct (IH pc1 seg1
                (with_file w (task_file results_folder c) (Json (Some 4%nat) doc))
                Hseg1) as (pc' & docs & Hloop & Htasks).
    exists pc', (doc :: docs). split; [|by constructor].
    cbn [dispatch_loop]. unfold lift at 1.
    erewrite bind_Ok by (by rewrite Hstep).
    assert (∃ d, doc = JDict d) as [d ->].
    { unfold dispatch_channel in Hstep. cbn [getitem] in Hstep.
      rewrite Hseg in Hstep. cbn in Hstep. inversion Hstep. eauto. }
    erewrite bind_Ok by reflexivity. exact Hloop.
Qed.

Lemma task_file_inj results_folder c c' :
  task_file results_folder c = task_file results_folder c' → str c = str c'.
Proof.
  unfold task_file. intros Heq.
  apply (inj (String.app results_folder)) in Heq.
  apply (inj (String.app _)) in Heq.
  revert Heq. generalize (str c), (str c').
  induction s as [|a s IH]; intros [|b s'] Heq; try done.
  - destruct s' as [|? [|? [|? [|? [|? s']]]]]; discriminate.
  - destruct s as [|? [|? [|? [|? [|? s]]]]]; discriminate.
  - inversion Heq; subst. f_equal. by apply IH.
Qed.

(** C5. For a manifest whose pipeline section lists the segmentation
    channels 1, 2, 3 and whose first registration channel is 0, [dispatch]
    succeeds and writes three files and no other, one per channel and
    under three different names; the file of a channel is the task of
    that channel, with background channel 0 and the same fused data path
    in its segmentation and quantification blocks. *)
Theorem dispatch_fan_out
    (manifest pipeline segmentation : dict) (results_folder : string)
    (w : World) :
  dict_get "pipeline_processing" manifest = Some (JDict pipeline) →
  dict_get "segmentation" pipeline = Some (JDict segmentation) →
  dict_get "channels" segmentation = Some (JList [JInt 1; JInt 2; JInt 3]) →
  (registration ← getitem (JDict pipeline) "registration";
   channels ← getitem registration "channels";
   getindex channels 0) = Ok (JInt 0) →
  ∃ manifest' doc1 doc2 doc3,
    dispatch (JDict manifest) results_folder w
    = (Ok manifest',
       with_file
         (with_file
            (with_file w (task_file results_folder (JInt 1))
               (Json (Some 4%nat) doc1))
            (task_file results_folder (JInt 2)) (Json (Some 4%nat) doc2))
         (task_file results_folder (JInt 3)) (Json (Some 4%nat) doc3)) ∧
    NoDup [task_file results_folder (JInt 1);
           task_file results_folder (JInt 2);
           task_file results_folder (JInt 3)] ∧
    channel_task doc1 (JInt 1) (JInt 0) ∧
    channel_task doc2 (JInt 2) (JInt 0) ∧
    channel_task doc3 (JInt 3) (JInt 0).
Proof.
  intros Hpipeline Hseg Hchannels Hbackground.
  destruct (dispatch_loop_run results_folder (JInt 0)
              [JInt 1; JInt 2; JInt 3] pipeline segmentation w Hseg)
    as (pc' & docs & Hloop & Htasks).
  destruct docs as [|doc1 [|doc2 [|doc3 [|? ?]]]];
    try (repeat match goal with
                | Hf : Forall2 _ _ _ |- _ => inversion Hf; clear Hf; subst
                end; fail).
  apply Forall2_cons in Htasks as [Ht1 Htasks].
  apply Forall2_cons in Htasks as [Ht2 Htasks].
  apply Forall2_cons in Htasks as [Ht3 _].
  exists (JDict (dict_set "pipeline_processing" pc' manifest)), doc1, doc2, doc3.
  split; [|split; [|done]].
  - unfold dispatch. cbn [lift]. rewrite Hpipeline. cbn [default]. unfold id.
    erewrite bind_Ok by reflexivity.
    rewrite (dict_get_truthy _ _ _ Hseg).
    cbn [getitem]. rewrite Hseg, Hpipeline.
    cbn [mbind result_mbind result_bind getitem]. rewrite Hchannels.
    cbn [mbind result_mbind result_bind].
    cbn [getitem mbind result_mbind result_bind] in Hbackground.
    destruct (dict_get "registration" pipeline) as [registration|];
      [|discriminate].
    cbn [mbind result_mbind result_bind] in *.
    destruct (getitem registration "channels") as [channels|]; [|discriminate].
    cbn [mbind result_mbind result_bind] in *.
    rewrite Hbackground. cbn [mbind result_mbind result_bind].
    erewrite bind_Ok by reflexivity. cbv beta iota.
    erewrite bind_Ok by reflexivity.
    change (Z.of_nat (length [JInt 1; JInt 2; JInt 3]) =? 0) with false.
    cbv beta iota.
    erewrite bind_Ok by reflexivity.
    erewrite bind_Ok by exact Hloop.
    reflexivity.
  - repeat constructor; rewrite ?elem_of_cons, ?elem_of_nil;
      intros Hin; repeat destruct Hin as [Hin|Hin]; try done;
      apply task_file_inj in Hin; discriminate.
Qed.

(** C6. For a manifest whose pipeline section is present, whose list of
    registration channels is not empty and whose list of segmentation
    channels is empty, [dispatch] raises the "no segmentation channels"
    error and leaves the world as it was: no task file is written. *)
Theorem dispatch_without_channels
    (manifest pipeline : dict) (segmentation registration background : json)
    (others : list json) (results_folder : string) (w : World) :
  dict_get "pipeline_processing" manifest = Some (JDict pipeline) →
  dict_get "segmentation" pipeline = Some segmentation →
  getitem segmentation "channels" = Ok (JList []) →
  dict_get "registration" pipeline = Some registration →
  getitem registration "channels" = Ok (JList (background :: others)) →
  dispatch (JDict manifest) results_folder w
  = (Raise (BaseException "Stopping pipeline, no segmentation channels."), w).
Proof.
  intros Hpipeline Hseg Hchannels Hreg Hbackground.
  unfold dispatch. cbn [lift]. rewrite Hpipeline. cbn [default]. unfold id.
  erewrite bind_Ok by reflexivity.
  rewrite (dict_get_truthy _ _ _ Hseg).
  cbn [getitem mbind result_mbind result_bind]. rewrite Hseg.
  cbn [getitem mbind result_mbind result_bind]. rewrite Hchannels.
  cbn [getitem mbind result_mbind result_bind]. rewrite Hpipeline.
  cbn [getitem mbind result_mbind result_bind]. rewrite Hreg.
  cbn [getitem mbind result_mbind result_bind]. rewrite Hbackground.
  cbn [mbind result_mbind result_bind getindex index_list].
  erewrite bind_Ok by reflexivity. cbv beta iota.
  erewrite bind_Ok by reflexivity.
  reflexivity.
Qed.

(** ** Visualization Link Builder *)


Lemma map_result_Forall2 {A B} (f : A → result B) l l' :
  map_result f l = Ok l' → Forall2 (λ x y, f x = Ok y) l l'.
Proof.
  revert l'. induction l as [|x l IH]; intros l' Hmap; simpl in Hmap.
  - inversion Hmap. constructor.
  - destruct (f x) as [y|] eqn:Hx; [|discriminate].
    cbn [mbind result_mbind result_bind] in Hmap.
    destruct (map_result f l) as [ys|]; [|discriminate].
    inversion Hmap; subst. constructor; [done|]. by apply IH.
Qed.

Lemma index_list_lookup {A} (l : list A) (i : nat) :
  index_list l (Z.of_nat i)
  = match l !! i with Some v => Ok v | None => Raise IndexError end.
Proof.
  unfold index_list.
  destruct (Z.ltb_spec (Z.of_nat i) 0) as [|_]; [lia|].
  destruct (Z.ltb_spec (Z.of_nat i) 0) as [|_]; [lia|].
  by rewrite Nat2Z.id.
Qed.





(** A call of [create_ng_link] that returns: the descriptor it built, the
    state the viewer library made of it, and the file it wrote. *)
Lemma create_ng_link_Ok config paths dataset w r w' :
  create_ng_link config paths dataset w = (Ok r, w') →
  let ng_output_path := output_folder config +:+ "/neuroglancer_config.json" in
  let ng_link := ng_base_url config +:+ "#!" +:+ dataset
                   +:+ "/neuroglancer_config.json" in
  ∃ descriptor state,
    ng_input_configs config paths dataset = Ok descriptor
    ∧ NgState_state descriptor "s3" (bucket_path config) (output_folder config)
        (ng_base_url config) "neuroglancer_config.json" = Ok state
    ∧ r = (Path ng_output_path, ng_link)
    ∧ w' = with_file w ng_output_path
             (Json (Some 2%nat)
                (JDict (dict_set "ng_link" (JStr ng_link) state))).
Proof.
  unfold create_ng_link. rewrite lift_bind.
  destruct (ng_input_configs config paths dataset) as [descriptor|];
    [|discriminate].
  rewrite lift_bind.
  destruct (NgState_state _ _ _ _ _ _) as [state|] eqn:Hstate; [|discriminate].
  intros [= <- <-]. by exists descriptor, state.
Qed.


(** ** Required inputs and the parameters of [run] *)

Lemma validate_capsule_inputs_fold w input_elements seen :
  fold_left
    (λ missing_inputs required_input_element,
       if exists_ w (path_str (Path required_input_element))
       then missing_inputs
       else missing_inputs ++ [path_str (Path required_input_element)])
    input_elements seen
  = seen ++ missing_inputs w input_elements.
Proof.
  unfold missing_inputs. revert seen.
  induction input_elements as [|p input_elements IH]; intros seen.
  - cbn. by rewrite app_nil_r.
  - cbn [fold_left List.filter]. fold (normalised p).
    destruct (exists_ w (normalised p)); cbn [negb].
    + apply IH.
    + rewrite IH, fmap_cons. by rewrite <- app_assoc.
Qed.

Lemma validate_capsule_inputs_run input_elements w :
  validate_capsule_inputs input_elements w
  = (Ok (missing_inputs w input_elements), w).
Proof.
  unfold validate_capsule_inputs.
  by rewrite validate_capsule_inputs_fold.
Qed.

Lemma missing_inputs_normalised w input_elements :
  Forall (λ p, normalised p = p) input_elements →
  missing_inputs w input_elements = documented_missing_inputs w input_elements.
Proof.
  unfold missing_inputs, documented_missing_inputs.
  induction 1 as [|p input_elements Hp _ IH]; [done|].
  cbn [List.filter]. rewrite Hp.
  destruct (exists_ w p); cbn [negb]; [done|].
  by rewrite fmap_cons, Hp, IH.
Qed.

Lemma parse_params_args args r : parse_params args = Ok r → args ≠ [].
Proof. by intros Hparse ->. Qed.

Lemma run_unfold mode cloud_mode output_path w :
  parse_params (List.tl argv) = Ok (mode, cloud_mode, output_path) →
  run w = run_mode (path_str (Path (abspath cwd "../data")))
            (path_str (Path (abspath cwd "../results")))
            mode output_path cloud_mode w.
Proof.
  intros Hparse. unfold run. cbv zeta.
  erewrite bind_Ok by (unfold lift; by rewrite Hparse). cbv beta iota.
  apply parse_params_args in Hparse.
  destruct argv as [|program args]; [done|].
  by erewrite bind_Ok by reflexivity.
Qed.

(** C9 (as amended). [validate_capsule_inputs] returns, in the order of
    the inputs, every input whose path does not exist, each in the spelling
    [pathlib] gives it; for inputs already spelled that way this is the
    sublist of the inputs that do not exist.  When an input that [run]
    requires is missing, [run] raises one error that lists all the missing
    inputs, and it has changed nothing by then. *)
Theorem missing_inputs_enumerated
    (input_elements : list string) (mode output_path : string)
    (cloud_mode : bool) (w : World) :
  validate_capsule_inputs input_elements w
    = (Ok (missing_inputs w input_elements), w) ∧
  (Forall (λ p, normalised p = p) input_elements →
   missing_inputs w input_elements
     = documented_missing_inputs w input_elements) ∧
  (let data_folder := path_str (Path (abspath cwd "../data")) in
   let missing :=
     missing_inputs w (required_input_elements data_folder mode) in
   parse_params (List.tl argv) = Ok (mode, cloud_mode, output_path) →
   missing ≠ [] →
   run w = (Raise (ValueError
                     ("We miss the following files in the capsule input: "
                      +:+ repr_str_list missing)), w)).
Proof.
  split; [apply validate_capsule_inputs_run|].
  split; [apply missing_inputs_normalised|].
  intros data_folder missing Hparse Hmissing.
  rewrite (run_unfold _ _ _ _ Hparse). unfold run_mode.
  erewrite bind_Ok by apply validate_capsule_inputs_run.
  fold data_folder. fold missing.
  by destruct missing.
Qed.

(** C10. The cloud mode is the truth value of the second token as a
    string: whenever the parameters split into three tokens and the second
    is not empty, whatever it says, [run] proceeds in cloud mode. *)
Theorem cloud_mode_is_truthiness
    (mode token output_path : string) (w : World) :
  split "," (params (List.tl argv)) = [mode; token; output_path] →
  token ≠ EmptyString →
  parse_params (List.tl argv) = Ok (mode, true, output_path) ∧
  run w = run_mode (path_str (Path (abspath cwd "../data")))
            (path_str (Path (abspath cwd "../results")))
            mode output_path true w.
Proof.
  intros Hsplit Htoken.
  assert (parse_params (List.tl argv) = Ok (mode, true, output_path))
    as Hparse.
  { unfold parse_params. rewrite Hsplit. by destruct token. }
  split; [done|]. by apply run_unfold.
Qed.


End Properties.

(** * Further properties of the code *)

(** ** Channel Color Mapper, between the bounds *)

Lemma color_loop_first test pre ub h post hex_val :
  Forall (λ e : Z * Z, test e.1 = false) pre → test ub = true →
  color_loop test (pre ++ (ub, h) :: post) hex_val = Ok h.
Proof.
  intros Hpre Hub. revert hex_val.
  induction Hpre as [|[ub0 h0] pre Hub0 _ IH]; intros hex_val; cbn.
  - by rewrite Hub.
  - cbn in Hub0. rewrite Hub0. apply IH.
Qed.

Lemma lookup_split_take {A} (l : list A) i x :
  l !! i = Some x → l = take i l ++ x :: drop (S i) l.
Proof. intros Hi. by rewrite <- (take_drop_middle l i x Hi) at 1. Qed.

(** X1. Between two neighbouring bounds of its table a mapper returns the
    colour of the upper one and never fails: variant A for a wavelength
    from the lower bound on and below the upper bound, variant B for a
    wavelength above the lower bound and up to the upper bound.  So a
    wavelength equal to a bound belongs to the next band in variant A and
    to the band of that bound in variant B. *)
Theorem color_bands (i : nat) (lo ub h0 h w : Z) :
  (color_map !! i = Some (lo, h0) → color_map !! S i = Some (ub, h) →
   lo ≤ w < ub → wavelength_to_hex w = Ok h) ∧
  (color_map_alternate !! i = Some (lo, h0) →
   color_map_alternate !! S i = Some (ub, h) →
   lo < w ≤ ub → wavelength_to_hex_alternate w = Ok h).
Proof.
  split; intros Hlo Hub Hw.
  - unfold wavelength_to_hex.
    rewrite (lookup_split_take _ _ _ Hub).
    apply color_loop_first; [|cbn; lia].
    do 15 (destruct i as [|i];
           [inversion Hlo; subst; repeat constructor; cbn; lia|]).
    by destruct i.
  - unfold wavelength_to_hex_alternate.
    rewrite (lookup_split_take _ _ _ Hub).
    apply color_loop_first; [|cbn; lia].
    do 9 (destruct i as [|i];
          [inversion Hlo; subst; repeat constructor; cbn; lia|]).
    by destruct i.
Qed.

(** X2. Whatever the channel number, the colour string of a layer is
    defined: it is ["#"] followed by the six hexadecimal digits of one of
    the nine colours of the alternate table. *)
Theorem hex_str_format (channel : Z) :
  ∃ ub h color,
    (ub, h) ∈ color_map_alternate ∧
    hex_str channel = Ok color ∧
    color = "#" +:+ hex_digits (Z.to_N h) ∧
    String.length color = 7%nat.
Proof.
  unfold hex_str, wavelength_to_hex_alternate, color_map_alternate.
  cbn [color_loop].
  repeat match goal with
         | |- context [channel <=? ?b] => destruct (Z.leb_spec channel b)
         end;
    cbn [mbind result_mbind result_bind];
    match goal with
    | |- context [hex ?v] => eexists _, v, _
    end;
    (split;
     [repeat first [apply list_elem_of_here | apply list_elem_of_further]
     |split; [reflexivity|split; vm_compute; reflexivity]]).
Qed.

(** ** Manifest Fan-Out Dispatcher, in general *)

Lemma dispatch_channel_spec pc seg channel background :
  dict_get "segmentation" pc = Some (JDict seg) →
  ∃ pc' seg' doc,
    dispatch_channel (JDict pc) channel background = Ok (JDict pc', doc) ∧
    dict_get "segmentation" pc' = Some (JDict seg') ∧
    (∀ key, key ≠ "segmentation" → dict_get key pc' = dict_get key pc) ∧
    (∀ key, ¬ set_by_dispatch key → dict_get key seg' = dict_get key seg) ∧
    dict_get "input_data" seg' = Some (JStr "../data/fused") ∧
    dict_get "channel" seg' = Some channel ∧
    dict_get "background_channel" seg' = Some background ∧
    channel_task doc channel background ∧
    keeps_pipeline pc seg doc.
Proof.
  intros Hseg. unfold dispatch_channel, channel_task, keeps_pipeline.
  cbn [getitem setitem]. rewrite Hseg.
  cbn [mbind result_mbind result_bind setitem].
  set (seg' := dict_set "background_channel" background
                 (dict_set "channel" channel
                    (dict_set "input_data" (JStr "../data/fused") seg))).
  assert (∀ key, ¬ set_by_dispatch key → dict_get key seg' = dict_get key seg)
    as Hother.
  { intros key Hkey. unfold seg', set_by_dispatch in *.
    rewrite !dict_get_set_ne by (intros <-; apply Hkey; auto). done. }
  assert (dict_get "input_data" seg' = Some (JStr "../data/fused")) as Hinput.
  { unfold seg'. rewrite !dict_get_set_ne by done. apply dict_get_set_eq. }
  assert (dict_get "channel" seg' = Some channel) as Hchannel.
  { unfold seg'. rewrite dict_get_set_ne by done. apply dict_get_set_eq. }
  assert (dict_get "background_channel" seg' = Some background) as Hbg.
  { apply dict_get_set_eq. }
  eexists _, seg', _. split; [reflexivity|].
  split; [apply dict_get_set_eq|].
  split; [intros key Hkey; by apply dict_get_set_ne|].
  do 4 (split; [done|]).
  split.
  - cbn [getitem mbind result_mbind result_bind].
    rewrite dict_get_set_eq.
    rewrite dict_get_set_ne, dict_get_set_eq by done.
    cbn [getitem mbind result_mbind result_bind].
    rewrite Hchannel, Hbg, Hinput. done.
  - eexists _, seg'. split; [reflexivity|].
    split; [by rewrite dict_get_set_ne, dict_get_set_eq|].
    split; [|done]. intros key Hseg' Hq.
    by rewrite !dict_get_set_ne.
Qed.

Lemma dispatch_loop_spec results_folder background channels pc seg w :
  dict_get "segmentation" pc = Some (JDict seg) →
  ∃ pc' seg' docs,
    dispatch_loop results_folder background channels (JDict pc) w
    = (Ok (JDict pc'),
       foldl (λ w cd, with_file w (task_file results_folder cd.1)
                        (Json (Some 4%nat) cd.2))
         w (zip channels docs)) ∧
    Forall2 (λ channel doc, channel_task doc channel background
                            ∧ keeps_pipeline pc seg doc) channels docs ∧
    dict_get "segmentation" pc' = Some (JDict seg') ∧
    (∀ key, key ≠ "segmentation" → dict_get key pc' = dict_get key pc) ∧
    (∀ key, ¬ set_by_dispatch key → dict_get key seg' = dict_get key seg) ∧
    (∀ channel, last channels = Some channel →
       dict_get "input_data" seg' = Some (JStr "../data/fused") ∧
       dict_get "channel" seg' = Some channel ∧
       dict_get "background_channel" seg' = Some background).
Proof.
  revert pc seg w. induction channels as [|c channels IH]; intros pc seg w Hseg.
  - exists pc, seg, []. repeat split; done.
  - destruct (dispatch_channel_spec pc seg c background Hseg)
      as (pc1 & seg1 & doc & Hstep & Hseg1 & Hpc1 & Hkeep1 & Hin & Hch & Hbg
          & Htask & Hkeeps).
    destruct (IH pc1 seg1
                (with_file w (task_file results_folder c)
                   (Json (Some 4%nat) doc)) Hseg1)
      as (pc' & seg' & docs & Hloop & Htasks & Hseg' & Hpc' & Hkeep' & Hlast).
    exists pc', seg', (doc :: docs).
    split; [|split; [|split; [done|split; [|split]]]].
    + cbn [dispatch_loop]. unfold lift at 1.
      erewrite bind_Ok by (by rewrite Hstep). cbv beta iota.
      destruct Hkeeps as (entries & block & -> & _).
      erewrite bind_Ok by reflexivity. exact Hloop.
    + constructor; [done|].
      eapply Forall2_impl; [exact Htasks|].
      intros channel d [Ht (entries & block & -> & Hb & He & Hk)].
      split; [done|]. exists entries, block. repeat split; try done.
      * intros key H1 H2. rewrite He by done. by apply Hpc1.
      * intros key Hkey. rewrite Hk by done. by apply Hkeep1.
    + intros key Hkey. rewrite Hpc' by done. by apply Hpc1.
    + intros key Hkey. rewrite Hkeep' by done. by apply Hkeep1.
    + intros channel Hl. destruct channels as [|c' channels].
      * cbn in Hl. inversion Hl; subst channel.
        cbn [dispatch_loop ret] in Hloop. inversion Hloop; subst pc'.
        rewrite Hseg1 in Hseg'. by inversion Hseg'; subst seg'.
      * apply Hlast. by rewrite last_cons_cons in Hl.
Qed.

(** The pipeline section of a manifest is fit for [dispatch]: it has a
    segmentation block with a list of channels, and a first registration
    channel. *)
Lemma dispatch_unfold manifest pipeline segmentation channels background
    results_folder w :
  dict_get "pipeline_processing" manifest = Some (JDict pipeline) →
  dict_get "segmentation" pipeline = Some (JDict segmentation) →
  dict_get "channels" segmentation = Some (JList channels) →
  channels ≠ [] →
  (registration ← getitem (JDict pipeline) "registration";
   registered ← getitem registration "channels";
   getindex registered 0) = Ok background →
  dispatch (JDict manifest) results_folder w
  = (pipeline_config ←
       dispatch_loop results_folder background channels (JDict pipeline);
     lift (setitem (JDict manifest) "pipeline_processing" pipeline_config)) w.
Proof.
  intros Hpipeline Hseg Hchannels Hne Hbackground.
  unfold dispatch. cbn [lift]. rewrite Hpipeline. cbn [default]. unfold id.
  erewrite bind_Ok by reflexivity.
  rewrite (dict_get_truthy _ _ _ Hseg).
  cbn [getitem]. rewrite Hseg, Hpipeline.
  cbn [mbind result_mbind result_bind getitem]. rewrite Hchannels.
  cbn [mbind result_mbind result_bind].
  cbn [getitem mbind result_mbind result_bind] in Hbackground.
  destruct (dict_get "registration" pipeline) as [registration|];
    [|discriminate].
  cbn [mbind result_mbind result_bind] in *.
  destruct (getitem registration "channels") as [registered|]; [|discriminate].
  cbn [mbind result_mbind result_bind] in *.
  rewrite Hbackground. cbn [mbind result_mbind result_bind].
  erewrite bind_Ok by reflexivity. cbv beta iota.
  erewrite bind_Ok by reflexivity.
  destruct channels as [|c channels]; [done|].
  change (Z.of_nat (length (c :: channels)) =? 0) with false.
  cbv beta iota.
  by erewrite bind_Ok by reflexivity.
Qed.

Lemma foldl_with_file_lookup results_folder (tasks : list (json * json)) w c doc :
  NoDup (str <$> (fst <$> tasks)) → (c, doc) ∈ tasks →
  files (foldl (λ w cd, with_file w (task_file results_folder cd.1)
                          (Json (Some 4%nat) cd.2)) w tasks)
    !! task_file results_folder c = Some (Json (Some 4%nat) doc).
Proof.
  revert w. induction tasks as [|[c0 d0] tasks IH]; intros w Hnd Hin.
  - by apply elem_of_nil in Hin.
  - rewrite !fmap_cons in Hnd. apply NoDup_cons in Hnd as [Hfresh Hnd].
    cbn [foldl]. apply elem_of_cons in Hin as [[= -> ->]|Hin].
    + clear IH. cbn [fst snd].
      assert (∀ w0, files w0 !! task_file results_folder c0
                    = Some (Json (Some 4%nat) d0) →
              files (foldl (λ w cd, with_file w (task_file results_folder cd.1)
                                      (Json (Some 4%nat) cd.2)) w0 tasks)
                !! task_file results_folder c0 = Some (Json (Some 4%nat) d0))
        as Hkeep.
      { clear Hnd. induction tasks as [|[c1 d1] tasks IH]; intros w0 Hw0;
          [done|].
        cbn [foldl]. apply IH.
        - intros Hin. apply Hfresh. rewrite !fmap_cons. by right.
        - cbn. rewrite lookup_insert_ne; [done|].
          intros Heq. apply task_file_inj in Heq.
          apply Hfresh. rewrite !fmap_cons. apply elem_of_cons. left.
          symmetry. exact Heq. }
      apply Hkeep. cbn. by rewrite lookup_insert_eq.
    + by apply IH.
Qed.

(** X3. For a manifest whose pipeline section has a segmentation block
    with a non-empty list of channels, whatever their number, and a first
    registration channel, [dispatch] succeeds, provided every task file
    can be created: the text of each channel makes a plain file name, the
    results folder is a directory and no task file is one, so that only a
    fault of the host, which is left out here, could make a write fail.
    It writes the task files in the order of the channels, one write per
    channel.  The task of a channel names that channel and the background
    channel, and keeps every other entry of the pipeline section and of
    its segmentation block.  When the channels are written differently,
    each of them has its own file, which holds its task. *)
Theorem fan_out_of_any_channels
    (manifest pipeline segmentation : dict) (channels : list json)
    (background : json) (results_folder : string) (w : World) :
  dict_get "pipeline_processing" manifest = Some (JDict pipeline) →
  dict_get "segmentation" pipeline = Some (JDict segmentation) →
  dict_get "channels" segmentation = Some (JList channels) →
  channels ≠ [] →
  (registration ← getitem (JDict pipeline) "registration";
   registered ← getitem registration "channels";
   getindex registered 0) = Ok background →
  Forall (λ channel,
            can_create w results_folder
              ("segmentation_processing_manifest_" +:+ str channel
               +:+ ".json")) channels →
  ∃ manifest' docs w',
    dispatch (JDict manifest) results_folder w = (Ok manifest', w') ∧
    w' = foldl (λ w cd, with_file w (task_file results_folder cd.1)
                          (Json (Some 4%nat) cd.2))
           w (zip channels docs) ∧
    Forall2 (λ channel doc, channel_task doc channel background
                            ∧ keeps_pipeline pipeline segmentation doc)
      channels docs ∧
    (NoDup (str <$> channels) →
     Forall2 (λ channel doc,
                files w' !! task_file results_folder channel
                = Some (Json (Some 4%nat) doc)) channels docs).
Proof.
  intros Hpipeline Hseg Hchannels Hne Hbackground _.
  destruct (dispatch_loop_spec results_folder background channels pipeline
              segmentation w Hseg)
    as (pc' & seg' & docs & Hloop & Htasks & _).
  eexists _, docs, _. split; [|split; [reflexivity|split; [done|]]].
  - rewrite (dispatch_unfold _ _ _ _ _ _ _ Hpipeline Hseg Hchannels Hne
               Hbackground).
    erewrite bind_Ok by exact Hloop. reflexivity.
  - intros Hnd. apply Forall2_same_length_lookup.
    split; [by eapply Forall2_length|].
    intros i c doc Hc Hdoc.
    apply foldl_with_file_lookup.
    + rewrite fst_zip; [done|]. apply Forall2_length in Htasks. lia.
    + apply list_elem_of_lookup. exists i. apply lookup_zip_with_Some.
      eauto.
Qed.


(** X6. What [dispatch] refuses before it writes anything.  A manifest
    without a pipeline section, or with an empty one, gets the "pipeline
    configuration" error.  A pipeline section whose list of registration
    channels is empty gets an [IndexError], whatever the segmentation
    channels: the background channel is read before the segmentation
    channels are counted, so with both lists empty the "no segmentation
    channels" error is not the one raised. *)
Theorem dispatch_rejections
    (manifest pipeline : dict) (segmentation registration channels : json)
    (results_folder : string) (w : World) :
  (dict_get "pipeline_processing" manifest = None
   ∨ dict_get "pipeline_processing" manifest = Some (JDict []) →
   dispatch (JDict manifest) results_folder w
   = (Raise (BaseException "Stopping pipeline, pipeline configuration."), w)) ∧
  (dict_get "pipeline_processing" manifest = Some (JDict pipeline) →
   dict_get "segmentation" pipeline = Some segmentation →
   getitem segmentation "channels" = Ok channels →
   dict_get "registration" pipeline = Some registration →
   getitem registration "channels" = Ok (JList []) →
   dispatch (JDict manifest) results_folder w = (Raise IndexError, w)).
Proof.
  split.
  - intros [Hnone|Hempty]; unfold dispatch; cbn [lift].
    + by rewrite Hnone.
    + by rewrite Hempty.
  - intros Hpipeline Hseg Hchannels Hreg Hregistered.
    unfold dispatch. cbn [lift]. rewrite Hpipeline. cbn [default]. unfold id.
    erewrite bind_Ok by reflexivity.
    rewrite (dict_get_truthy _ _ _ Hseg).
    cbn [getitem mbind result_mbind result_bind]. rewrite Hseg.
    cbn [getitem mbind result_mbind result_bind]. rewrite Hchannels.
    cbn [getitem mbind result_mbind result_bind]. rewrite Hpipeline.
    cbn [getitem mbind result_mbind result_bind]. rewrite Hreg.
    cbn [getitem mbind result_mbind result_bind]. rewrite Hregistered.
    reflexivity.
Qed.

(** ** Strings *)

Lemma app_cons (a : ascii) (s t : string) :
  String a s +:+ t = String a (s +:+ t).
Proof. reflexivity. Qed.

Lemma app_empty_r (s : string) : s +:+ EmptyString = s.
Proof. induction s as [|a s IH]; [done|]. by rewrite app_cons, IH. Qed.

Lemma app_assoc_string (s1 s2 s3 : string) :
  (s1 +:+ s2) +:+ s3 = s1 +:+ (s2 +:+ s3).
Proof. induction s1 as [|a s1 IH]; [done|]. by rewrite !app_cons, IH. Qed.

Lemma take_chars_app (p t : string) : take_chars (String.length p) (p +:+ t) = p.
Proof.
  induction p as [|a p IH]; [by destruct t|].
  rewrite app_cons. cbn. by rewrite IH.
Qed.

Lemma drop_chars_add (p t : string) (k : nat) :
  drop_chars (String.length p + k) (p +:+ t) = drop_chars k t.
Proof. induction p as [|a p IH]; [done|]. apply IH. Qed.

(** ** The parameters of [run] *)

Lemma replace_char_cons (c a : ascii) (s : string) :
  replace (String c EmptyString) EmptyString (String a s)
  = if Ascii.eqb c a then replace (String c EmptyString) EmptyString s
    else String a (replace (String c EmptyString) EmptyString s).
Proof.
  unfold replace. cbn.
  destruct (ascii_dec c a) as [->|Hne].
  - rewrite Ascii.eqb_refl. by destruct s.
  - by destruct (Ascii.eqb_spec c a).
Qed.

Lemma replace_char_app (c : ascii) (s t : string) :
  replace (String c EmptyString) EmptyString (s +:+ t)
  = replace (String c EmptyString) EmptyString s
    +:+ replace (String c EmptyString) EmptyString t.
Proof.
  induction s as [|a s IH]; [done|].
  rewrite app_cons, !replace_char_cons, IH. by destruct (Ascii.eqb c a).
Qed.

Lemma casefold_app (s t : string) :
  casefold (s +:+ t) = casefold s +:+ casefold t.
Proof.
  induction s as [|a s IH]; [done|]. rewrite app_cons. cbn. by rewrite IH.
Qed.

Lemma join_first (sep a : string) (l : list string) :
  ∃ rest, join sep (a :: l) = a +:+ rest.
Proof.
  destruct l as [|b l]; [exists EmptyString; by rewrite app_empty_r|].
  by eexists.
Qed.

Lemma join_last (sep a : string) (l : list string) :
  ∃ before, join sep (l ++ [a]) = before +:+ a.
Proof.
  induction l as [|b l [before IH]]; [by exists EmptyString|].
  exists (b +:+ sep +:+ before).
  unfold join in *. cbn [app String.concat].
  destruct (l ++ [a]) as [|x xs] eqn:Hl; [by destruct l|].
  rewrite IH. by rewrite !app_assoc_string.
Qed.

(** A string that does not start with the separator keeps its first
    character in the first token; one that does not end with it keeps its
    last character in the last token. *)
Lemma split_first (c q : ascii) (s : string) :
  q ≠ c → ∃ h t, split c (String q s) = String q h :: t.
Proof.
  intros Hq. cbn. destruct (Ascii.eqb_spec q c) as [|_]; [done|].
  destruct (split c s); eauto.
Qed.

Lemma split_last (c q : ascii) (s : string) :
  q ≠ c →
  ∃ init l, split c (s +:+ String q EmptyString)
            = init ++ [l +:+ String q EmptyString].
Proof.
  intros Hq. induction s as [|a s (init & l & IH)].
  - exists [], EmptyString. change (EmptyString +:+ ?x) with x. cbn.
    by destruct (Ascii.eqb_spec q c).
  - rewrite app_cons. cbn [split]. rewrite IH.
    destruct (Ascii.eqb a c).
    + by exists (EmptyString :: init), l.
    + destruct init as [|i init]; cbn.
      * by exists [], (String a l).
      * by exists (String a i :: init), l.
Qed.

Lemma repr_str_quotes (s : string) :
  ∃ q body, is_quote q ∧ repr_str s = String q (body +:+ String q EmptyString).
Proof.
  unfold repr_str. destruct (has_char squote s && negb (has_char dquote s));
    eexists _, _; (split; [|done]); [by right|by left].
Qed.

Lemma params_app (s t : string) :
  casefold (replace "]" EmptyString (replace "[" EmptyString (s +:+ t)))
  = casefold (replace "]" EmptyString (replace "[" EmptyString s))
    +:+ casefold (replace "]" EmptyString (replace "[" EmptyString t)).
Proof. by rewrite !replace_char_app, casefold_app. Qed.

Lemma params_first (a : string) (l : list string) :
  ∃ q s, is_quote q ∧ params (a :: l) = String q s.
Proof.
  destruct (repr_str_quotes a) as (q & body & Hq & Ha).
  unfold params, repr_str_list. rewrite fmap_cons.
  destruct (join_first ", " (repr_str a) (repr_str <$> l)) as [rest ->].
  rewrite Ha. exists q. destruct Hq as [-> | ->]; eexists; (split; [|done]).
  - by left.
  - by right.
Qed.

Lemma params_last (a : string) (l : list string) :
  ∃ q s, is_quote q ∧ params (l ++ [a]) = s +:+ String q EmptyString.
Proof.
  destruct (repr_str_quotes a) as (q & body & Hq & Ha).
  unfold params, repr_str_list. rewrite fmap_app. cbn [fmap list_fmap].
  destruct (join_last ", " (repr_str a) (repr_str <$> l)) as [before ->].
  rewrite Ha, <- (app_cons q body).
  rewrite !params_app.
  exists q. eexists. split; [done|].
  replace (casefold (replace "]" EmptyString
                       (replace "[" EmptyString (String q EmptyString))))
    with (String q EmptyString) by (by destruct Hq as [-> | ->]).
  change (casefold (replace "]" EmptyString (replace "[" EmptyString "]")))
    with EmptyString.
  rewrite app_empty_r, <- !app_assoc_string. reflexivity.
Qed.

(** X16.  The three parameters [run] splits out of [str(sys.argv[1:])]
    keep the quotes of that text: when the split succeeds there was an
    argument, the mode starts with a quote and the output path ends with
    one, so the mode is never the bare word [dispatch] or [clean]. *)
Theorem parse_params_tokens (args : list string) (mode output_path : string)
    (cloud_mode : bool) :
  parse_params args = Ok (mode, cloud_mode, output_path) →
  args ≠ []
  ∧ (∃ q m, is_quote q ∧ mode = String q m)
  ∧ (∃ q o, is_quote q ∧ output_path = o +:+ String q EmptyString)
  ∧ mode ≠ "dispatch" ∧ mode ≠ "clean".
Proof.
  intros Hparse.
  assert (args ≠ []) as Hargs by (by intros ->).
  assert (∃ q m, is_quote q ∧ mode = String q m) as Hmode.
  { destruct args as [|a l]; [done|].
    destruct (params_first a l) as (q & s & Hq & Hs).
    exists q. unfold parse_params in Hparse. rewrite Hs in Hparse.
    destruct (split_first "," q s) as (h & t & Hsplit);
      [by destruct Hq as [-> | ->]|].
    rewrite Hsplit in Hparse. exists h. split; [done|].
    destruct t as [|? [|? [|? ?]]]; try done. by injection Hparse as <- _ _. }
  split; [done|]. split; [done|]. split.
  - destruct (list.last args) as [a|] eqn:Hlast;
      [|by apply last_None in Hlast].
    apply last_Some in Hlast as [l ->].
    destruct (params_last a l) as (q & s & Hq & Hs).
    exists q. unfold parse_params in Hparse. rewrite Hs in Hparse.
    destruct (split_last "," q s) as (init & o & Hsplit);
      [by destruct Hq as [-> | ->]|].
    rewrite Hsplit in Hparse. exists o. split; [done|].
    destruct (init ++ [o +:+ String q EmptyString])
      as [|x1 [|x2 [|x3 [|? ?]]]] eqn:Htokens; try done.
    injection Hparse as _ _ <-.
    change [x1; x2; x3] with ([x1; x2] ++ [x3]) in Htokens.
    by apply app_inj_tail in Htokens as [_ ?].
  - destruct Hmode as (q & m & [-> | ->] & ->); by split.
Qed.

(** ** Investigator names *)

Lemma rfind_None (c : ascii) (s : string) :
  has_char c s = false → rfind c s = None.
Proof.
  induction s as [|a s IH]; [done|]. cbn.
  intros [Ha Hs]%orb_false_elim. by rewrite IH, Ha.
Qed.

Lemma rfind_last (c : ascii) (p s : string) :
  has_char c s = false →
  rfind c (p +:+ String c s) = Some (String.length p).
Proof.
  intros Hs. induction p as [|a p IH].
  - change (EmptyString +:+ ?x) with x. cbn.
    by rewrite (rfind_None _ _ Hs), Ascii.eqb_refl.
  - rewrite app_cons. cbn. by rewrite IH.
Qed.

Lemma join_snoc (sep a : string) (l : list string) :
  l ≠ [] → join sep (l ++ [a]) = join sep l +:+ sep +:+ a.
Proof.
  intros Hl. induction l as [|b l IH]; [done|].
  destruct l as [|b' l]; [done|].
  unfold join in *. cbn [app String.concat] in *.
  rewrite IH by done. by rewrite !app_assoc_string.
Qed.

(** X17.  [clean_investigator_names]: no name is an [IndexError], one name
    is returned as it is, and with more names the last comma of the joined
    text becomes [" and"]: when the last name has no comma, the text
    before it is unchanged and the name follows [" and "]; when it has
    one, the word lands inside the last name. *)
Theorem clean_investigator_names_spec (names : list string) (last : string) :
  clean_investigator_names [] = Raise IndexError
  ∧ clean_investigator_names [last] = Ok last
  ∧ (names ≠ [] → has_char "," last = false →
     clean_investigator_names (names ++ [last])
     = Ok (join ", " names +:+ " and " +:+ last))
  ∧ (∀ family given, names ≠ [] → has_char "," given = false →
     last = family +:+ "," +:+ given →
     clean_investigator_names (names ++ [last])
     = Ok (join ", " names +:+ ", " +:+ family +:+ " and" +:+ given)).
Proof.
  assert (∀ p s, names ≠ [] → has_char "," s = false →
            join ", " (names ++ [last]) = p +:+ String "," s →
            clean_investigator_names (names ++ [last])
            = Ok (p +:+ " and" +:+ s)) as Hgen.
  { intros p s Hnames Hs Hjoin. unfold clean_investigator_names.
    replace (1 <? Z.of_nat (length (names ++ [last]))) with true; cycle 1.
    { symmetry. apply Z.ltb_lt. rewrite length_app. cbn.
      destruct names; [done|]. cbn. lia. }
    cbv zeta. rewrite Hjoin, (rfind_last _ _ _ Hs), take_chars_app.
    replace (S (String.length p)) with (String.length p + 1)%nat by lia.
    by rewrite drop_chars_add. }
  split; [done|]. split; [done|]. split.
  - intros Hnames Hlast.
    rewrite (Hgen (join ", " names) (" " +:+ last)); [done|done|..].
    + change (" " +:+ last) with (String " " last). cbn. by rewrite Hlast.
    + by rewrite join_snoc.
  - intros family given Hnames Hgiven ->.
    rewrite (Hgen (join ", " names +:+ ", " +:+ family) given); [|done..|].
    + by rewrite !app_assoc_string.
    + rewrite join_snoc by done. by rewrite !app_assoc_string.
Qed.

(** ** Reading JSON files *)

Lemma read_json_as_dict_file filepath indent doc w :
  files w !! filepath = Some (Json indent doc) →
  read_json_as_dict filepath w = (Ok doc, w).
Proof.
  intros Hfile. unfold read_json_as_dict, path_exists, exists_.
  unfold mbind, M_bind, bind. rewrite Hfile.
  rewrite bool_decide_eq_true_2 by eauto. cbn.
  unfold open_read. by rewrite Hfile.
Qed.

Section FurtherProperties.
Context {the_host : Host} {the_schema : Schema}.

(** ** Provenance Compiler: the first failure, re-reading *)

Lemma load_processing_outcome p w :
  (load_processing p w).1
  = match files w !! p with
    | Some (Json _ doc) =>
        match validate_python doc with
        | Some frag => Ok frag
        | None => Raise ValidationError
        end
    | Some (Text _) => Raise (JSONDecodeError p)
    | None =>
        if bool_decide (p ∈ dirs w) then Raise (IsADirectoryError p)
        else match validate_python (JDict []) with
             | Some frag => Ok frag
             | None => Raise ValidationError
             end
    end.
Proof.
  unfold load_processing, read_json_as_dict, path_exists, exists_, open_read.
  unfold mbind, M_bind, bind, lift, ret.
  destruct (files w !! p) as [[indent doc|s]|] eqn:Hfile; cbn;
    rewrite ?Hfile; cbn; [done|done|].
  case_bool_decide; cbn; rewrite ?Hfile; cbn; [|done].
  by rewrite bool_decide_eq_true_2.
Qed.

Lemma compile_processing_loop_first_failure good frags bad rest acc w e :
  Forall2 (loads_as w) good frags →
  (load_processing bad w).1 = Raise e →
  compile_processing_loop (good ++ bad :: rest) acc w = (Raise e, w).
Proof.
  intros Hgood Hbad. revert acc.
  induction Hgood as [|p frag good frags Hp _ IH]; intros acc.
  - cbn [app compile_processing_loop]. apply bind_Raise.
    pose proof (load_processing_world bad w) as Hw.
    destruct (load_processing bad w) as [r w0]. cbn in *. by subst.
  - cbn [app compile_processing_loop].
    erewrite bind_Ok by (by apply loads_as_run). apply IH.
Qed.

(** X8. The first fragment that cannot be loaded decides how
    [compile_processing_jsons] fails, before anything is written: after
    fragments that load, a path that is a directory gives
    [IsADirectoryError], and a JSON document the schema rejects gives
    [ValidationError].  A path that does not exist is read as the empty
    document: it gives [ValidationError] when the schema rejects the empty
    document, and is loaded like any fragment when the schema accepts it,
    so a missing fragment is never reported as missing. *)
Theorem compile_processing_jsons_first_failure
    (good : list string) (frags : list (Processing DataProcess))
    (bad : string) (rest : list string) (dest name version : string)
    (w : World) :
  Forall2 (loads_as w) good frags →
  (files w !! bad = None → bad ∈ dirs w →
   compile_processing_jsons (good ++ bad :: rest) dest name version w
   = (Raise (IsADirectoryError bad), w)) ∧
  (∀ indent doc,
     files w !! bad = Some (Json indent doc) → validate_python doc = None →
     compile_processing_jsons (good ++ bad :: rest) dest name version w
     = (Raise ValidationError, w)) ∧
  (exists_ w bad = false → validate_python (JDict []) = None →
   compile_processing_jsons (good ++ bad :: rest) dest name version w
   = (Raise ValidationError, w)) ∧
  (∀ frag, exists_ w bad = false → validate_python (JDict []) = Some frag →
           loads_as w bad frag).
Proof.
  intros Hgood.
  assert (∀ e, (load_processing bad w).1 = Raise e →
               compile_processing_jsons (good ++ bad :: rest) dest name
                 version w = (Raise e, w)) as Hfail.
  { intros e He. unfold compile_processing_jsons. apply bind_Raise.
    by eapply compile_processing_loop_first_failure. }
  assert (exists_ w bad = false →
          files w !! bad = None ∧ bad ∉ dirs w) as Habsent.
  { unfold exists_. intros [Hfile Hdir]%orb_false_elim.
    apply bool_decide_eq_false in Hfile, Hdir. split; [|done].
    destruct (files w !! bad); [|done]. by destruct Hfile. }
  split; [|split; [|split]].
  - intros Hfile Hdir. apply Hfail. rewrite load_processing_outcome, Hfile.
    by rewrite bool_decide_eq_true_2.
  - intros indent doc Hfile Hdoc. apply Hfail.
    by rewrite load_processing_outcome, Hfile, Hdoc.
  - intros [Hfile Hdir]%Habsent Hempty. apply Hfail.
    rewrite load_processing_outcome, Hfile, Hempty.
    by rewrite bool_decide_eq_false_2.
  - intros frag [Hfile Hdir]%Habsent Hempty. unfold loads_as.
    rewrite load_processing_outcome, Hfile, Hempty.
    by rewrite bool_decide_eq_false_2.
Qed.

(** X10. The compiled document can serve as a fragment of a later
    compilation, as the clean-up does with the document of the dispatch:
    when the schema reads back what it writes, with the same processes,
    compiling the compiled file alone gives a document with the processes
    of the original fragments, in the same order. *)
Theorem compile_processing_jsons_reread
    (processing_paths : list string) (frags : list (Processing DataProcess))
    (dest dest' name version name' version' : string) (w w1 : World) :
  (∀ doc, ∃ doc', validate_python (model_dump_json doc) = Some doc'
                  ∧ processes_of doc' = processes_of doc) →
  Forall2 (loads_as w) processing_paths frags →
  compile_processing_jsons processing_paths dest name version w
    = (Ok dest, w1) →
  ∃ doc w2,
    compile_processing_jsons [dest +:+ "/processing.json"] dest' name'
      version' w1 = (Ok dest', w2) ∧
    compiled_into w1 w2 dest' doc ∧
    processes_of doc = concat (processes_of <$> frags).
Proof.
  intros Hschema Hall Hrun. unfold compile_processing_jsons in Hrun.
  erewrite bind_Ok in Hrun by (by apply compile_processing_loop_Ok).
  unfold generate_processing in Hrun.
  erewrite bind_Ok in Hrun by reflexivity.
  match type of Hrun with
  | context [model_dump_json ?d] =>
      set (doc0 := d) in *; destruct (Hschema doc0) as (doc' & Hv & Hp)
  end.
  assert (w1 = with_file w (dest +:+ "/processing.json")
                 (Json (Some 3%nat) (model_dump_json doc0))) as ->
    by (by inversion Hrun).
  assert (loads_as (with_file w (dest +:+ "/processing.json")
                      (Json (Some 3%nat) (model_dump_json doc0)))
            (dest +:+ "/processing.json") doc') as Hload.
  { unfold loads_as. rewrite load_processing_outcome. cbn.
    by rewrite lookup_insert_eq, Hv. }
  unfold compile_processing_jsons.
  erewrite bind_Ok
    by (apply (compile_processing_loop_Ok _ [doc']); by repeat constructor).
  unfold generate_processing. eexists _, _.
  split; [reflexivity|]. split; [reflexivity|].
  cbn. rewrite app_nil_r. exact Hp.
Qed.

(** ** Required inputs, the manifest and the mode *)

(** X11. [validate_capsule_inputs] reports nothing exactly when every
    input exists; every path it reports does not exist; it reports at
    most one path per input, and it changes nothing. *)
Theorem validate_capsule_inputs_report
    (input_elements : list string) (w : World) :
  ((validate_capsule_inputs input_elements w).1 = Ok []
   ↔ Forall (λ p, exists_ w (normalised p) = true) input_elements) ∧
  (∃ missing,
     validate_capsule_inputs input_elements w = (Ok missing, w) ∧
     Forall (λ p, exists_ w p = false) missing ∧
     (length missing ≤ length input_elements)%nat).
Proof.
  rewrite validate_capsule_inputs_run. cbn [fst]. unfold missing_inputs.
  split.
  - induction input_elements as [|p l IH]; cbn [List.filter].
    + split; [constructor|done].
    + destruct (exists_ w (normalised p)) eqn:Hp; cbn [negb].
      * rewrite Forall_cons. tauto.
      * rewrite fmap_cons, Forall_cons. split; [discriminate|].
        intros [Hp' _]. congruence.
  - eexists. split; [reflexivity|].
    induction input_elements as [|p l [IH1 IH2]]; cbn [List.filter].
    + split; [constructor|done].
    + destruct (exists_ w (normalised p)) eqn:Hp; cbn [negb].
      * split; [done|]. cbn. lia.
      * rewrite fmap_cons. split; [by constructor|]. cbn in *. lia.
Qed.

Lemma path_exists_run p w : path_exists p w = (Ok (exists_ w p), w).
Proof. reflexivity. Qed.

(** X12. [get_data_config] checks the processing manifest before the data
    description and names the first of the two that is missing; it only
    reads.  When both files hold JSON documents it returns the manifest
    with the name and the investigators of the description, and a
    description without investigators is a [KeyError], although [run]
    makes no use of them. *)
Theorem get_data_config_outcome
    (data_folder processing_manifest_path data_description_path : string)
    (w : World) :
  let manifest_path :=
    normalised (data_folder +:+ "/" +:+ processing_manifest_path) in
  let description_path :=
    normalised (data_folder +:+ "/" +:+ data_description_path) in
  (get_data_config data_folder processing_manifest_path
     data_description_path w).2 = w ∧
  (exists_ w manifest_path = false →
   (get_data_config data_folder processing_manifest_path
      data_description_path w).1
   = Raise (ValueError ("Please, check processing manifest path: "
                        +:+ manifest_path))) ∧
  (exists_ w manifest_path = true → exists_ w description_path = false →
   (get_data_config data_folder processing_manifest_path
      data_description_path w).1
   = Raise (ValueError ("Please, check data description path: "
                        +:+ description_path))) ∧
  (∀ indent indent' manifest description name,
     files w !! manifest_path = Some (Json indent manifest) →
     files w !! description_path = Some (Json indent' description) →
     getitem description "name" = Ok name →
     (get_data_config data_folder processing_manifest_path
        data_description_path w).1
     = match getitem description "investigators" with
       | Ok investigators => Ok (manifest, name, investigators)
       | Raise e => Raise e
       end).
Proof.
  intros manifest_path description_path.
  unfold get_data_config. cbv zeta.
  fold (normalised (data_folder +:+ "/" +:+ processing_manifest_path)).
  fold (normalised (data_folder +:+ "/" +:+ data_description_path)).
  fold manifest_path. fold description_path.
  erewrite bind_Ok by apply path_exists_run.
  split; [|split; [|split]].
  - destruct (exists_ w manifest_path); cbn [negb]; [|done].
    erewrite bind_Ok by apply path_exists_run.
    destruct (exists_ w description_path); cbn [negb]; [|done].
    pose proof (read_json_as_dict_world manifest_path w) as Hw.
    destruct (read_json_as_dict manifest_path w) as [[m|e] w0] eqn:Hm;
      cbn in Hw; subst w0;
      [erewrite bind_Ok by exact Hm|by erewrite bind_Raise by exact Hm].
    pose proof (read_json_as_dict_world description_path w) as Hw.
    destruct (read_json_as_dict description_path w) as [[d|e] w0] eqn:Hd;
      cbn in Hw; subst w0;
      [erewrite bind_Ok by exact Hd|by erewrite bind_Raise by exact Hd].
    rewrite lift_bind. destruct (getitem d "name"); [|done].
    rewrite lift_bind. by destruct (getitem d "investigators").
  - by intros ->.
  - intros -> Hd. cbn [negb].
    erewrite bind_Ok by apply path_exists_run. by rewrite Hd.
  - intros indent indent' manifest description name Hm Hd Hname.
    assert (exists_ w manifest_path = true) as ->.
    { unfold exists_. rewrite Hm. by rewrite bool_decide_eq_true_2 by eauto. }
    cbn [negb]. erewrite bind_Ok by apply path_exists_run.
    assert (exists_ w description_path = true) as ->.
    { unfold exists_. rewrite Hd. by rewrite bool_decide_eq_true_2 by eauto. }
    cbn [negb].
    erewrite bind_Ok by (by eapply read_json_as_dict_file).
    erewrite bind_Ok by (by eapply read_json_as_dict_file).
    rewrite lift_bind, Hname, lift_bind.
    by destruct (getitem description "investigators").
Qed.

(** ** Local mode *)

Lemma never_returns_bind_l {A B} (m : M A) (k : A → M B) :
  never_returns m → never_returns (m ≫= k).
Proof.
  intros Hm w b. specialize (Hm w). unfold mbind, M_bind, bind.
  destruct (m w) as [[a|e] w']; cbn in *; [by destruct (Hm a)|done].
Qed.

Lemma never_returns_bind_r {A B} (m : M A) (k : A → M B) :
  (∀ a, never_returns (k a)) → never_returns (m ≫= k).
Proof.
  intros Hk w b. unfold mbind, M_bind, bind.
  destruct (m w) as [[a|e] w']; cbn; [apply Hk|done].
Qed.

Lemma never_returns_raise {A} (e : exn) : never_returns (@raise A e).
Proof. by intros w a. Qed.

Lemma copy_intermediate_data_local_run output_dispatch_metadata destripe_files
    flatfield_channels stitch_folders fuse_folders ccf_folders
    new_dataset_name output_path results_folder w :
  ∃ w', copy_intermediate_data output_dispatch_metadata destripe_files
          flatfield_channels stitch_folders fuse_folders ccf_folders
          new_dataset_name output_path results_folder false w
        = (Raise (UnboundLocalError "s3_path"), w').
Proof.
  unfold copy_intermediate_data.
  erewrite bind_Ok by apply copy_intermediate_processing_paths_run.
  unfold try_except.
  destruct (compile_processing_jsons
              (copy_mode_paths w destripe_files stitch_folders fuse_folders
                 ccf_folders)
              output_dispatch_metadata
              "Camilo Laiton" PIPELINE_VERSION w) as [[name|e] w1] eqn:Hc.
  - exists w1. erewrite bind_Ok; [reflexivity|].
    by erewrite bind_Ok by exact Hc.
  - destruct (compile_processing_jsons_Exception _ _ _ _ _ _ _ Hc) as [He _].
    exists w1. erewrite bind_Ok; [reflexivity|].
    erewrite bind_Raise by exact Hc. by rewrite He.
Qed.

Lemma clean_up_local processing_manifest data_folder results_folder :
  never_returns (clean_up processing_manifest data_folder results_folder false).
Proof.
  unfold clean_up. apply never_returns_bind_r. intros [[paths cells] quants].
  apply never_returns_bind_r. intros _. unfold clean_up_relocate.
  by intros w a.
Qed.

Lemma run_dispatch_local data_folder results_folder output_path :
  never_returns (run_dispatch data_folder results_folder output_path false).
Proof.
  unfold run_dispatch.
  apply never_returns_bind_r. intros [[pipeline_config name] investigators].
  apply never_returns_bind_r. intros [metadata new_name].
  do 5 (apply never_returns_bind_r; intros ?).
  apply never_returns_bind_l. intros w r.
  destruct (copy_intermediate_data_local_run metadata a a0 a1 a2 a3 new_name
              output_path results_folder w) as [w' ->].
  done.
Qed.

Lemma run_mode_local data_folder results_folder mode output_path :
  never_returns (run_mode data_folder results_folder mode output_path false).
Proof.
  unfold run_mode. apply never_returns_bind_r. intros missing.
  destruct (negb _); [apply never_returns_raise|].
  apply never_returns_bind_r. intros _.
  destruct (contains "dispatch" mode); [apply run_dispatch_local|].
  destruct (contains "clean" mode); [|apply never_returns_raise].
  unfold run_clean.
  apply never_returns_bind_r. intros [[pipeline_config name] investigators].
  apply never_returns_bind_r. intros manifest. apply clean_up_local.
Qed.

(** X13. Outside cloud mode nothing completes.  [copy_intermediate_data]
    always ends in [UnboundLocalError] for [s3_path], after the
    compilation has been tried; [clean_up] never returns normally; and
    when the parameters give a false cloud mode, [run] never returns
    normally, whatever the mode and the staging area. *)
Theorem local_mode_never_completes
    (processing_manifest : json) (data_folder results_folder : string)
    (output_dispatch_metadata new_dataset_name output_path mode : string)
    (destripe_files flatfield_channels stitch_folders fuse_folders
       ccf_folders : list string)
    (w : World) :
  (∃ w', copy_intermediate_data output_dispatch_metadata destripe_files
           flatfield_channels stitch_folders fuse_folders ccf_folders
           new_dataset_name output_path results_folder false w
         = (Raise (UnboundLocalError "s3_path"), w')) ∧
  (clean_up processing_manifest data_folder results_folder false w).1
    ≠ Ok () ∧
  (parse_params (List.tl argv) = Ok (mode, false, output_path) →
   (run w).1 ≠ Ok ()).
Proof.
  split; [apply copy_intermediate_data_local_run|].
  split; [apply clean_up_local|].
  intros Hparse. rewrite (run_unfold _ _ _ _ Hparse). apply run_mode_local.
Qed.

(** X14. The mode is chosen after the check of the inputs, by substring.
    With the inputs present and the data folder listed, a mode naming
    neither [dispatch] nor [clean] is refused with [NotImplementedError],
    nothing having been changed.  A mode naming both requires the inputs
    of a clean-up but takes the dispatch branch: when the processing
    manifest is absent, the check of the inputs passes and the run stops
    later, on the error of [get_data_config]. *)
Theorem mode_selection
    (data_folder results_folder mode output_path : string) (cloud_mode : bool)
    (entries : list string) (w : World) :
  missing_inputs w (required_input_elements data_folder mode) = [] →
  listdir w data_folder = Ok entries →
  (contains "dispatch" mode = false → contains "clean" mode = false →
   run_mode data_folder results_folder mode output_path cloud_mode w
   = (Raise (NotImplementedError
               ("The mode " +:+ mode +:+ " has not been implemented")), w)) ∧
  (contains "dispatch" mode = true → contains "clean" mode = true →
   required_input_elements data_folder mode
   = [ data_folder +:+ "/modified_processing_manifest.json";
       data_folder +:+ "/input_aind_metadata/data_description.json" ] ∧
   (exists_ w (normalised (data_folder +:+ "/processing_manifest.json"))
    = false →
    run_mode data_folder results_folder mode output_path cloud_mode w
    = (Raise (ValueError
                ("Please, check processing manifest path: "
                 +:+ normalised (data_folder +:+ "/processing_manifest.json"))),
       w))).
Proof.
  intros Hmissing Hls.
  assert (run_mode data_folder results_folder mode output_path cloud_mode w
          = (if contains "dispatch" mode then
               run_dispatch data_folder results_folder output_path cloud_mode
             else if contains "clean" mode then
               run_clean data_folder results_folder cloud_mode
             else raise (NotImplementedError
                           ("The mode " +:+ mode
                            +:+ " has not been implemented"))) w) as Hrun.
  { unfold run_mode.
    erewrite bind_Ok by apply validate_capsule_inputs_run.
    rewrite Hmissing. cbn [length Nat.eqb negb].
    by erewrite bind_Ok by (unfold listdir_; by rewrite Hls). }
  rewrite Hrun. split.
  - by intros -> ->.
  - intros Hd Hc. split; [unfold required_input_elements; by rewrite Hc|].
    intros Habsent. rewrite Hd. unfold run_dispatch, get_data_config.
    cbv zeta.
    fold (normalised (data_folder +:+ "/" +:+ "processing_manifest.json")).
    change (data_folder +:+ "/" +:+ "processing_manifest.json")
      with (data_folder +:+ "/processing_manifest.json") in *.
    apply bind_Raise. erewrite bind_Ok by apply path_exists_run.
    by rewrite Habsent.
Qed.

(** ** The viewer link *)

Lemma map_result_Ok_Forall {A B} (f : A → result B) (l : list A) l' :
  map_result f l = Ok l' → Forall (λ x, ∃ y, f x = Ok y) l.
Proof.
  intros Hmap%map_result_Forall2.
  induction Hmap; constructor; eauto.
Qed.

(** X18.  [create_ng_link] either fails before it has written anything, or
    writes one file, [neuroglancer_config.json] in the output folder, with
    an indentation of 2, and returns the path of that file and the link,
    which names the dataset path.  The file holds the state the viewer
    library made of the descriptor [create_ng_link] built, with the link
    under ["ng_link"]; the title of the descriptor is the second field,
    between underscores, of the name of the dataset, and its dimensions
    are those of the configuration.  It succeeds only if [int] accepts,
    for every channel path, what follows the last underscore of its
    stem. *)
Theorem create_ng_link_outcome (config : ng_config)
    (s3_channel_paths : list string) (s3_dataset_path : string) (w : World) :
  let ng_output_path := output_folder config +:+ "/neuroglancer_config.json" in
  let ng_link := ng_base_url config +:+ "#!" +:+ s3_dataset_path
                   +:+ "/neuroglancer_config.json" in
  (∀ e w', create_ng_link config s3_channel_paths s3_dataset_path w
           = (Raise e, w') → w' = w)
  ∧ (∀ r w', create_ng_link config s3_channel_paths s3_dataset_path w
             = (Ok r, w') →
       ∃ descriptor state subject_id,
         r = (Path ng_output_path, ng_link)
         ∧ ng_input_configs config s3_channel_paths s3_dataset_path
           = Ok descriptor
         ∧ getitem descriptor "title" = Ok (JStr subject_id)
         ∧ split "_" (path_name (Path s3_dataset_path)) !! 1%nat
           = Some subject_id
         ∧ getitem descriptor "dimensions" = Ok (ng_dimensions config)
         ∧ NgState_state descriptor "s3" (bucket_path config)
             (output_folder config) (ng_base_url config)
             "neuroglancer_config.json" = Ok state
         ∧ w' = with_file w ng_output_path
                  (Json (Some 2%nat)
                     (JDict (dict_set "ng_link" (JStr ng_link) state)))
         ∧ Forall (λ p, ∃ n, int_of_str (channel_suffix p) = Ok n)
             s3_channel_paths).
Proof.
  intros ng_output_path ng_link. split.
  - unfold create_ng_link. rewrite lift_bind.
    destruct (ng_input_configs config s3_channel_paths s3_dataset_path)
      as [input_configs|e0]; [|by intros e w' [= _ <-]].
    rewrite lift_bind.
    destruct (NgState_state _ _ _ _ _ _) as [state|e0];
      [done|by intros e w' [= _ <-]].
  - intros r w' Hrun.
    apply create_ng_link_Ok in Hrun
      as (descriptor & state & Hconfigs & Hstate & -> & ->).
    pose proof Hconfigs as Hdoc. unfold ng_input_configs in Hdoc.
    apply result_bind_Ok in Hdoc as (layers & Hlayers & Hdoc).
    apply result_bind_Ok in Hdoc as (subject_id & Hsubject & [= <-]).
    eexists _, state, subject_id.
    split; [done|]. split; [exact Hconfigs|]. split; [done|]. split.
    { change 1 with (Z.of_nat 1) in Hsubject.
      rewrite index_list_lookup in Hsubject.
      by destruct (_ !! 1%nat) as [x|]; [injection Hsubject as ->|]. }
    split; [done|]. split; [done|]. split; [done|].
    unfold ng_layers in Hlayers.
    apply result_bind_Ok in Hlayers as (colors & Hcolors & _).
    apply map_result_Ok_Forall in Hcolors.
    assert (sorted s3_channel_paths ≡ₚ s3_channel_paths) as Hperm
      by apply merge_sort_Permutation.
    rewrite <- Hperm. eapply Forall_impl; [exact Hcolors|].
    intros p [color Hcolor]. unfold channel_color in Hcolor.
    apply result_bind_Ok in Hcolor as (n & Hn & _). eauto.
Qed.

(** ** The derived data description *)

Lemma open_read_run p w :
  open_read p w
  = (match files w !! p with
     | Some c => Ok c
     | None => if bool_decide (p ∈ dirs w) then Raise (IsADirectoryError p)
               else Raise (FileNotFoundError p)
     end, w).
Proof. unfold open_read. by repeat case_match. Qed.

Lemma open_read_cases p w :
  (∃ c, files w !! p = Some c ∧ open_read p w = (Ok c, w))
  ∨ (∃ e, open_read p w = (Raise e, w)).
Proof.
  rewrite open_read_run. destruct (files w !! p) as [c|]; [left; eauto|].
  right. destruct (bool_decide _); eauto.
Qed.

(** X19.  [generate_data_description] either fails before it has written
    anything, or writes one file, [data_description.json] in the
    destination, holding the serialised derived description whose name it
    returns.  It succeeds only on a raw description that is a JSON object
    whose institution is an object with an abbreviation: an institution
    given in any other form ends in an error.  A missing raw description
    is a [FileNotFoundError]. *)
Theorem generate_data_description_outcome
    (raw_data_description_path dest_data_description process_name : string)
    (w : World) :
  (∀ e w', generate_data_description raw_data_description_path
             dest_data_description process_name w = (Raise e, w') → w' = w)
  ∧ (∀ name w', generate_data_description raw_data_description_path
                  dest_data_description process_name w = (Ok name, w') →
       ∃ indent data institution abbreviation derived,
         files w !! raw_data_description_path = Some (Json indent (JDict data))
         ∧ dict_get "institution" data = Some (JDict institution)
         ∧ dict_get "abbreviation" institution = Some abbreviation
         ∧ name = DerivedDataDescription_name derived
         ∧ w' = with_file w (dest_data_description +:+ "/data_description.json")
                  (Json None (DerivedDataDescription_model_dump_json derived)))
  ∧ (files w !! raw_data_description_path = None →
     raw_data_description_path ∉ dirs w →
     generate_data_description raw_data_description_path
       dest_data_description process_name w
     = (Raise (FileNotFoundError raw_data_description_path), w)).
Proof.
  split; [|split]; cycle 2.
  { intros Hfile Hdir. unfold generate_data_description.
    apply bind_Raise. rewrite open_read_run, Hfile.
    by rewrite bool_decide_eq_false_2. }
  all: unfold generate_data_description.
  all: destruct (open_read_cases raw_data_description_path w)
         as [(f & Hfile & Hopen)|[e0 Hopen]];
    [erewrite bind_Ok by exact Hopen
    |erewrite bind_Raise by exact Hopen;
     try (by intros ?? [= _ <-]); done].
  all: rewrite lift_bind;
    destruct (json_load raw_data_description_path f) as [data|?] eqn:Hdata;
    [|try (by intros ?? [= _ <-]); done].
  all: rewrite lift_bind;
    destruct (getitem data "institution") as [inst|?] eqn:Hinst;
    [|try (by intros ?? [= _ <-]); done].
  all: rewrite lift_bind.
  all: match goal with
       | |- context [match ?r with Ok _ => _ | Raise _ => _ end] =>
           destruct r as [institution|?] eqn:Hinstitution
       end; [|try (by intros ?? [= _ <-]); done].
  all: rewrite lift_bind;
    destruct (getitem data "investigators") as [investigators|?];
    [|try (by intros ?? [= _ <-]); done].
  all: rewrite lift_bind.
  all: match goal with
       | |- context [match ?r with Ok _ => _ | Raise _ => _ end] =>
           destruct r as [investigators'|?]
       end; [|try (by intros ?? [= _ <-]); done].
  all: rewrite lift_bind;
    destruct (getitem data "funding_source") as [funding|?];
    [|try (by intros ?? [= _ <-]); done].
  all: rewrite lift_bind.
  all: match goal with
       | |- context [match ?r with Ok _ => _ | Raise _ => _ end] =>
           destruct r as [funding_sources|?]
       end; [|try (by intros ?? [= _ <-]); done].
  all: erewrite bind_Ok by reflexivity.
  all: rewrite lift_bind.
  all: match goal with
       | |- context [match ?r with Ok _ => _ | Raise _ => _ end] =>
           destruct r as [derived|?] eqn:Hderived
       end; [|try (by intros ?? [= _ <-]); done].
  - done.
  - intros name w' [= <- <-].
    apply result_bind_Ok in Hderived as (input_data_name & _ & Hderived).
    apply result_bind_Ok in Hderived as (abbreviation & Habbreviation & _).
    destruct institution as [a|]; [|done]. injection Habbreviation as ->.
    apply getitem_Ok in Hinst as (d & -> & Hget).
    destruct f as [indent doc|text]; [|done]. injection Hdata as ->.
    destruct inst as [| | | | | |block]; try done.
    destruct (dict_get "abbreviation" block) as [a|] eqn:Hblock; [|done].
    injection Hinstitution as ->.
    by exists indent, d, block, abbreviation, derived.
Qed.

(** ** Cloud mode, when it completes *)

Lemma for_each_Ok {A} (l : list A) (body : A → M unit) w u w' :
  for_each l body w = (Ok u, w') →
  Forall (λ x, ∃ w1 w2, body x w1 = (Ok (), w2)) l.
Proof.
  revert w. induction l as [|x l IH]; intros w Hrun; [constructor|].
  cbn [for_each] in Hrun.
  apply bind_inv_Ok in Hrun as ([] & w1 & Hx & Hrest).
  constructor; [eauto|by eapply IH].
Qed.


Lemma copy_intermediate_relocate_Ok
    (output_dispatch_metadata new_dataset_name output_path
       results_folder : string)
    (flatfield_channels stitch_folders fuse_folders ccf_folders : list string)
    (cloud_mode : bool) (r : string * string) (w w' : World) :
  copy_intermediate_relocate output_dispatch_metadata flatfield_channels
    stitch_folders fuse_folders ccf_folders new_dataset_name output_path
    results_folder cloud_mode w = (Ok r, w') →
  let s3_path := "s3://" +:+ output_path +:+ "/" +:+ new_dataset_name in
  cloud_mode = true
  ∧ r = (s3_path, s3_path +:+ "/image_tile_fusing/OMEZarr")
  ∧ files w' !! (results_folder +:+ "/output_stitching.txt")
    = Some (Text ("Stitched dataset saved in: " +:+ s3_path +:+ newline))
  ∧ Forall (λ ccf_folder,
              ∃ channel_name, search_channels ccf_folder = Ok channel_name)
      ccf_folders.
Proof.
  intros Hrun s3_path. unfold copy_intermediate_relocate in Hrun.
  destruct cloud_mode; [|done]. cbv zeta in Hrun.
  apply bind_inv_Ok in Hrun as ([] & w3 & _ & Hrun).
  apply bind_inv_Ok in Hrun as ([] & w4 & _ & Hrun).
  apply bind_inv_Ok in Hrun as ([] & w5 & _ & Hrun).
  apply bind_inv_Ok in Hrun as ([] & w6 & _ & Hrun).
  apply bind_inv_Ok in Hrun as ([] & w7 & Hccf & Hrun).
  apply bind_inv_Ok in Hrun as ([] & w8 & Hsave & Hrun).
  injection Hrun as <- <-. injection Hsave as <-.
  split; [done|]. split; [done|]. split.
  - cbn [files]. unfold s3_path. by rewrite lookup_insert_eq, app_assoc_string.
  - apply for_each_Ok in Hccf. eapply Forall_impl; [exact Hccf|].
    intros folder (w1' & w2' & Hbody). rewrite lift_bind in Hbody.
    destruct (search_channels folder); [eauto|done].
Qed.



(** ** Copying the metadata *)

Lemma copy_file_Ok input_filename output_filename w u w' :
  copy_file input_filename output_filename w = (Ok u, w') →
  ∃ c dst, files w !! input_filename = Some c ∧ w' = with_file w dst c.
Proof.
  unfold copy_file. destruct (String.eqb _ _); [done|].
  intros Hrun. apply bind_inv_Ok in Hrun as (c & w1 & Hopen & Hwrite).
  rewrite open_read_run in Hopen.
  destruct (files w !! input_filename) as [c'|] eqn:Hfile; cycle 1.
  { by destruct (bool_decide _). }
  injection Hopen as -> <-. injection Hwrite as _ <-. eauto.
Qed.

Lemma copy_available_metadata_loop_Ok input_path output_path names acc w
    found w' :
  copy_available_metadata_loop input_path output_path names acc w
  = (Ok found, w') →
  ∃ new, found = acc ++ new
    ∧ sublist new ((λ n, path_str (joinpath input_path n)) <$> names)
    ∧ Forall (λ p, is_Some (files w' !! p)) new
    ∧ dirs w' = dirs w
    ∧ (∀ p, is_Some (files w !! p) → is_Some (files w' !! p)).
Proof.
  revert acc w. induction names as [|n names IH]; intros acc w Hrun.
  - injection Hrun as <- <-. exists []. rewrite app_nil_r.
    split; [done|]. split; [constructor|]. by split; [constructor|].
  - cbn [copy_available_metadata_loop] in Hrun. cbv zeta in Hrun.
    erewrite bind_Ok in Hrun by apply path_exists_run.
    destruct (exists_ w (path_str (joinpath input_path n))).
    + apply bind_inv_Ok in Hrun as ([] & w1 & Hcopy & Hrun).
      apply copy_file_Ok in Hcopy as (c & dst & Hfile & ->).
      apply IH in Hrun as (new & -> & Hsub & Hnew & Hdirs & Hmono).
      assert (∀ p, is_Some (files w !! p) →
                   is_Some (files (with_file w dst c) !! p)) as Hstep.
      { intros p Hp. cbn [with_file files].
        destruct (decide (dst = p)) as [->|Hne];
          [by rewrite lookup_insert_eq|by rewrite lookup_insert_ne]. }
      exists (path_str (joinpath input_path n) :: new).
      split; [by rewrite <- app_assoc|]. split; [by constructor|].
      split; [|split; [done|by auto]].
      constructor; [|done]. apply Hmono, Hstep. by rewrite Hfile.
    + apply IH in Hrun as (new & -> & Hsub & Hnew & Hdirs & Hmono).
      exists new. split; [done|]. split; [by constructor|]. done.
Qed.

(** X22.  When [copy_available_metadata] returns, the paths it returns are
    among the requested names, in their order, under the input folder, and
    each is a regular file afterwards; no file that was there has
    disappeared and no directory has been made.  When none of the names
    exists, it returns the empty list and changes nothing. *)
Theorem copy_available_metadata_outcome (input_path output_path : string)
    (files_to_copy : list string) (w : World) :
  (∀ found w',
     copy_available_metadata input_path output_path files_to_copy w
     = (Ok found, w') →
     sublist found
       ((λ n, path_str (joinpath (Path input_path) n)) <$> files_to_copy)
     ∧ Forall (λ p, is_Some (files w' !! p)) found
     ∧ dirs w' = dirs w
     ∧ (∀ p, is_Some (files w !! p) → is_Some (files w' !! p)))
  ∧ (Forall (λ n, exists_ w (path_str (joinpath (Path input_path) n)) = false)
       files_to_copy →
     copy_available_metadata input_path output_path files_to_copy w
     = (Ok [], w)).
Proof.
  split.
  - intros found w' Hrun.
    by apply copy_available_metadata_loop_Ok in Hrun as (new & -> & Hrest).
  - unfold copy_available_metadata. generalize (@nil string) as acc.
    induction 1 as [|n names Hn _ IH]; [done|].
    cbn [copy_available_metadata_loop]. cbv zeta.
    erewrite bind_Ok by apply path_exists_run. by rewrite Hn.
Qed.

(** ** A dispatch run, when it completes *)

Lemma dispatch_Ok processing_manifest results_folder w manifest' w' :
  dispatch processing_manifest results_folder w = (Ok manifest', w') →
  ∃ manifest pipeline pipeline',
    processing_manifest = JDict manifest
    ∧ dict_get "pipeline_processing" manifest = Some (JDict pipeline)
    ∧ manifest' = JDict (dict_set "pipeline_processing" (JDict pipeline')
                           manifest)
    ∧ (∀ key, key ≠ "segmentation" →
              dict_get key pipeline' = dict_get key pipeline).
Proof.
  unfold dispatch. rewrite lift_bind.
  destruct processing_manifest as [| | | | | |manifest]; try done.
  set (pipeline_config := default JNull (dict_get "pipeline_processing" manifest)).
  destruct (truthy pipeline_config); [|done].
  rewrite lift_bind.
  match goal with
  | |- context [match ?r with Ok _ => _ | Raise _ => _ end] =>
      destruct r as [[segment_channels background]|e0] eqn:Hread
  end; [|done].
  apply result_bind_Ok in Hread as (segmentation & Hs & Hread).
  apply result_bind_Ok in Hread as (sc & Hsc & Hread).
  apply result_bind_Ok in Hread as (pp & _ & Hread).
  apply result_bind_Ok in Hread as (reg & _ & Hread).
  apply result_bind_Ok in Hread as (chs & _ & Hread).
  apply result_bind_Ok in Hread as (bg & _ & [= <- <-]).
  apply getitem_Ok in Hs as (pc & Hpc & Hseg).
  apply getitem_Ok in Hsc as (seg & -> & _).
  assert (dict_get "pipeline_processing" manifest = Some (JDict pc)) as Hpp.
  { unfold pipeline_config in Hpc.
    destruct (dict_get "pipeline_processing" manifest); [|done].
    cbn in Hpc. by rewrite Hpc. }
  rewrite Hpc. cbv beta iota. rewrite lift_bind.
  destruct (len sc) as [n|]; [|done].
  destruct (n =? 0); [done|].
  rewrite lift_bind. destruct (iter sc) as [channels|]; [|done].
  destruct (dispatch_loop_spec results_folder bg channels pc seg w Hseg)
    as (pc' & seg' & docs & Hloop & _ & _ & Hkeep & _).
  erewrite bind_Ok by exact Hloop. intros [= <- _].
  by exists manifest, pc, pc'.
Qed.

Lemma read_json_as_dict_Ok filepath w doc w1 :
  read_json_as_dict filepath w = (Ok doc, w1) →
  exists_ w filepath = true →
  w1 = w ∧ ∃ indent, files w !! filepath = Some (Json indent doc).
Proof.
  unfold read_json_as_dict. intros Hrun Hexists.
  erewrite bind_Ok in Hrun by apply path_exists_run. rewrite Hexists in Hrun.
  destruct (open_read_cases filepath w) as [(c & Hfile & Hopen)|[e Hopen]].
  - erewrite bind_Ok in Hrun by exact Hopen.
    destruct c as [indent doc'|text]; [|done].
    injection Hrun as <- <-. eauto.
  - by erewrite bind_Raise in Hrun by exact Hopen.
Qed.

Lemma get_data_config_Ok data_folder processing_manifest_path
    data_description_path w manifest name investigators w1 :
  get_data_config data_folder processing_manifest_path data_description_path w
  = (Ok (manifest, name, investigators), w1) →
  w1 = w
  ∧ ∃ indent,
      files w !! normalised (data_folder +:+ "/" +:+ processing_manifest_path)
      = Some (Json indent manifest).
Proof.
  unfold get_data_config. cbv zeta.
  fold (normalised (data_folder +:+ "/" +:+ processing_manifest_path)).
  fold (normalised (data_folder +:+ "/" +:+ data_description_path)).
  set (manifest_path :=
         normalised (data_folder +:+ "/" +:+ processing_manifest_path)).
  set (description_path :=
         normalised (data_folder +:+ "/" +:+ data_description_path)).
  erewrite bind_Ok by apply path_exists_run.
  destruct (exists_ w manifest_path) eqn:Hmanifest; cbn [negb]; [|done].
  erewrite bind_Ok by apply path_exists_run.
  destruct (exists_ w description_path) eqn:Hdescription; cbn [negb]; [|done].
  intros Hrun.
  apply bind_inv_Ok in Hrun as (derivatives & w2 & Hread & Hrun).
  apply read_json_as_dict_Ok in Hread as [-> [indent Hfile]]; [|done].
  apply bind_inv_Ok in Hrun as (description & w3 & Hread & Hrun).
  apply read_json_as_dict_Ok in Hread as [-> _]; [|done].
  rewrite lift_bind in Hrun. destruct (getitem description "name"); [|done].
  rewrite lift_bind in Hrun.
  destruct (getitem description "investigators"); [|done].
  injection Hrun as <- _ _ <-. eauto.
Qed.

(** X23.  When the dispatch branch of [run] completes, the cloud mode was
    on, and the last thing done was to save the manifest as
    [modified_processing_manifest.json] in the results folder.  What is
    saved is what [dispatch] made of the manifest read from
    [processing_manifest.json], after the stitching block of its pipeline
    section was given, under ["s3_path"], the location
    [s3://<output_path>/<name>], where the name is the one
    [create_derived_stitched_metadata] returned for the staging area as it
    was found; that entry is still there in the saved manifest. *)
Theorem run_dispatch_result (data_folder results_folder output_path : string)
    (cloud_mode : bool) (w w' : World) :
  run_dispatch data_folder results_folder output_path cloud_mode w
  = (Ok (), w') →
  cloud_mode = true
  ∧ ∃ indent original pipeline0 stitching0 new_dataset_name w2
      manifest pipeline w7 w8,
      let stitching :=
        dict_set "s3_path"
          (JStr ("s3://" +:+ output_path +:+ "/" +:+ new_dataset_name))
          stitching0 in
      let updated :=
        dict_set "pipeline_processing"
          (JDict (dict_set "stitching" (JDict stitching) pipeline0))
          original in
      files w !! normalised (data_folder +:+ "/processing_manifest.json")
      = Some (Json indent (JDict original))
      ∧ dict_get "pipeline_processing" original = Some (JDict pipeline0)
      ∧ dict_get "stitching" pipeline0 = Some (JDict stitching0)
      ∧ create_derived_stitched_metadata data_folder results_folder w
        = (Ok (results_folder +:+ "/output_aind_metadata", new_dataset_name),
           w2)
      ∧ dispatch (JDict updated) results_folder w7 = (Ok (JDict manifest), w8)
      ∧ w' = with_file w8
               (results_folder +:+ "/modified_processing_manifest.json")
               (Json (Some 4%nat) (JDict manifest))
      ∧ dict_get "pipeline_processing" manifest = Some (JDict pipeline)
      ∧ dict_get "stitching" pipeline = Some (JDict stitching).
Proof.
  intros Hrun. unfold run_dispatch in Hrun.
  apply bind_inv_Ok in Hrun
    as ([[pipeline_config name] investigators] & w1 & Hconfig & Hrun).
  apply get_data_config_Ok in Hconfig as [-> [indent Hfile]].
  apply bind_inv_Ok in Hrun
    as ([metadata new_dataset_name] & w2 & Hmetadata & Hrun).
  assert (metadata = results_folder +:+ "/output_aind_metadata") as ->.
  { unfold create_derived_stitched_metadata in Hmetadata.
    cbv zeta in Hmetadata.
    do 5 (apply bind_inv_Ok in Hmetadata as (? & ? & _ & Hmetadata)).
    by injection Hmetadata as <- _ _. }
  do 5 (apply bind_inv_Ok in Hrun as (? & ? & _ & Hrun)).
  apply bind_inv_Ok in Hrun as ([s3_path s3_dest_zarr] & w3 & Hcopy & Hrun).
  unfold copy_intermediate_data in Hcopy.
  apply bind_inv_Ok in Hcopy as (paths & w3a & _ & Hcopy).
  apply bind_inv_Ok in Hcopy as (compiled & w3b & _ & Hcopy).
  apply copy_intermediate_relocate_Ok in Hcopy as (-> & [= -> ->] & _).
  split; [done|].
  apply bind_inv_Ok in Hrun as (config & w4 & _ & Hrun).
  apply bind_inv_Ok in Hrun as ([output_json ng_link_path] & w5 & _ & Hrun).
  apply bind_inv_Ok in Hrun as ([] & w6 & _ & Hrun).
  apply bind_inv_Ok in Hrun as (pipeline_config' & w7 & Hset & Hrun).
  injection Hset as Hset <-.
  apply result_bind_Ok in Hset as (pp & Hpp & Hset).
  apply result_bind_Ok in Hset as (st & Hst & Hset).
  apply getitem_Ok in Hpp as (original & -> & Hpp).
  apply getitem_Ok in Hst as (pipeline0 & -> & Hst).
  destruct st as [| | | | | |stitching0]; try done.
  cbn in Hset. injection Hset as <-.
  apply bind_inv_Ok in Hrun as (final & w8 & Hdispatch & Hsave).
  pose proof Hdispatch as Hfinal.
  apply dispatch_Ok in Hfinal
    as (manifest & pipeline & pipeline' & [= <-] & Hpipeline & -> & Hkeep).
  rewrite dict_get_set_eq in Hpipeline. injection Hpipeline as <-.
  injection Hsave as <-.
  change (data_folder +:+ "/" +:+ "processing_manifest.json")
    with (data_folder +:+ "/processing_manifest.json") in Hfile.
  exists indent, original, pipeline0, stitching0, new_dataset_name, w2.
  eexists _, pipeline', w6, w8. cbv zeta.
  split; [exact Hfile|]. split; [done|]. split; [done|].
  split; [exact Hmetadata|]. split; [exact Hdispatch|]. split; [done|].
  split; [apply dict_get_set_eq|].
  rewrite Hkeep by done. apply dict_get_set_eq.
Qed.

End FurtherProperties.

(** ** Worked examples *)

Import example.

(** C8 at 800, 380, 530, 531 and 701 nm. *)
Lemma color_mapper_boundaries_witness :
  wavelength_to_hex 800 = Ok 0xF00050 ∧
  wavelength_to_hex 380 = Ok 0x690AFE ∧
  wavelength_to_hex_alternate 530 = Ok 0x92FF42 ∧
  wavelength_to_hex_alternate 531 = Ok 0xE4FE41 ∧
  wavelength_to_hex_alternate 701 = Ok 0xA81F1F.
Proof.
  split; [|split; [|split; [|split]]].
  - destruct (color_mapper_boundaries 800) as (Hhigh & _).
    apply Hhigh; [|lia]. unfold color_map. set_solver.
  - destruct (color_mapper_boundaries 380) as (_ & Hlow & _).
    apply Hlow; [|lia]. unfold color_map. set_solver.
  - destruct (color_mapper_boundaries 530) as (_ & _ & Hbound & _).
    apply Hbound. unfold color_map_alternate. set_solver.
  - destruct (color_mapper_boundaries 531) as (_ & _ & _ & Hnext & _).
    by apply (Hnext 1%nat 530 0x92FF42 540).
  - destruct (color_mapper_boundaries 701) as (_ & _ & _ & _ & Hlast).
    by apply (Hlast 700).
Defined.

(** C1 on two fragments of the staging area, of two processes and of one. *)
Lemma compile_processing_jsons_order_witness :
  ∃ doc w',
    compile_processing_jsons
      ["/data/output_aind_metadata/processing.json";
       "/data/cell_Ex_488_Em_525/metadata/processing.json"]
      "/results" "Camilo Laiton" PIPELINE_VERSION world = (Ok "/results", w') ∧
    compiled_into world w' "/results" doc ∧
    processes_of doc = ["destriping"; "stitching"; "segmentation"].
Proof.
  destruct (compile_processing_jsons_order (the_schema := schema)
              ["/data/output_aind_metadata/processing.json";
               "/data/cell_Ex_488_Em_525/metadata/processing.json"]
              [ {| aind_schema.processing_pipeline :=
                     {| aind_schema.data_processes := ["destriping"; "stitching"];
                        aind_schema.processor_full_name := "unknown";
                        aind_schema.pipeline_version := "0";
                        aind_schema.pipeline_url := "none" |};
                   aind_schema.notes := None |};
                {| aind_schema.processing_pipeline :=
                     {| aind_schema.data_processes := ["segmentation"];
                        aind_schema.processor_full_name := "unknown";
                        aind_schema.pipeline_version := "0";
                        aind_schema.pipeline_url := "none" |};
                   aind_schema.notes := None |} ]
              "/results" "Camilo Laiton" PIPELINE_VERSION world) as [Hgen _].
  apply Hgen. repeat constructor; vm_compute; reflexivity.
Defined.

(** C2 on the damaged staging area, whose second fragment is broken. *)
Lemma compile_processing_jsons_atomic_witness :
  ∃ e, compile_processing_jsons
         ["/data/output_aind_metadata/processing.json";
          "/data/cell_Ex_488_Em_525/metadata/processing.json"]
         "/results" "Camilo Laiton" PIPELINE_VERSION damaged
       = (Raise e, damaged).
Proof.
  apply (compile_processing_jsons_atomic (the_schema := schema) _
           "/data/cell_Ex_488_Em_525/metadata/processing.json").
  - set_solver.
  - eexists. vm_compute. reflexivity.
Defined.

(** C4 (as amended) on the staging area, in clean mode. *)
Lemma fragment_discovery_order_witness :
  clean_up (JDict []) "/data" "/results" true world
  = (_ ← compile_processing_jsons
           ["/data/output_aind_metadata/processing.json";
            "/data/cell_Ex_488_Em_525/metadata/processing.json";
            "/data/quant_Ex_488_Em_525/metadata/processing.json"]
           "/results" "Camilo Laiton" PIPELINE_VERSION;
     clean_up_relocate (JDict []) "/results" ["/data/cell_Ex_488_Em_525"]
       ["/data/quant_Ex_488_Em_525"] true) world.
Proof.
  destruct (fragment_discovery_order (the_host := host) (the_schema := schema)
              (JDict []) "/data" "/results" "/results/output_aind_metadata"
              "dataset" "bucket" [] [] [] [] [] true world) as [Hclean _].
  apply (Hclean []). reflexivity.
Defined.

(** C4 (as stated) fails: the staging area has a flatfield folder with a
    processing fragment, yet the paths handed to the compiler in copy mode
    hold neither that fragment nor the folder, so they are not the
    documented sequence destripe, flatfield, stitch, fuse, ccf. *)
Lemma copy_mode_leaves_out_flatfield :
  let destripe := ["/data/image_destriping_Ex_488_Em_525"] in
  let flatfield := ["/data/flatfield_correction_Ex_488_Em_525"] in
  let stitch := ["/data/stitched/stitch_Ex_488_Em_525"] in
  let fuse := ["/data/fused/fusion_Ex_488_Em_525"] in
  let ccf := ["/data/ccf_registration_results/ccf_Ex_488_Em_525"] in
  let handed := (copy_intermediate_processing_paths destripe stitch fuse ccf
                   world).1 in
  concat (fragments_in world <$> flatfield)
    = ["/data/flatfield_correction_Ex_488_Em_525/metadata/processing.json"] ∧
  handed ≠ Ok (documented_copy_mode_paths world destripe
                 (concat (fragments_in world <$> flatfield)) stitch fuse ccf) ∧
  handed ≠ Ok (documented_copy_mode_paths world destripe flatfield
                 stitch fuse ccf).
Proof. vm_compute. repeat split; discriminate. Qed.

(** C3 on the damaged staging area: a broken stitch fragment for the
    intermediate copy, a broken segmentation fragment for the clean-up. *)
Lemma provenance_failure_policy_witness :
  copy_intermediate_data "/results/output_aind_metadata"
    ["/data/image_destriping_Ex_488_Em_525"]
    ["/data/flatfield_correction_Ex_488_Em_525"]
    ["/data/stitched/stitch_Ex_488_Em_525"]
    ["/data/fused/fusion_Ex_488_Em_525"]
    ["/data/ccf_registration_results/ccf_Ex_488_Em_525"]
    "dataset_stitched" "bucket" "/results" true damaged
  = copy_intermediate_relocate "/results/output_aind_metadata"
      ["/data/flatfield_correction_Ex_488_Em_525"]
      ["/data/stitched/stitch_Ex_488_Em_525"]
      ["/data/fused/fusion_Ex_488_Em_525"]
      ["/data/ccf_registration_results/ccf_Ex_488_Em_525"]
      "dataset_stitched" "bucket" "/results" true damaged ∧
  clean_up manifest "/data" "/results" true damaged
  = (Raise (JSONDecodeError "/data/cell_Ex_488_Em_525/metadata/processing.json"),
     damaged).
Proof.
  split.
  - apply (provenance_failure_policy (the_host := host) (the_schema := schema)
             manifest "/data" "/results" _ _ _ _ _ _ _ _ true
             (JSONDecodeError
                "/data/stitched/stitch_Ex_488_Em_525/metadata/processing.json")).
    vm_compute. reflexivity.
  - apply (provenance_failure_policy (the_host := host) (the_schema := schema)
             manifest "/data" "/results" "/results/output_aind_metadata"
             "dataset_stitched" "bucket" [] [] [] [] [] true
             (JSONDecodeError
                "/data/cell_Ex_488_Em_525/metadata/processing.json")
             damaged damaged)
      with (entries := []).
    + reflexivity.
    + vm_compute. reflexivity.
Defined.

(** In the damaged staging area the intermediate copy still returns the
    two destinations, while the clean-up stops at the broken fragment. *)
Example copy_intermediate_data_goes_on :
  (copy_intermediate_data "/results/output_aind_metadata"
     ["/data/image_destriping_Ex_488_Em_525"]
     ["/data/flatfield_correction_Ex_488_Em_525"]
     ["/data/stitched/stitch_Ex_488_Em_525"]
     ["/data/fused/fusion_Ex_488_Em_525"]
     ["/data/ccf_registration_results/ccf_Ex_488_Em_525"]
     "dataset_stitched" "bucket" "/results" true damaged).1
  = Ok ("s3://bucket/dataset_stitched",
        "s3://bucket/dataset_stitched/image_tile_fusing/OMEZarr") ∧
  (clean_up manifest "/data" "/results" true damaged).1
  = Raise (JSONDecodeError "/data/cell_Ex_488_Em_525/metadata/processing.json").
Proof. split; vm_compute; reflexivity. Qed.

(** C5 on the example manifest. *)
Lemma dispatch_fan_out_witness :
  ∃ manifest' doc1 doc2 doc3,
    dispatch manifest "/results" world
    = (Ok manifest',
       with_file
         (with_file
            (with_file world (task_file "/results" (JInt 1))
               (Json (Some 4%nat) doc1))
            (task_file "/results" (JInt 2)) (Json (Some 4%nat) doc2))
         (task_file "/results" (JInt 3)) (Json (Some 4%nat) doc3)) ∧
    NoDup [task_file "/results" (JInt 1); task_file "/results" (JInt 2);
           task_file "/results" (JInt 3)] ∧
    channel_task doc1 (JInt 1) (JInt 0) ∧
    channel_task doc2 (JInt 2) (JInt 0) ∧
    channel_task doc3 (JInt 3) (JInt 0).
Proof.
  eapply dispatch_fan_out; reflexivity.
Defined.

(** C6 on the example manifest without channels. *)
Lemma dispatch_without_channels_witness :
  dispatch manifest_without_channels "/results" world
  = (Raise (BaseException "Stopping pipeline, no segmentation channels."),
     world).
Proof.
  eapply dispatch_without_channels; reflexivity.
Defined.


(** The two layers of the example come out in string order, green for 525
    and red for 620. *)
Example layer_colors :
  ng_layers (sorted channel_paths)
  = Ok [ ng_layer "s3://bucket/SmartSPIM_123456_2024-01-01_stitched/image_tile_fusing/OMEZarr/Ex_488_Em_525.zarr" "#92ff42";
         ng_layer "s3://bucket/SmartSPIM_123456_2024-01-01_stitched/image_tile_fusing/OMEZarr/Ex_600_Em_620.zarr" "#ed1c24" ].
Proof. vm_compute. reflexivity. Qed.

(** C9 (as stated) fails: an input spelled with a leading ["./"] that does
    not exist is reported in another spelling, so what is returned is not
    the sublist of the inputs that do not exist. *)
Lemma validate_capsule_inputs_respells :
  validate_capsule_inputs ["./missing.json"] world
    = (Ok ["missing.json"], world) ∧
  documented_missing_inputs world ["./missing.json"] = ["./missing.json"] ∧
  (validate_capsule_inputs ["./missing.json"] world).1
    ≠ Ok (documented_missing_inputs world ["./missing.json"]).
Proof.
  split; [vm_compute; reflexivity|].
  split; [vm_compute; reflexivity|].
  vm_compute. discriminate.
Qed.

(** C9 (as amended) on the staging area, where both inputs of a clean run
    are missing. *)
Lemma missing_inputs_enumerated_witness :
  let inputs := ["/data/processing_manifest.json";
                 "/data/output_aind_metadata/processing.json"] in
  validate_capsule_inputs inputs world = (Ok (missing_inputs world inputs), world) ∧
  missing_inputs world inputs = documented_missing_inputs world inputs ∧
  run world
  = (Raise (ValueError
              ("We miss the following files in the capsule input: "
               +:+ repr_str_list
                     ["/data/modified_processing_manifest.json";
                      "/data/input_aind_metadata/data_description.json"])),
     world).
Proof.
  destruct (missing_inputs_enumerated (the_host := host) (the_schema := schema)
              ["/data/processing_manifest.json";
               "/data/output_aind_metadata/processing.json"]
              "'clean" "bucket'" true world) as (Hlist & Hsub & Hrun).
  split; [exact Hlist|]. split.
  - apply Hsub. repeat constructor.
  - apply Hrun; [reflexivity|]. vm_compute. discriminate.
Defined.

(** C10 on the parameters [clean,false,bucket]: the token [false] gives
    cloud mode. *)
Lemma cloud_mode_is_truthiness_witness :
  parse_params (List.tl argv) = Ok ("'clean", true, "bucket'") ∧
  run world = run_mode "/data" "/results" "'clean" "bucket'" true world.
Proof.
  apply (cloud_mode_is_truthiness (the_host := host) (the_schema := schema)
           "'clean" "false" "bucket'" world); [reflexivity|discriminate].
Defined.

(** A whole dispatch run on the example staging area: it ends normally,
    writes seven files, and the compiled provenance lists the processes of
    the destripe file and of the stitch, fuse and ccf fragments. *)
Example dispatch_run :
  let outcome := run (the_host := dispatch_host) dispatch_world in
  outcome.1 = Ok () ∧
  dom (files outcome.2) ∖ dom (files dispatch_world)
  = list_to_set
      [ "/results/output_aind_metadata/data_description.json";
        "/results/output_aind_metadata/processing.json";
        "/results/output_stitching.txt";
        "/results/neuroglancer_config.json";
        "/results/segmentation_processing_manifest_Ex_561_Em_600.json";
        "/results/segmentation_processing_manifest_Ex_639_Em_680.json";
        "/results/modified_processing_manifest.json" ] ∧
  match files outcome.2 !! "/results/output_aind_metadata/processing.json" with
  | Some (Json _ doc) =>
      processes_of <$> validate doc
      = Some ["destriping"; "stitching"; "fusion"; "registration"]
  | _ => False
  end.
Proof.
  split; [vm_compute; reflexivity|].
  split; [by apply (bool_decide_unpack _); vm_compute|].
  vm_compute. reflexivity.
Qed.

(** ** Worked examples of the further properties *)

(** X1 at 500 nm in variant A and at 530 nm in variant B: both are bounds
    of their table. *)
Lemma color_bands_witness :
  wavelength_to_hex 500 = Ok 0x5AFEB8 ∧
  wavelength_to_hex_alternate 530 = Ok 0x92FF42.
Proof.
  split.
  - destruct (color_bands 4 500 520 0x5DF8D6 0x5AFEB8 500) as [Hband _].
    apply Hband; [reflexivity|reflexivity|lia].
  - destruct (color_bands 0 500 530 0x61ABFD 0x92FF42 530) as [_ Hband].
    apply Hband; [reflexivity|reflexivity|lia].
Defined.

(** X3 on the dispatch manifest, whose channels are names. *)
Lemma fan_out_of_any_channels_witness :
  ∃ manifest' docs w',
    dispatch dispatch_manifest "/results" world = (Ok manifest', w') ∧
    w' = foldl (λ w cd, with_file w (task_file "/results" cd.1)
                          (Json (Some 4%nat) cd.2))
           world (zip [JStr "Ex_561_Em_600"; JStr "Ex_639_Em_680"] docs) ∧
    Forall2 (λ channel doc, channel_task doc channel (JStr "Ex_488_Em_525")
                            ∧ keeps_pipeline cases.pipeline cases.segmentation
                                doc)
      [JStr "Ex_561_Em_600"; JStr "Ex_639_Em_680"] docs ∧
    (NoDup (str <$> [JStr "Ex_561_Em_600"; JStr "Ex_639_Em_680"]) →
     Forall2 (λ channel doc,
                files w' !! task_file "/results" channel
                = Some (Json (Some 4%nat) doc))
       [JStr "Ex_561_Em_600"; JStr "Ex_639_Em_680"] docs).
Proof.
  apply (fan_out_of_any_channels cases.manifest cases.pipeline
           cases.segmentation [JStr "Ex_561_Em_600"; JStr "Ex_639_Em_680"]
           (JStr "Ex_488_Em_525") "/results" world);
    [reflexivity|reflexivity|reflexivity|discriminate|reflexivity|].
  repeat constructor;
    apply (bool_decide_unpack _); vm_compute; reflexivity.
Defined.


(** X6 on an empty manifest, and on a manifest whose registration and
    segmentation channels are both empty. *)
Lemma dispatch_rejections_witness :
  dispatch (JDict []) "/results" world
  = (Raise (BaseException "Stopping pipeline, pipeline configuration."), world)
  ∧ dispatch (JDict cases.unregistered) "/results" world
    = (Raise IndexError, world).
Proof.
  split.
  - destruct (dispatch_rejections [] [] JNull JNull JNull "/results" world)
      as [Hnone _].
    apply Hnone. left. reflexivity.
  - destruct (dispatch_rejections cases.unregistered
                cases.unregistered_pipeline
                (JDict [("channels", JList [])])
                (JDict [("channels", JList [])]) (JList [])
                "/results" world) as [_ Hempty].
    apply Hempty; reflexivity.
Defined.

(** X8 on the staging area: after a fragment that loads, the data folder
    in place of a fragment, and a fragment that is not there. *)
Lemma compile_processing_jsons_first_failure_witness :
  compile_processing_jsons
    ["/data/output_aind_metadata/processing.json"; "/data";
     "/data/cell_Ex_488_Em_525/metadata/processing.json"]
    "/results" "Camilo Laiton" PIPELINE_VERSION world
  = (Raise (IsADirectoryError "/data"), world)
  ∧ compile_processing_jsons
      ["/data/output_aind_metadata/processing.json";
       "/data/cell_Ex_000_Em_000/metadata/processing.json"]
      "/results" "Camilo Laiton" PIPELINE_VERSION world
    = (Raise ValidationError, world).
Proof.
  split.
  - destruct (compile_processing_jsons_first_failure (the_schema := schema)
                ["/data/output_aind_metadata/processing.json"]
                [ {| aind_schema.processing_pipeline :=
                       {| aind_schema.data_processes :=
                            ["destriping"; "stitching"];
                          aind_schema.processor_full_name := "unknown";
                          aind_schema.pipeline_version := "0";
                          aind_schema.pipeline_url := "none" |};
                     aind_schema.notes := None |} ]
                "/data" ["/data/cell_Ex_488_Em_525/metadata/processing.json"]
                "/results" "Camilo Laiton" PIPELINE_VERSION world)
      as (Hdirectory & _).
    + repeat constructor; vm_compute; reflexivity.
    + apply Hdirectory; [reflexivity|].
      apply (bool_decide_unpack _). vm_compute. reflexivity.
  - destruct (compile_processing_jsons_first_failure (the_schema := schema)
                ["/data/output_aind_metadata/processing.json"]
                [ {| aind_schema.processing_pipeline :=
                       {| aind_schema.data_processes :=
                            ["destriping"; "stitching"];
                          aind_schema.processor_full_name := "unknown";
                          aind_schema.pipeline_version := "0";
                          aind_schema.pipeline_url := "none" |};
                     aind_schema.notes := None |} ]
                "/data/cell_Ex_000_Em_000/metadata/processing.json" []
                "/results" "Camilo Laiton" PIPELINE_VERSION world)
      as (_ & _ & Hmissing & _).
    + repeat constructor; vm_compute; reflexivity.
    + apply Hmissing; reflexivity.
Defined.

(** The schema of the examples reads back what it writes. *)
Lemma example_schema_rereads (doc : Processing string) :
  ∃ doc', validate (dump doc) = Some doc'
          ∧ processes_of (the_schema := schema) doc'
            = processes_of (the_schema := schema) doc.
Proof.
  eexists. split; [reflexivity|]. unfold processes_of. cbn.
  induction (aind_schema.data_processes (aind_schema.processing_pipeline doc))
    as [|p l IH]; [done|]. cbn. by rewrite IH.
Qed.

(** X10 on the same two fragments: the compiled file, compiled alone into
    another folder, lists their three processes. *)
Lemma compile_processing_jsons_reread_witness :
  let paths := ["/data/output_aind_metadata/processing.json";
                "/data/cell_Ex_488_Em_525/metadata/processing.json"] in
  let w1 := (compile_processing_jsons paths "/results" "Camilo Laiton"
               PIPELINE_VERSION world).2 in
  ∃ doc w2,
    compile_processing_jsons ["/results/processing.json"] "/results/again"
      "Camilo Laiton" PIPELINE_VERSION w1 = (Ok "/results/again", w2) ∧
    compiled_into w1 w2 "/results/again" doc ∧
    processes_of doc = ["destriping"; "stitching"; "segmentation"].
Proof.
  intros paths w1.
  apply (compile_processing_jsons_reread (the_schema := schema) paths
           [ {| aind_schema.processing_pipeline :=
                  {| aind_schema.data_processes := ["destriping"; "stitching"];
                     aind_schema.processor_full_name := "unknown";
                     aind_schema.pipeline_version := "0";
                     aind_schema.pipeline_url := "none" |};
                aind_schema.notes := None |};
             {| aind_schema.processing_pipeline :=
                  {| aind_schema.data_processes := ["segmentation"];
                     aind_schema.processor_full_name := "unknown";
                     aind_schema.pipeline_version := "0";
                     aind_schema.pipeline_url := "none" |};
                aind_schema.notes := None |} ]
           "/results" "/results/again" "Camilo Laiton" PIPELINE_VERSION
           "Camilo Laiton" PIPELINE_VERSION world w1).
  - apply example_schema_rereads.
  - repeat constructor; vm_compute; reflexivity.
  - reflexivity.
Defined.

(** X11 on the staging area: a fragment that is there, and a manifest that
    is not. *)
Lemma validate_capsule_inputs_report_witness :
  (validate_capsule_inputs ["/data/output_aind_metadata/processing.json"]
     world).1 = Ok []
  ∧ (validate_capsule_inputs ["/data/processing_manifest.json"] world).1
    ≠ Ok [].
Proof.
  split.
  - destruct (validate_capsule_inputs_report
                ["/data/output_aind_metadata/processing.json"] world)
      as [[_ Hall] _].
    apply Hall. repeat constructor.
  - destruct (validate_capsule_inputs_report
                ["/data/processing_manifest.json"] world) as [[Hnone _] _].
    intros Hall%Hnone. apply Forall_inv in Hall. vm_compute in Hall.
    discriminate Hall.
Defined.

(** X12 on the staging area of the dispatch run, and on the staging area
    without the two inputs. *)
Lemma get_data_config_outcome_witness :
  (get_data_config "/data" "processing_manifest.json"
     "input_aind_metadata/data_description.json" dispatch_world).1
  = Ok (dispatch_manifest, JStr "SmartSPIM_123456_2024-01-01", JList [])
  ∧ (get_data_config "/data" "processing_manifest.json"
       "input_aind_metadata/data_description.json" world).1
    = Raise (ValueError ("Please, check processing manifest path: "
                         +:+ "/data/processing_manifest.json")).
Proof.
  split.
  - destruct (get_data_config_outcome "/data" "processing_manifest.json"
                "input_aind_metadata/data_description.json" dispatch_world)
      as (_ & _ & _ & Hboth).
    apply (Hboth None None dispatch_manifest data_description
             (JStr "SmartSPIM_123456_2024-01-01")); reflexivity.
  - destruct (get_data_config_outcome "/data" "processing_manifest.json"
                "input_aind_metadata/data_description.json" world)
      as (_ & Hmanifest & _).
    apply Hmanifest. reflexivity.
Defined.

(** X13 on the parameters [dispatch,,bucket], whose empty second token
    gives a false cloud mode. *)
Lemma local_mode_never_completes_witness :
  parse_params (List.tl (argv (Host := cases.local_host)))
  = Ok ("'dispatch", false, "bucket'")
  ∧ (run (the_host := cases.local_host) dispatch_world).1 ≠ Ok ().
Proof.
  split; [reflexivity|].
  destruct (local_mode_never_completes (the_host := cases.local_host)
              (the_schema := schema) JNull "/data" "/results" "/results"
              "name" "bucket'" "'dispatch" [] [] [] [] [] dispatch_world)
    as (_ & _ & Hrun).
  apply Hrun. reflexivity.
Defined.

(** X14 on the mode [resume], with the inputs of a dispatch present, and
    on a mode naming both branches, with the inputs of a clean-up. *)
Lemma mode_selection_witness :
  run_mode "/data" "/results" "'resume" "bucket'" true dispatch_world
  = (Raise (NotImplementedError
              ("The mode " +:+ "'resume" +:+ " has not been implemented")),
     dispatch_world)
  ∧ run_mode "/data" "/results" "'clean_dispatch" "bucket'" true
      cases.clean_world
    = (Raise (ValueError
                ("Please, check processing manifest path: "
                 +:+ normalised ("/data" +:+ "/processing_manifest.json"))),
       cases.clean_world).
Proof.
  split.
  - destruct (mode_selection (the_host := host) (the_schema := schema)
                "/data" "/results" "'resume" "bucket'" true [] dispatch_world)
      as [Hneither _]; [reflexivity|reflexivity|].
    apply Hneither; reflexivity.
  - destruct (mode_selection (the_host := host) (the_schema := schema)
                "/data" "/results" "'clean_dispatch" "bucket'" true []
                cases.clean_world)
      as [_ Hboth]; [reflexivity|reflexivity|].
    destruct Hboth as [_ Habsent]; [reflexivity|reflexivity|].
    apply Habsent. reflexivity.
Defined.

(** X16 on the parameters [clean,false,bucket]. *)
Lemma parse_params_tokens_witness :
  ["clean,false,bucket"] ≠ []
  ∧ (∃ q m, is_quote q ∧ "'clean" = String q m)
  ∧ (∃ q o, is_quote q ∧ "bucket'" = o +:+ String q EmptyString)
  ∧ "'clean" ≠ "dispatch" ∧ "'clean" ≠ "clean".
Proof.
  apply (parse_params_tokens ["clean,false,bucket"] "'clean" "bucket'" true).
  reflexivity.
Defined.

(** X17 on three names, and on two names of which the last has a comma. *)
Lemma clean_investigator_names_spec_witness :
  clean_investigator_names ["Ada Lovelace"; "Alan Turing"; "Grace Hopper"]
  = Ok "Ada Lovelace, Alan Turing and Grace Hopper"
  ∧ clean_investigator_names ["Ada Lovelace"; "Hopper, Grace"]
    = Ok "Ada Lovelace, Hopper and Grace".
Proof.
  split.
  - destruct (clean_investigator_names_spec ["Ada Lovelace"; "Alan Turing"]
                "Grace Hopper") as (_ & _ & Hplain & _).
    apply Hplain; [discriminate|reflexivity].
  - destruct (clean_investigator_names_spec ["Ada Lovelace"] "Hopper, Grace")
      as (_ & _ & _ & Hcomma).
    apply (Hcomma "Hopper" " Grace"); [discriminate|reflexivity|reflexivity].
Defined.

(** X18 on the two channel paths of the examples, and on a channel path
    without a number. *)
Lemma create_ng_link_outcome_witness :
  let dataset := "s3://bucket/SmartSPIM_123456_2024-01-01_stitched" in
  let outcome := create_ng_link config channel_paths dataset world in
  let ng_output_path := output_folder config +:+ "/neuroglancer_config.json" in
  let ng_link := ng_base_url config +:+ "#!" +:+ dataset
                   +:+ "/neuroglancer_config.json" in
  (∃ descriptor state subject_id,
     (Path "/results/neuroglancer_config.json",
      "https://aind-neuroglancer-sauujisjxq-uw.a.run.app#!s3://bucket/SmartSPIM_123456_2024-01-01_stitched/neuroglancer_config.json")
     = (Path ng_output_path, ng_link)
     ∧ ng_input_configs config channel_paths dataset = Ok descriptor
     ∧ getitem descriptor "title" = Ok (JStr subject_id)
     ∧ split "_" (path_name (Path dataset)) !! 1%nat = Some subject_id
     ∧ getitem descriptor "dimensions" = Ok (ng_dimensions config)
     ∧ NgState_state descriptor "s3" (bucket_path config)
         (output_folder config) (ng_base_url config)
         "neuroglancer_config.json" = Ok state
     ∧ outcome.2 = with_file world ng_output_path
                     (Json (Some 2%nat)
                        (JDict (dict_set "ng_link" (JStr ng_link) state)))
     ∧ Forall (λ p, ∃ n, int_of_str (channel_suffix p) = Ok n) channel_paths)
  ∧ (create_ng_link config ["s3://bucket/green.zarr"] dataset world).2 = world.
Proof.
  intros dataset outcome ng_output_path ng_link. split.
  - destruct (create_ng_link_outcome (the_host := host) (the_schema := schema)
                config channel_paths dataset world) as [_ Hdone].
    apply Hdone. reflexivity.
  - destruct (create_ng_link_outcome (the_host := host) (the_schema := schema)
                config ["s3://bucket/green.zarr"] dataset world)
      as [Hfailed _].
    apply (Hfailed
             (ValueError ("invalid literal for int() with base 10: "
                          +:+ repr_str "green"))).
    reflexivity.
Defined.

(** X19 on the data description of the dispatch run, and on the staging
    area without one. *)
Lemma generate_data_description_outcome_witness :
  let raw := "/data/input_aind_metadata/data_description.json" in
  let outcome :=
    generate_data_description raw "/results/output_aind_metadata" "stitched"
      dispatch_world in
  (∃ indent data institution abbreviation derived,
     files dispatch_world !! raw = Some (Json indent (JDict data))
     ∧ dict_get "institution" data = Some (JDict institution)
     ∧ dict_get "abbreviation" institution = Some abbreviation
     ∧ "SmartSPIM_123456_2024-01-01_stitched"
       = DerivedDataDescription_name derived
     ∧ outcome.2
       = with_file dispatch_world
           ("/results/output_aind_metadata" +:+ "/data_description.json")
           (Json None (DerivedDataDescription_model_dump_json derived)))
  ∧ generate_data_description raw "/results/output_aind_metadata" "stitched"
      world
    = (Raise (FileNotFoundError raw), world).
Proof.
  intros raw outcome. split.
  - destruct (generate_data_description_outcome (the_host := host)
                (the_schema := schema) raw "/results/output_aind_metadata"
                "stitched" dispatch_world) as (_ & Hdone & _).
    apply Hdone. reflexivity.
  - destruct (generate_data_description_outcome (the_host := host)
                (the_schema := schema) raw "/results/output_aind_metadata"
                "stitched" world) as (_ & _ & Hmissing).
    apply Hmissing; [reflexivity|].
    apply (bool_decide_unpack _). vm_compute. reflexivity.
Defined.



(** X22 on the metadata folder of the dispatch run: of two names one is
    there; of the five names [run] asks for, none. *)
Lemma copy_available_metadata_outcome_witness :
  let outcome :=
    copy_available_metadata "/data/input_aind_metadata"
      "/results/output_aind_metadata"
      ["data_description.json"; "subject.json"] dispatch_world in
  outcome.1 = Ok ["/data/input_aind_metadata/data_description.json"]
  ∧ Forall (λ p, is_Some (files outcome.2 !! p))
      ["/data/input_aind_metadata/data_description.json"]
  ∧ copy_available_metadata "/data/input_aind_metadata"
      "/results/output_aind_metadata"
      ["acquisition.json"; "instrument.json"; "subject.json";
       "procedures.json"; "session.json"] dispatch_world
    = (Ok [], dispatch_world).
Proof.
  intros outcome. split; [reflexivity|]. split.
  - destruct (copy_available_metadata_outcome "/data/input_aind_metadata"
                "/results/output_aind_metadata"
                ["data_description.json"; "subject.json"] dispatch_world)
      as [Hdone _].
    destruct (Hdone ["/data/input_aind_metadata/data_description.json"]
                outcome.2) as (_ & Hfiles & _); [reflexivity|].
    exact Hfiles.
  - destruct (copy_available_metadata_outcome "/data/input_aind_metadata"
                "/results/output_aind_metadata"
                ["acquisition.json"; "instrument.json"; "subject.json";
                 "procedures.json"; "session.json"] dispatch_world)
      as [_ Hnone].
    apply Hnone. repeat constructor.
Defined.

(** X23 on the staging area of the dispatch run. *)
Lemma run_dispatch_result_witness :
  let outcome :=
    run_dispatch (the_host := dispatch_host) "/data" "/results" "bucket'"
      true dispatch_world in
  true = true
  ∧ ∃ indent original pipeline0 stitching0 new_dataset_name w2
      manifest pipeline w7 w8,
      let stitching :=
        dict_set "s3_path"
          (JStr ("s3://" +:+ "bucket'" +:+ "/" +:+ new_dataset_name))
          stitching0 in
      let updated :=
        dict_set "pipeline_processing"
          (JDict (dict_set "stitching" (JDict stitching) pipeline0))
          original in
      files dispatch_world !! normalised ("/data" +:+ "/processing_manifest.json")
      = Some (Json indent (JDict original))
      ∧ dict_get "pipeline_processing" original = Some (JDict pipeline0)
      ∧ dict_get "stitching" pipeline0 = Some (JDict stitching0)
      ∧ create_derived_stitched_metadata (the_host := dispatch_host) "/data"
          "/results" dispatch_world
        = (Ok ("/results" +:+ "/output_aind_metadata", new_dataset_name), w2)
      ∧ dispatch (JDict updated) "/results" w7 = (Ok (JDict manifest), w8)
      ∧ outcome.2
        = with_file w8 ("/results" +:+ "/modified_processing_manifest.json")
            (Json (Some 4%nat) (JDict manifest))
      ∧ dict_get "pipeline_processing" manifest = Some (JDict pipeline)
      ∧ dict_get "stitching" pipeline = Some (JDict stitching).
Proof.
  intros outcome.
  apply (run_dispatch_result (the_host := dispatch_host)
           (the_schema := schema) "/data" "/results" "bucket'" true
           dispatch_world outcome.2).
  vm_compute. reflexivity.
Defined.
